(** * TenantFlow backend: room search and booking lifecycle

    A shallow embedding of the routes of the backend that read and
    write rooms and bookings, and the properties checked against them:

    - [GET /available-rooms] (routes/admin.js, the properties router):
      query-string parsing, the data-store query, the Haversine distance,
      the radius filter and the in-process sort;
    - [POST /book-room], [PUT /booking/:bookingId/status] and
      [PUT /booking/:bookingId/cancel] (routes/bookings.js): the three
      handlers that move a booking and its room through their states;
    - [PUT /update-room-status/:roomId],
      [PUT /update-room-coordinates/:roomId] and
      [POST /add-room/:propertyId] (routes/admin.js, the properties
      router): the owner's changes to rooms;
    - [GET /my-bookings] and [GET /owner-bookings] (routes/bookings.js):
      the listings of bookings.

    JavaScript numbers are IEEE 754 binary64 values, modelled by Rocq's
    primitive floats.  [Math.sin], [Math.cos] and [Math.atan2] are
    implementation-approximated in ECMAScript, so the model takes them as
    a parameter ([Math]); [Math.sqrt] is the correctly rounded square
    root.  A string is held as the bytes of its UTF-8 form.

    The data store is an in-memory relational state; every
    [await supabase...] of a handler is one atomic store operation.  Its
    keys are uuids, which a request may spell in more than one way
    ([Db.key]); its [DATE] columns refuse what they do not read as a
    date ([Bookings.date_column]); the [user_id] of a notification
    refers to a user ([Db.add_notification]). *)

From Stdlib Require Import ZArith Floats Ascii String List Bool Lia Sorted.
From stdpp Require Import base option list gmap strings.

Set Warnings "-inexact-float,-register-all".
Local Open Scope Z_scope.

(** ** JavaScript numbers *)

Module JsNum.

(** [Math.PI]. *)
Definition PI : float := 3.141592653589793%float.

(** The number of a decimal numeral [m * 10^e10] with sign [neg], rounded
    to nearest even as [StringToNumber] and [parseFloat] do. *)
Definition of_decimal (neg : bool) (m : N) (e10 : Z) : float :=
  match m with
  | N0 => if neg then (-0)%float else 0%float
  | Npos p =>
      if (0 <=? e10)%Z
      then SF2Prim (binary_normalize prec emax
                      (let z := (Z.pos p * 10 ^ e10)%Z in
                       if neg then (- z)%Z else z)
                      0 false)
      else SF2Prim (SFdiv prec emax (S754_finite neg p 0)
                      (S754_finite false (Z.to_pos (10 ^ (- e10))) 0))
  end.

End JsNum.

(** ** Numerals in strings: [parseFloat] and [StringToNumber] *)

Module JsParse.

Definition is_digit (c : ascii) : bool :=
  let n := nat_of_ascii c in Nat.leb 48 n && Nat.leb n 57.

Definition digit_val (c : ascii) : N := N.of_nat (nat_of_ascii c - 48).

Fixpoint starts_with (p l : list ascii) : option (list ascii) :=
  match p, l with
  | [], _ => Some l
  | a :: p', b :: l' => if Ascii.eqb a b then starts_with p' l' else None
  | _ :: _, [] => None
  end.

(** A string is held as the bytes of its UTF-8 form.  The
    [StrWhiteSpaceChar]s, that is [WhiteSpace] and [LineTerminator]:
    TAB, LF, VT, FF, CR and SP in one byte; U+00A0 in two; U+1680,
    U+2000 to U+200A, U+2028, U+2029, U+202F, U+205F, U+3000 and U+FEFF
    in three. *)
Definition white_space : list (list ascii) :=
  List.map (List.map ascii_of_nat)
    [[9]; [10]; [11]; [12]; [13]; [32]; [194; 160]; [225; 154; 128];
     [226; 128; 128]; [226; 128; 129]; [226; 128; 130]; [226; 128; 131];
     [226; 128; 132]; [226; 128; 133]; [226; 128; 134]; [226; 128; 135];
     [226; 128; 136]; [226; 128; 137]; [226; 128; 138]; [226; 128; 168];
     [226; 128; 169]; [226; 128; 175]; [226; 129; 159]; [227; 128; 128];
     [239; 187; 191]]%nat.

(** [l] without the member of [table] at its head, if there is one. *)
Fixpoint drop_one (table : list (list ascii)) (l : list ascii)
  : option (list ascii) :=
  match table with
  | [] => None
  | w :: table' =>
      match starts_with w l with
      | Some l' => Some l'
      | None => drop_one table' l
      end
  end.

(** [l] without the members of [table] at its head, [fuel] of them at
    most. *)
Fixpoint drop_all (table : list (list ascii)) (fuel : nat) (l : list ascii)
  : list ascii :=
  match fuel with
  | O => l
  | S fuel' =>
      match drop_one table l with
      | Some l' => drop_all table fuel' l'
      | None => l
      end
  end.

Definition skip_spaces (l : list ascii) : list ascii :=
  drop_all white_space (length l) l.

Definition trim (l : list ascii) : list ascii :=
  let l' := rev (skip_spaces l) in
  rev (drop_all (List.map (@rev ascii) white_space) (length l') l').

(** The longest run of decimal digits at the head of [l], read on top of
    [acc]: its value, its length and what follows it. *)
Fixpoint span_digits (l : list ascii) (acc : N) (n : nat)
  : N * nat * list ascii :=
  match l with
  | c :: l' =>
      if is_digit c then span_digits l' (10 * acc + digit_val c)%N (S n)
      else (acc, n, l)
  | [] => (acc, n, [])
  end.

Definition parse_sign (l : list ascii) : bool * list ascii :=
  match l with
  | "-"%char :: l' => (true, l')
  | "+"%char :: l' => (false, l')
  | _ => (false, l)
  end.

(** [ExponentPart]: taken only when it is complete. *)
Definition parse_exponent (l : list ascii) : Z * list ascii :=
  match l with
  | c :: l1 =>
      if Ascii.eqb c "e" || Ascii.eqb c "E" then
        let '(neg, l2) := parse_sign l1 in
        let '(v, n, l3) := span_digits l2 0%N 0%nat in
        match n with
        | O => (0, l)
        | S _ => ((if neg then - Z.of_N v else Z.of_N v), l3)
        end
      else (0, l)
  | [] => (0, l)
  end.

(** [StrUnsignedDecimalLiteral] without [Infinity]: the mantissa as an
    integer, the power of ten and the rest of the input. *)
Definition parse_unsigned_decimal (l : list ascii)
  : option (N * Z * list ascii) :=
  let '(iv, inn, l1) := span_digits l 0%N 0%nat in
  let '(m, fnn, l2) :=
    match l1 with
    | "."%char :: l1' => span_digits l1' iv 0%nat
    | _ => (iv, 0%nat, l1)
    end in
  match (inn + fnn)%nat with
  | O => None
  | S _ =>
      let '(e, l3) := parse_exponent l2 in
      Some (m, (e - Z.of_nat fnn)%Z, l3)
  end.

Definition Infinity_lit : list ascii := list_ascii_of_string "Infinity".

(** [parseFloat(string)]: leading white space is skipped and the longest
    prefix that is a [StrDecimalLiteral] is converted; [NaN] without one. *)
Definition parseFloat (s : string) : float :=
  let l := skip_spaces (list_ascii_of_string s) in
  let '(neg, l1) := parse_sign l in
  match starts_with Infinity_lit l1 with
  | Some _ => if neg then neg_infinity else infinity
  | None =>
      match parse_unsigned_decimal l1 with
      | Some (m, e, _) => JsNum.of_decimal neg m e
      | None => nan
      end
  end.

(** Digits of a [0x], [0o] or [0b] literal. *)
Definition radix_digit (base : N) (c : ascii) : option N :=
  let n := nat_of_ascii c in
  let v :=
    if Nat.leb 48 n && Nat.leb n 57 then Some (N.of_nat (n - 48))
    else if Nat.leb 97 n && Nat.leb n 102 then Some (N.of_nat (n - 87))
    else if Nat.leb 65 n && Nat.leb n 70 then Some (N.of_nat (n - 55))
    else None in
  match v with
  | Some d => if (d <? base)%N then Some d else None
  | None => None
  end.

Fixpoint radix_value (base : N) (l : list ascii) (acc : N) : option N :=
  match l with
  | [] => Some acc
  | c :: l' =>
      match radix_digit base c with
      | Some d => radix_value base l' (base * acc + d)%N
      | None => None
      end
  end.

Definition radix_literal (l : list ascii) : option (option N) :=
  match l with
  | "0"%char :: c :: d :: l' =>
      let go base := Some (radix_value base (d :: l') 0%N) in
      if Ascii.eqb c "x" || Ascii.eqb c "X" then go 16%N
      else if Ascii.eqb c "o" || Ascii.eqb c "O" then go 8%N
      else if Ascii.eqb c "b" || Ascii.eqb c "B" then go 2%N
      else None
  | _ => None
  end.

(** [StringToNumber]: the whole trimmed string must be a
    [StrNumericLiteral]; the empty string is [+0]. *)
Definition string_to_number (s : string) : float :=
  let l := trim (list_ascii_of_string s) in
  match l with
  | [] => 0%float
  | _ =>
      match radix_literal l with
      | Some (Some v) => JsNum.of_decimal false v 0
      | Some None => nan
      | None =>
          let '(neg, l1) := parse_sign l in
          match starts_with Infinity_lit l1 with
          | Some [] => if neg then neg_infinity else infinity
          | Some _ => nan
          | None =>
              match parse_unsigned_decimal l1 with
              | Some (m, e, []) => JsNum.of_decimal neg m e
              | _ => nan
              end
          end
      end
  end.

End JsParse.

(** ** JavaScript values and operators *)

Module Js.

(** The values a row of a JSON response is made of. *)
Inductive value : Type :=
| VUndefined
| VNull
| VBool (b : bool)
| VNum (f : float)
| VStr (s : string)
| VObj (fields : list (string * value)).

Definition of_option {A} (inj : A -> value) (o : option A) : value :=
  match o with
  | Some a => inj a
  | None => VNull
  end.

(** [o[k]]: a property that is not there reads as [undefined]. *)
Fixpoint assoc (k : string) (fs : list (string * value)) : value :=
  match fs with
  | [] => VUndefined
  | (k', v) :: fs' => if String.eqb k k' then v else assoc k fs'
  end.

Definition get (o : value) (k : string) : value :=
  match o with
  | VObj fs => assoc k fs
  | _ => VUndefined
  end.

(** [{ ...o, k: v }]: an own property keeps its place, a new one goes last. *)
Fixpoint assoc_set (k : string) (v : value) (fs : list (string * value))
  : list (string * value) :=
  match fs with
  | [] => [(k, v)]
  | (k', v') :: fs' =>
      if String.eqb k k' then (k', v) :: fs' else (k', v') :: assoc_set k v fs'
  end.

Definition spread_with (o : value) (k : string) (v : value) : value :=
  match o with
  | VObj fs => VObj (assoc_set k v fs)
  | _ => VObj [(k, v)]
  end.

(** [ToBoolean]. *)
Definition truthy (v : value) : bool :=
  match v with
  | VUndefined | VNull => false
  | VBool b => b
  | VNum f => negb (PrimFloat.is_zero f || PrimFloat.is_nan f)
  | VStr s => negb (String.eqb s "")
  | VObj _ => true
  end.

(** [ToNumber]. An object goes through ["[object Object]"], not a numeral. *)
Definition to_number (v : value) : float :=
  match v with
  | VUndefined => nan
  | VNull => 0%float
  | VBool b => if b then 1%float else 0%float
  | VNum f => f
  | VStr s => JsParse.string_to_number s
  | VObj _ => nan
  end.

(** [a || b]. *)
Definition or (a b : value) : value := if truthy a then a else b.

(** [v == null]: [null] and [undefined] only. *)
Definition eq_null (v : value) : bool :=
  match v with
  | VUndefined | VNull => true
  | _ => false
  end.

(** [a ?? b]. *)
Definition coalesce (a b : value) : value := if eq_null a then b else a.

(** [v === null]. *)
Definition is_null (v : value) : bool :=
  match v with
  | VNull => true
  | _ => false
  end.

(** [v === 0]. *)
Definition is_zero_num (v : value) : bool :=
  match v with
  | VNum f => PrimFloat.eqb f 0%float
  | _ => false
  end.

(** [a - b]. *)
Definition sub (a b : value) : float := (to_number a - to_number b)%float.

(** [a <= b]: two strings compare as strings, anything else as numbers. *)
Definition le (a b : value) : bool :=
  match a, b with
  | VStr x, VStr y => String.leb x y
  | _, _ => PrimFloat.leb (to_number a) (to_number b)
  end.

(** [Array.prototype.sort(cmp)].  A comparator result [v > 0] puts its
    first argument after the second; [NaN] counts as [+0].  The sort is
    stable; for a comparator that is a consistent ordering, which is all
    the specification of [sort] fixes, this insertion sort returns the
    sorted array. *)
Fixpoint insert_by {A} (cmp : A -> A -> float) (x : A) (l : list A) : list A :=
  match l with
  | [] => [x]
  | y :: l' =>
      if PrimFloat.ltb 0%float (cmp y x) then x :: y :: l'
      else y :: insert_by cmp x l'
  end.

Definition sort {A} (cmp : A -> A -> float) (l : list A) : list A :=
  fold_left (fun acc x => insert_by cmp x acc) l [].

(** A query-string parameter: absent, or a string. *)
Definition param := option string.

Definition param_truthy (p : param) : bool :=
  match p with
  | Some s => negb (String.eqb s "")
  | None => false
  end.

Definition param_is (p : param) (s : string) : bool :=
  match p with
  | Some s' => String.eqb s' s
  | None => false
  end.

Definition param_text (p : param) : string := default ""%string p.

End Js.

(** [Math.sin], [Math.cos] and [Math.atan2] of the host. *)
Module Math.

Record impl : Type := {
  sin : float -> float;
  cos : float -> float;
  atan2 : float -> float -> float
}.

Definition sqrt (x : float) : float := PrimFloat.sqrt x.

(** What the proofs use of an implementation.  [sin_pos_zero] and
    [atan2_zero_one] are results ECMAScript fixes ([Math.sin(+0)] is
    [+0]; [Math.atan2(+0, x)] is [+0] for [x > 0]); [cos_bounded] is
    the range of the cosine; [sin_odd] is the symmetry every library
    implementation of the sine has. *)
Record laws (M : impl) : Prop := {
  sin_pos_zero : sin M 0%float = 0%float;
  sin_odd : forall x, sin M (- x)%float = (- sin M x)%float;
  cos_bounded : forall x,
    PrimFloat.is_finite x = true ->
    PrimFloat.leb (PrimFloat.abs (cos M x)) 1%float = true;
  atan2_zero_one : atan2 M 0%float 1%float = 0%float
}.

End Math.

(** ** The data store (database/schema.sql) *)

Module Db.

Inductive room_status := Available | Occupied | Reserved | Maintenance.
Inductive booking_status := Pending | Approved | Rejected | Cancelled.

Definition room_status_eqb (a b : room_status) : bool :=
  match a, b with
  | Available, Available | Occupied, Occupied
  | Reserved, Reserved | Maintenance, Maintenance => true
  | _, _ => false
  end.

Definition booking_status_eqb (a b : booking_status) : bool :=
  match a, b with
  | Pending, Pending | Approved, Approved
  | Rejected, Rejected | Cancelled, Cancelled => true
  | _, _ => false
  end.

Definition room_status_text (x : room_status) : string :=
  match x with
  | Available => "available"
  | Occupied => "occupied"
  | Reserved => "reserved"
  | Maintenance => "maintenance"
  end.

(** Rows, without their primary key [id]: a table maps [id] to the row.
    The JSONB columns ([amenities], [images], [verification_documents])
    and the [updated_at] columns kept by triggers are carried by no
    handler logic and are left out, as are the tables no modelled handler
    touches. *)
Record owner_row := {
  owner_user_id : string;
  owner_name : string;
  owner_phone : string;
  owner_business_name : string
}.

Record tenant_row := {
  tenant_user_id : string;
  tenant_name : string;
  tenant_phone : string;
  tenant_room_number : option string
}.

Record property_row := {
  property_owner_id : string;
  property_name : string;
  property_address : string;
  property_city : string;
  property_state : string;
  property_pincode : string;
  property_latitude : option float;
  property_longitude : option float
}.

Record room_row := {
  room_property_id : string;
  room_number : string;
  room_type : string;
  rent_amount : float;
  deposit_amount : option float;
  room_latitude : option float;
  room_longitude : option float;
  room_state : room_status;
  room_last_updated : string;
  room_created_at : string
}.

Record booking_row := {
  booking_tenant_id : string;
  booking_room_id : string;
  booking_property_id : string;
  booking_move_in_date : option string;
  booking_move_out_date : option string;
  booking_state : booking_status;
  booking_owner_notes : option string;
  booking_tenant_notes : option string;
  booking_created_at : string;
  booking_updated_at : string
}.

Record notification := {
  notify_user_id : string;
  notify_title : string;
  notify_message : string;
  notify_type : string
}.

Record audit_entry := {
  audit_user_id : string;
  audit_action : string;
  audit_table : string;
  audit_record_id : string
}.

(** Of the table [users] the store of the model has the ids, which
    are what the [user_id] of a notification refers to. *)
Record store := {
  users : gset string;
  owners : gmap string owner_row;
  tenants : gmap string tenant_row;
  properties : gmap string property_row;
  rooms : gmap string room_row;
  bookings : gmap string booking_row;
  notifications : list notification;
  audit_logs : list audit_entry
}.

Definition set_rooms (s : store) (t : gmap string room_row) : store :=
  {| users := users s;
     owners := owners s; tenants := tenants s; properties := properties s;
     rooms := t; bookings := bookings s;
     notifications := notifications s; audit_logs := audit_logs s |}.

Definition set_bookings (s : store) (t : gmap string booking_row) : store :=
  {| users := users s;
     owners := owners s; tenants := tenants s; properties := properties s;
     rooms := rooms s; bookings := t;
     notifications := notifications s; audit_logs := audit_logs s |}.

Definition set_tenants (s : store) (t : gmap string tenant_row) : store :=
  {| users := users s;
     owners := owners s; tenants := t; properties := properties s;
     rooms := rooms s; bookings := bookings s;
     notifications := notifications s; audit_logs := audit_logs s |}.

(** [insert] into [notifications]: [user_id] refers to a user, and the
    store refuses a row whose [user_id] is not the id of one. *)
Definition add_notification (s : store) (n : notification) : store :=
  {| users := users s;
     owners := owners s; tenants := tenants s; properties := properties s;
     rooms := rooms s; bookings := bookings s;
     notifications :=
       if decide (notify_user_id n ∈ users s) then notifications s ++ [n]
       else notifications s;
     audit_logs := audit_logs s |}.

Definition add_audit (s : store) (a : audit_entry) : store :=
  {| users := users s;
     owners := owners s; tenants := tenants s; properties := properties s;
     rooms := rooms s; bookings := bookings s;
     notifications := notifications s; audit_logs := audit_logs s ++ [a] |}.

(** The rows of a table a filter keeps, in the order the store yields
    them (a query without [order] promises none). *)
Definition select_where {A} (t : gmap string A) (keep : string -> A -> bool)
  : list (string * A) :=
  List.filter (fun kv => keep (fst kv) (snd kv)) (map_to_list t).

(** [.single()]: the row when the query matched exactly one; with no row
    or with several the client reports an error and [data] is [null]. *)
Definition single {A} (rows : list A) : option A :=
  match rows with
  | [r] => Some r
  | _ => None
  end.

(** *** Keys

    The keys are of type [uuid].  The store writes a uuid in lower case,
    in five groups of 8, 4, 4, 4 and 12 hexadecimal digits, and that
    text is the key of a table here.  It reads a uuid in more
    spellings: the 32 digits in either case, with or without a hyphen
    after any group of four, the whole with or without braces. *)
Definition is_hex (c : ascii) : bool :=
  let n := nat_of_ascii c in
  (Nat.leb 48 n && Nat.leb n 57) || (Nat.leb 97 n && Nat.leb n 102)
  || (Nat.leb 65 n && Nat.leb n 70).

Definition lower_hex (c : ascii) : ascii :=
  let n := nat_of_ascii c in
  if Nat.leb 65 n && Nat.leb n 70 then ascii_of_nat (n + 32) else c.

(** The digits of [n] bytes at the head of [l], in lower case, and
    what follows them; of 16 bytes, a hyphen may follow the second, the
    fourth and so on up to the fourteenth. *)
Fixpoint uuid_bytes (n : nat) (l : list ascii)
  : option (list ascii * list ascii) :=
  match n with
  | O => Some ([], l)
  | S n' =>
      match l with
      | a :: b :: l1 =>
          if is_hex a && is_hex b then
            let l2 :=
              match l1 with
              | "-"%char :: l1' =>
                  if Nat.even n' && negb (Nat.eqb n' 0) then l1' else l1
              | _ => l1
              end in
            match uuid_bytes n' l2 with
            | Some (digits, rest) =>
                Some (lower_hex a :: lower_hex b :: digits, rest)
            | None => None
            end
          else None
      | _ => None
      end
  end.

Definition hyphenated (digits : list ascii) : list ascii :=
  firstn 8 digits ++ "-"%char :: firstn 4 (skipn 8 digits)
  ++ "-"%char :: firstn 4 (skipn 12 digits)
  ++ "-"%char :: firstn 4 (skipn 16 digits)
  ++ "-"%char :: skipn 20 digits.

(** The uuid that [text] spells, as the store writes it; nothing when
    [text] spells none, which is an error of the store. *)
Definition uuid_in (text : string) : option string :=
  let l := list_ascii_of_string text in
  let '(braces, l0) :=
    match l with
    | "{"%char :: l' => (true, l')
    | _ => (false, l)
    end in
  match uuid_bytes 16 l0 with
  | Some (digits, rest) =>
      let closed :=
        match rest with
        | [] => negb braces
        | [c] => braces && Ascii.eqb c "}"
        | _ => false
        end in
      if closed then Some (string_of_list_ascii (hyphenated digits)) else None
  | None => None
  end.

(** [.eq('id', text)] compares uuids, not texts: [key t text] is the
    key under which table [t] has the row that [text] names, [text]
    itself where it is a key of [t] as it stands and the uuid it spells
    otherwise.  A text that names no row of [t] finds none. *)
Definition key {A} (t : gmap string A) (text : string) : string :=
  match t !! text with
  | Some _ => text
  | None => default text (uuid_in text)
  end.

(** [.update(change).eq('id', id)]: the row with that primary key, if
    there is one, is changed. *)
Definition update_by_id {A} (t : gmap string A) (id : string) (change : A -> A)
  : gmap string A :=
  match t !! key t id with
  | Some r => <[key t id := change r]> t
  | None => t
  end.

End Db.

(** ** [GET /available-rooms] (routes/admin.js, lines 1314-1418) *)

Module Search.
Import Js Db.

(** *** What the data store does with the query *)

Definition lower (c : ascii) : ascii :=
  let n := nat_of_ascii c in
  if Nat.leb 65 n && Nat.leb n 90 then ascii_of_nat (n + 32) else c.

(** [text ILIKE pattern]: [%] is any run of characters, [_] any one
    character, a backslash takes the next character literally. *)
Fixpoint like (p : list ascii) (t : list ascii) {struct p} : bool :=
  match p with
  | [] => match t with [] => true | _ :: _ => false end
  | c :: p' =>
      if Ascii.eqb c "%" then
        (fix any (t : list ascii) : bool :=
           like p' t || match t with [] => false | _ :: t' => any t' end) t
      else if Ascii.eqb c "_" then
        match t with [] => false | _ :: t' => like p' t' end
      else if Ascii.eqb c "\" then
        match p', t with
        | c' :: p'', d :: t' => Ascii.eqb (lower c') (lower d) && like p'' t'
        | _, _ => false
        end
      else
        match t with
        | [] => false
        | d :: t' => Ascii.eqb (lower c) (lower d) && like p' t'
        end
  end.

Definition ilike_contains (text needle : string) : bool :=
  like ("%"%char :: list_ascii_of_string needle ++ ["%"%char])
       (list_ascii_of_string text).

(** The order of [numeric] values in the store: [NaN] is a value, equal
    to itself and above every other. *)
Definition numeric_le (a b : float) : bool :=
  if PrimFloat.is_nan b then true
  else if PrimFloat.is_nan a then false
  else PrimFloat.leb a b.

(** The query the handler builds: the filters it chained on
    [from('rooms').select(...).eq('status', 'available')] and, on the
    path without coordinates, the [order]. *)
Record room_query := {
  by_location : option string;
  rent_gte : option float;
  rent_lte : option float;
  by_room_type : option string;
  order_by : option (string * bool)
}.

Definition keeps (q : room_query) (r : room_row) (p : property_row) : bool :=
  room_status_eqb (room_state r) Available
  && match by_location q with
     | Some l => ilike_contains (property_city p) l
                 || ilike_contains (property_state p) l
                 || ilike_contains (property_address p) l
     | None => true
     end
  && match rent_gte q with
     | Some v => numeric_le v (rent_amount r)
     | None => true
     end
  && match rent_lte q with
     | Some v => numeric_le (rent_amount r) v
     | None => true
     end
  && match by_room_type q with
     | Some t => String.eqb (room_type r) t
     | None => true
     end.

(** The select list: every column of the room, and of its property
    [id, name, address, city, state, pincode, amenities, images] with the
    owner's [name, phone, business_name].  [amenities] and [images] are
    not read by the handler and are left out of the rows here.  The
    property's [latitude] and [longitude] are not in the list. *)
Definition owner_json (o : owner_row) : value :=
  VObj [("name", VStr (owner_name o)); ("phone", VStr (owner_phone o));
        ("business_name", VStr (owner_business_name o))]%string.

Definition property_json (pid : string) (p : property_row) (o : owner_row)
  : value :=
  VObj [("id", VStr pid); ("name", VStr (property_name p));
        ("address", VStr (property_address p));
        ("city", VStr (property_city p));
        ("state", VStr (property_state p));
        ("pincode", VStr (property_pincode p));
        ("owners", owner_json o)]%string.

Definition room_json (id : string) (r : room_row) (prop : value) : value :=
  VObj [("id", VStr id);
        ("property_id", VStr (room_property_id r));
        ("room_number", VStr (room_number r));
        ("room_type", VStr (room_type r));
        ("rent_amount", VNum (rent_amount r));
        ("deposit_amount", of_option VNum (deposit_amount r));
        ("latitude", of_option VNum (room_latitude r));
        ("longitude", of_option VNum (room_longitude r));
        ("status", VStr (room_status_text (room_state r)));
        ("last_updated", VStr (room_last_updated r));
        ("created_at", VStr (room_created_at r));
        ("properties", prop)]%string.

(** One room through the filters and the two inner joins. *)
Definition row_of (s : store) (q : room_query) (kv : string * room_row)
  : option value :=
  let '(id, r) := kv in
  match properties s !! room_property_id r with
  | Some p =>
      match owners s !! property_owner_id p with
      | Some o =>
          if keeps q r p
          then Some (room_json id r (property_json (room_property_id r) p o))
          else None
      | None => None
      end
  | None => None
  end.

(** [ORDER BY column ASC] puts nulls last, [DESC] puts them first. *)
Definition order_cmp (col : string) (asc : bool) (a b : value) : float :=
  let x := get a col in
  let y := get b col in
  let up : float :=
    match x, y with
    | VNum u, VNum v =>
        if PrimFloat.ltb u v then (-1)%float
        else if PrimFloat.ltb v u then 1%float else 0%float
    | VStr u, VStr v =>
        match String.compare u v with
        | Lt => (-1)%float
        | Eq => 0%float
        | Gt => 1%float
        end
    | _, _ =>
        match eq_null x, eq_null y with
        | true, false => 1%float
        | false, true => (-1)%float
        | _, _ => 0%float
        end
    end in
  if asc then up else (- up)%float.

Definition run_query (s : store) (q : room_query) : list value :=
  let rows := omap (row_of s q) (map_to_list (rooms s)) in
  match order_by q with
  | Some (col, asc) => Js.sort (order_cmp col asc) rows
  | None => rows
  end.

(** *** The handler *)

Record query := {
  location : param;
  maxRent : param;
  minRent : param;
  roomType : param;
  latitude : param;
  longitude : param;
  radius : param;
  sortBy : param;
  sortOrder : param
}.

(** Who sent the request.  The route is registered without
    [authenticateToken] or a role check, so nothing reads it. *)
Inductive role := Owner | Tenant | Admin.

Record principal := { principal_id : string; principal_role : role }.

Record request := {
  caller : option principal;
  params : query
}.

(** The two answers 200.  The handler's answers 500, to a query the
    store fails and to an exception, have no place here: the store of
    the model always answers and no step of the handler throws. *)
Inductive response :=
| Rooms (rooms : list value)
| RoomsNear (rooms : list value) (center_latitude center_longitude : float)
            (search_radius : float).

Definition rooms_of (r : response) : list value :=
  match r with
  | Rooms l => l
  | RoomsNear l _ _ _ => l
  end.


Definition orderColumn (q : query) : string :=
  if param_truthy (sortBy q) then
    if param_is (sortBy q) "rent" then "rent_amount"
    else if param_is (sortBy q) "deposit" then "deposit_amount"
    else if param_is (sortBy q) "created" then "created_at"
    else "created_at"
  else "created_at".

Definition ascending (q : query) : bool :=
  if param_truthy (sortOrder q) then param_is (sortOrder q) "asc" else false.

Definition when (p : param) : option string :=
  if param_truthy p then p else None.

Definition filters (q : query) : room_query :=
  {| by_location := when (location q);
     rent_gte := JsParse.parseFloat <$> when (minRent q);
     rent_lte := JsParse.parseFloat <$> when (maxRent q);
     by_room_type := when (roomType q);
     order_by := None |}.

Definition ordered (f : room_query) (col : string) (asc : bool) : room_query :=
  {| by_location := by_location f; rent_gte := rent_gte f;
     rent_lte := rent_lte f; by_room_type := by_room_type f;
     order_by := Some (col, asc) |}.

Section Handler.
Variable M : Math.impl.

Definition toRad (v : float) : float := (v * JsNum.PI / 180)%float.

Definition distanceKm (lat1 lon1 : float) (lat2 lon2 : value) : value :=
  if eq_null lat2 || eq_null lon2 then VNull
  else
    let R := 6371%float in
    let dLat := toRad (to_number lat2 - lat1) in
    let dLon := toRad (to_number lon2 - lon1) in
    let a :=
      (Math.sin M (dLat / 2) * Math.sin M (dLat / 2)
       + Math.cos M (toRad lat1) * Math.cos M (toRad (to_number lat2))
         * Math.sin M (dLon / 2) * Math.sin M (dLon / 2))%float in
    let c := (2 * Math.atan2 M (Math.sqrt a) (Math.sqrt (1 - a)))%float in
    VNum (R * c).

(** [r => ({ ...r, distance_km: d })] of the [map]. *)
Definition annotate (lat lon : float) (r : value) : value :=
  let prop := or (get r "properties") (VObj []) in
  let d := distanceKm lat lon
             (or (get r "latitude") (get prop "latitude"))
             (or (get r "longitude") (get prop "longitude")) in
  spread_with r "distance_km" d.

(** The predicate of the [filter]. *)
Definition within (radKm : float) (r : value) : bool :=
  is_null (get r "distance_km") || le (get r "distance_km") (VNum radKm).

Definition by_distance (a b : value) : float :=
  sub (or (get a "distance_km") (VNum infinity))
      (or (get b "distance_km") (VNum infinity)).

Definition by_column (col : string) (asc : bool) (a b : value) : float :=
  let av := coalesce (get a col)
              (if is_zero_num (get a col) then VNum 0 else VNull) in
  let bv := coalesce (get b col)
              (if is_zero_num (get b col) then VNum 0 else VNull) in
  if eq_null av && eq_null bv then 0%float
  else if eq_null av then 1%float
  else if eq_null bv then (-1)%float
  else if asc then sub av bv else sub bv av.

(** The path with coordinates, from the candidate rows on. *)
Definition near (q : query) (lat lon radKm : float) (candidates : list value)
  : list value :=
  let roomsData :=
    List.filter (within radKm) (List.map (annotate lat lon) candidates) in
  if param_is (sortBy q) "distance" then Js.sort by_distance roomsData
  else Js.sort (by_column (orderColumn q) (ascending q)) roomsData.

Definition available_rooms (s : store) (req : request) : response :=
  let q := params req in
  if param_truthy (latitude q) && param_truthy (longitude q) then
    let lat := JsParse.parseFloat (param_text (latitude q)) in
    let lon := JsParse.parseFloat (param_text (longitude q)) in
    let radKm :=
      if param_truthy (radius q)
      then JsParse.parseFloat (param_text (radius q)) else 10%float in
    let candidates := run_query s (filters q) in
    RoomsNear (near q lat lon radKm candidates) lat lon radKm
  else
    Rooms (run_query s (ordered (filters q) (orderColumn q) (ascending q))).

End Handler.


End Search.

(** ** The booking routes (routes/bookings.js) *)

Module Bookings.
Import Db.

(** *** Handlers as sequences of store operations

    A handler runs JavaScript between its [await]s and hands one
    operation to the store at each of them.  [run] is a request served
    alone; [interleave] is two requests in flight, the schedule saying
    whose next operation reaches the store first. *)
Inductive prog (A : Type) : Type :=
| Ret (a : A)
| Await {X : Type} (op : store -> store * X) (k : X -> prog A).

Arguments Ret {A} a.
Arguments Await {A X} op k.

Notation "x <~ op ;; k" := (Await op (fun x => k))
  (at level 100, op at next level, right associativity).

Fixpoint run {A} (p : prog A) (s : store) : store * A :=
  match p with
  | Ret a => (s, a)
  | Await op k => let '(s', x) := op s in run (k x) s'
  end.

Definition step {A} (p : prog A) (s : store) : store * prog A :=
  match p with
  | Ret a => (s, Ret a)
  | Await op k => let '(s', x) := op s in (s', k x)
  end.

Fixpoint interleave {A B} (schedule : list bool) (p : prog A) (q : prog B)
  (s : store) : store * A * B :=
  match schedule with
  | [] =>
      let '(s1, a) := run p s in
      let '(s2, b) := run q s1 in
      (s2, a, b)
  | true :: rest => let '(s', p') := step p s in interleave rest p' q s'
  | false :: rest => let '(s', q') := step q s in interleave rest p q' s'
  end.

(** *** The host: the clock, the key the store gives a new booking
    ([uuid_generate_v4()]), [new Date(text)], which answers with the
    [toISOString()] of a date or with nothing for an invalid one, and
    the [DATE] columns of the store: [date_column iso] is the day the
    column keeps of the timestamp [iso] written to it, or nothing where
    the store does not read [iso] as a date and refuses the row (a year
    beyond 9999, which [toISOString()] writes with a sign and six
    digits). *)
Record env := {
  now : string;
  fresh_id : string;
  date_iso : string -> option string;
  date_column : string -> option string
}.

Inductive payload :=
| Errors (fields : list (string * string))
| Error (message : string)
| BookingCreated (id : string) (booking : booking_row)
    (number type : string) (rent : float) (name address : string)
| BookingChanged (message : string) (id : string) (booking : booking_row).

Record response := { status : Z; body : payload }.

Definition failure (code : Z) (message : string) : response :=
  {| status := code; body := Error message |}.

(** *** Store operations *)

Definition read {X} (f : store -> X) : store -> store * X :=
  fun s => (s, f s).

Definition write (f : store -> store) : store -> store * unit :=
  fun s => (f s, tt).

Definition tenant_of_user (uid : string) (s : store)
  : option (string * tenant_row) :=
  single (select_where (tenants s)
            (fun _ t => String.eqb (tenant_user_id t) uid)).

Definition owner_of_user (uid : string) (s : store)
  : option (string * owner_row) :=
  single (select_where (owners s)
            (fun _ o => String.eqb (owner_user_id o) uid)).

Definition is_active (b : booking_row) : bool :=
  booking_status_eqb (booking_state b) Pending
  || booking_status_eqb (booking_state b) Approved.

(** [.eq('tenant_id', id).in('status', ['pending', 'approved']).single()] *)
Definition active_bookings (tid : string) (s : store)
  : list (string * booking_row) :=
  select_where (bookings s)
    (fun _ b => String.eqb (booking_tenant_id b) tid && is_active b).

Definition active_booking (tid : string) (s : store)
  : option (string * booking_row) :=
  single (active_bookings tid s).

(** The room by primary key, with [status = 'available'] and the inner
    joins on its property and the property's owner. *)
Definition available_room (roomId : string) (s : store)
  : option (room_row * property_row * owner_row) :=
  match rooms s !! key (rooms s) roomId with
  | Some r =>
      if room_status_eqb (room_state r) Available then
        match properties s !! room_property_id r with
        | Some p =>
            match owners s !! property_owner_id p with
            | Some o => Some (r, p, o)
            | None => None
            end
        | None => None
        end
      else None
  | None => None
  end.

(** The booking as the store keeps it: [room_id], which the handler
    gives as the text of the request, becomes the key of the room. *)
Definition kept (s : store) (b : booking_row) : booking_row :=
  {| booking_tenant_id := booking_tenant_id b;
     booking_room_id := key (rooms s) (booking_room_id b);
     booking_property_id := booking_property_id b;
     booking_move_in_date := booking_move_in_date b;
     booking_move_out_date := booking_move_out_date b;
     booking_state := booking_state b;
     booking_owner_notes := booking_owner_notes b;
     booking_tenant_notes := booking_tenant_notes b;
     booking_created_at := booking_created_at b;
     booking_updated_at := booking_updated_at b |}.

(** [insert(row).select().single()]: a row that the store cannot make
    of the values, and a key already in the table, are errors of the
    store. *)
Definition insert_booking (id : string) (row : option booking_row) (s : store)
  : store * option (string * booking_row) :=
  match row, bookings s !! id with
  | Some b, None =>
      (set_bookings s (<[id := kept s b]> (bookings s)), Some (id, kept s b))
  | _, _ => (s, None)
  end.

(** [update(change).eq('id', id).select().single()] on bookings. *)
Definition update_booking (id : string) (change : booking_row -> booking_row)
  (s : store) : store * option (string * booking_row) :=
  let k := key (bookings s) id in
  match bookings s !! k with
  | Some b =>
      (set_bookings s (<[k := change b]> (bookings s)), Some (k, change b))
  | None => (s, None)
  end.

Definition set_room_status (id : string) (st : room_status) (t : string)
  (s : store) : store :=
  set_rooms s
    (update_by_id (rooms s) id
       (fun r =>
          {| room_property_id := room_property_id r;
             room_number := room_number r;
             room_type := room_type r;
             rent_amount := rent_amount r;
             deposit_amount := deposit_amount r;
             room_latitude := room_latitude r;
             room_longitude := room_longitude r;
             room_state := st;
             room_last_updated := t;
             room_created_at := room_created_at r |})).

Definition set_tenant_room (id : string) (number : string) (s : store)
  : store :=
  set_tenants s
    (update_by_id (tenants s) id
       (fun t =>
          {| tenant_user_id := tenant_user_id t;
             tenant_name := tenant_name t;
             tenant_phone := tenant_phone t;
             tenant_room_number := Some number |})).

(** The handlers do not look at the outcome of this [insert]. *)
Definition notify (user title message : string) (s : store) : store :=
  add_notification s
    {| notify_user_id := user; notify_title := title;
       notify_message := message; notify_type := "booking" |}.

(** Modelled from the spec: [logActivity] of middleware/auth, which is
    not among the sources.  Audit-log persistence is an external
    collaborator that records the action; it changes no other table. *)
Definition logActivity (user action table record : string) (s : store)
  : store :=
  add_audit s
    {| audit_user_id := user; audit_action := action;
       audit_table := table; audit_record_id := record |}.

(** *** [POST /book-room] *)

(** The JSON body, in camelCase or snake_case. *)
Record book_body := {
  roomId : option string;
  room_id : option string;
  moveInDate : option string;
  move_in_date : option string;
  moveOutDate : option string;
  move_out_date : option string;
  notes : option string;
  tenant_notes : option string
}.

(** [if (!a && b) a = b]. *)
Definition or_else (a b : option string) : option string :=
  if negb (Js.param_truthy a) && Js.param_truthy b then b else a.

Fixpoint hexes (n : nat) (l : list ascii) : option (list ascii) :=
  match n with
  | O => Some l
  | S n' =>
      match l with
      | c :: l' => if is_hex c then hexes n' l' else None
      | [] => None
      end
  end.

Definition one_of (cs : string) (c : ascii) : bool :=
  existsb (Ascii.eqb c) (list_ascii_of_string cs).

(** [uuidRegex.test(text)]. *)
Definition uuid_ok (text : string) : bool :=
  match hexes 8 (list_ascii_of_string text) with
  | Some ("-"%char :: l1) =>
      match hexes 4 l1 with
      | Some ("-"%char :: v :: l2) =>
          one_of "12345" v &&
          match hexes 3 l2 with
          | Some ("-"%char :: w :: l3) =>
              one_of "89abAB" w &&
              match hexes 3 l3 with
              | Some ("-"%char :: l4) =>
                  match hexes 12 l4 with
                  | Some [] => true
                  | _ => false
                  end
              | _ => false
              end
          | _ => false
          end
      | _ => false
      end
  | _ => false
  end.

(** A timestamp, or [null], on its way into a nullable [DATE] column. *)
Definition to_date (e : env) (iso : option string) : option (option string) :=
  match iso with
  | Some text => Some <$> date_column e text
  | None => Some None
  end.

Record booking_request := {
  wanted_room : string;
  wanted_move_in : option string;
  wanted_move_out : option string;
  wanted_notes : option string
}.

(** The validation at the head of the handler: the list of errors, or
    the normalized values. *)
Definition validate (e : env) (b : book_body)
  : list (string * string) + booking_request :=
  let roomId := or_else (roomId b) (room_id b) in
  let moveInDate := or_else (moveInDate b) (move_in_date b) in
  let moveOutDate := or_else (moveOutDate b) (move_out_date b) in
  let notes := or_else (notes b) (tenant_notes b) in
  let room_errors :=
    if negb (Js.param_truthy roomId) || negb (uuid_ok (Js.param_text roomId))
    then [("roomId", "roomId is required and must be a UUID")]%string
    else [] in
  let '(parsedMoveIn, in_errors) :=
    if negb (Js.param_truthy moveInDate)
    then (None, [("moveInDate", "moveInDate is required")]%string)
    else match date_iso e (Js.param_text moveInDate) with
         | Some iso => (Some iso, [])
         | None =>
             (None,
              [("moveInDate",
                "moveInDate must be a valid date (ISO8601 or YYYY-MM-DD)")
              ]%string)
         end in
  let '(parsedMoveOut, out_errors) :=
    if Js.param_truthy moveOutDate
    then match date_iso e (Js.param_text moveOutDate) with
         | Some iso => (Some iso, [])
         | None =>
             (None,
              [("moveOutDate",
                "moveOutDate must be a valid date (ISO8601 or YYYY-MM-DD)")
              ]%string)
         end
    else (None, []) in
  match room_errors ++ in_errors ++ out_errors with
  | [] =>
      inr {| wanted_room := Js.param_text roomId;
             wanted_move_in := parsedMoveIn;
             wanted_move_out := parsedMoveOut;
             wanted_notes := notes |}
  | errors => inl errors
  end.

(** The row the store makes of the values of the [insert], or nothing
    where a [DATE] column refuses its value.  [created_at] and
    [updated_at] default to the time of the insertion. *)
Definition new_booking (e : env) (tid : string) (v : booking_request)
  (pid : string) : option booking_row :=
  match to_date e (wanted_move_in v), to_date e (wanted_move_out v) with
  | Some move_in, Some move_out =>
      Some {| booking_tenant_id := tid;
              booking_room_id := wanted_room v;
              booking_property_id := pid;
              booking_move_in_date := move_in;
              booking_move_out_date := move_out;
              booking_state := Pending;
              booking_owner_notes := None;
              booking_tenant_notes := wanted_notes v;
              booking_created_at := now e;
              booking_updated_at := now e |}
  | _, _ => None
  end.

(** The handler, for the authenticated tenant user [uid]. *)
Definition book_room (e : env) (uid : string) (b : book_body)
  : prog response :=
  match validate e b with
  | inl errors => Ret {| status := 400; body := Errors errors |}
  | inr v =>
    tenant <~ read (tenant_of_user uid) ;;
    match tenant with
    | None => Ret (failure 404 "Tenant profile not found")
    | Some (tid, t) =>
      existingBooking <~ read (active_booking tid) ;;
      match existingBooking with
      | Some _ => Ret (failure 400 "You already have an active booking")
      | None =>
        room <~ read (available_room (wanted_room v)) ;;
        match room with
        | None => Ret (failure 400 "Room not available for booking")
        | Some (r, p, o) =>
          booking <~ insert_booking (fresh_id e)
                       (new_booking e tid v (room_property_id r)) ;;
          match booking with
          | None => Ret (failure 500 "Failed to create booking request")
          | Some (id, row) =>
            _ <~ write (set_room_status (wanted_room v) Reserved (now e)) ;;
            _ <~ write (notify (owner_user_id o) "New Booking Request"
                          ("New booking request from " ++ tenant_name t
                           ++ " for room " ++ room_number r)) ;;
            _ <~ write (logActivity uid "create" "bookings" id) ;;
            Ret {| status := 201;
                   body := BookingCreated id row (room_number r)
                             (room_type r) (rent_amount r)
                             (property_name p) (property_address p) |}
          end
        end
      end
    end
  end.

(** *** [PUT /booking/:bookingId/status] *)

Record status_body := {
  status_text : option string;
  status_notes : option string
}.

(** [body('status').isIn(['approved', 'rejected'])]. *)
Definition decision (b : status_body) : option booking_status :=
  match status_text b with
  | Some t =>
      if String.eqb t "approved" then Some Approved
      else if String.eqb t "rejected" then Some Rejected
      else None
  | None => None
  end.

(** [body('notes').optional().trim()]. *)
Definition trimmed (text : string) : string :=
  string_of_list_ascii (JsParse.trim (list_ascii_of_string text)).

Definition decision_text (d : booking_status) : string :=
  match d with
  | Approved => "approved"
  | _ => "rejected"
  end.

Definition decision_title (d : booking_status) : string :=
  match d with
  | Approved => "Approved"
  | _ => "Rejected"
  end.

(** The booking by primary key with the inner joins on its tenant, its
    room and its property, the property being one of [owner]. *)
Definition booking_of_owner (bid owner : string) (s : store)
  : option (booking_row * tenant_row * room_row) :=
  match bookings s !! key (bookings s) bid with
  | Some b =>
      match tenants s !! booking_tenant_id b,
            rooms s !! booking_room_id b,
            properties s !! booking_property_id b with
      | Some t, Some r, Some p =>
          if String.eqb (property_owner_id p) owner then Some (b, t, r)
          else None
      | _, _, _ => None
      end
  | None => None
  end.

Definition decided (d : booking_status) (notes : option string) (t : string)
  (b : booking_row) : booking_row :=
  {| booking_tenant_id := booking_tenant_id b;
     booking_room_id := booking_room_id b;
     booking_property_id := booking_property_id b;
     booking_move_in_date := booking_move_in_date b;
     booking_move_out_date := booking_move_out_date b;
     booking_state := d;
     booking_owner_notes :=
       match notes with
       | Some n => Some (trimmed n)
       | None => booking_owner_notes b
       end;
     booking_tenant_notes := booking_tenant_notes b;
     booking_created_at := booking_created_at b;
     booking_updated_at := t |}.

(** The handler, for the authenticated owner user [uid]. *)
Definition update_status (e : env) (uid bookingId : string) (body : status_body)
  : prog response :=
  match decision body with
  | None =>
      Ret {| status := 400; body := Errors [("status", "Invalid value")]%string |}
  | Some d =>
    owner <~ read (owner_of_user uid) ;;
    match owner with
    | None => Ret (failure 404 "Owner profile not found")
    | Some (oid, _) =>
      booking <~ read (booking_of_owner bookingId oid) ;;
      match booking with
      | None => Ret (failure 404 "Booking not found or access denied")
      | Some (b, t, r) =>
        if negb (booking_status_eqb (booking_state b) Pending)
        then Ret (failure 400 "Booking has already been processed")
        else
          updatedBooking <~ update_booking bookingId
                              (decided d (status_notes body) (now e)) ;;
          match updatedBooking with
          | None => Ret (failure 500 "Failed to update booking status")
          | Some (id, row) =>
            let finish : prog response :=
              _ <~ write (notify (tenant_user_id t)
                            ("Booking " ++ decision_title d)
                            ("Your booking request for room " ++ room_number r
                             ++ " has been " ++ decision_text d ++ ".")) ;;
              _ <~ write (logActivity uid "update" "bookings" bookingId) ;;
              Ret {| status := 200;
                     body := BookingChanged
                               ("Booking " ++ decision_text d ++ " successfully")
                               id row |} in
            match d with
            | Approved =>
                _ <~ write (set_room_status (booking_room_id b) Occupied
                              (now e)) ;;
                _ <~ write (set_tenant_room (booking_tenant_id b)
                              (room_number r)) ;;
                finish
            | _ =>
                _ <~ write (set_room_status (booking_room_id b) Available
                              (now e)) ;;
                finish
            end
          end
      end
    end
  end.

(** *** [PUT /booking/:bookingId/cancel] *)

(** The booking by primary key, of tenant [tid], with the inner joins
    on its room and its property. *)
Definition booking_of_tenant (bid tid : string) (s : store)
  : option (booking_row * room_row * property_row) :=
  match bookings s !! key (bookings s) bid with
  | Some b =>
      if String.eqb (booking_tenant_id b) tid then
        match rooms s !! booking_room_id b,
              properties s !! booking_property_id b with
        | Some r, Some p => Some (b, r, p)
        | _, _ => None
        end
      else None
  | None => None
  end.

Definition cancelled (t : string) (b : booking_row) : booking_row :=
  {| booking_tenant_id := booking_tenant_id b;
     booking_room_id := booking_room_id b;
     booking_property_id := booking_property_id b;
     booking_move_in_date := booking_move_in_date b;
     booking_move_out_date := booking_move_out_date b;
     booking_state := Cancelled;
     booking_owner_notes := booking_owner_notes b;
     booking_tenant_notes := booking_tenant_notes b;
     booking_created_at := booking_created_at b;
     booking_updated_at := t |}.

(** The handler, for the authenticated tenant user [uid]. *)
Definition cancel (e : env) (uid bookingId : string) : prog response :=
  tenant <~ read (tenant_of_user uid) ;;
  match tenant with
  | None => Ret (failure 404 "Tenant profile not found")
  | Some (tid, _) =>
    booking <~ read (booking_of_tenant bookingId tid) ;;
    match booking with
    | None => Ret (failure 404 "Booking not found or access denied")
    | Some (b, r, p) =>
      if booking_status_eqb (booking_state b) Cancelled
      then Ret (failure 400 "Booking is already cancelled")
      else
        updatedBooking <~ update_booking bookingId (cancelled (now e)) ;;
        match updatedBooking with
        | None => Ret (failure 500 "Failed to cancel booking")
        | Some (id, row) =>
          _ <~ write (set_room_status (booking_room_id b) Available (now e)) ;;
          _ <~ write (notify (property_owner_id p) "Booking Cancelled"
                        ("Booking for room " ++ room_number r
                         ++ " has been cancelled.")) ;;
          _ <~ write (logActivity uid "update" "bookings" bookingId) ;;
          Ret {| status := 200;
                 body := BookingChanged "Booking cancelled successfully"
                           id row |}
        end
    end
  end.

(** *** The three operations of the lifecycle *)

Inductive operation :=
| CreateBooking (e : env) (uid : string) (b : book_body)
| DecideBooking (e : env) (uid bookingId : string) (b : status_body)
| CancelBooking (e : env) (uid bookingId : string).

Definition handler (o : operation) : prog response :=
  match o with
  | CreateBooking e uid b => book_room e uid b
  | DecideBooking e uid bid b => update_status e uid bid b
  | CancelBooking e uid bid => cancel e uid bid
  end.

Definition apply (o : operation) (s : store) : store := fst (run (handler o) s).

Definition apply_all (os : list operation) (s : store) : store :=
  fold_left (fun s o => apply o s) os s.

Definition state_of (bid : string) (s : store) : option booking_status :=
  booking_state <$> bookings s !! bid.

Definition room_state_of (rid : string) (s : store) : option room_status :=
  room_state <$> rooms s !! rid.

(** The store reads the dates of the request. *)
Definition dated (e : env) (v : booking_request) : Prop :=
  to_date e (wanted_move_in v) <> None
  /\ to_date e (wanted_move_out v) <> None.

(** The invariant of the data model: a tenant has at most one active
    booking. *)
Definition one_active (s : store) : Prop :=
  forall tid, (length (active_bookings tid s) <= 1)%nat.

(** The one operation that moves a booking out of [rejected]: its own
    cancellation, the request naming the booking by its key or by
    another spelling of it. *)
Definition cancels (bid : string) (o : operation) : Prop :=
  match o with
  | CancelBooking _ _ bookingId =>
      bookingId = bid \/ uuid_in bookingId = Some bid
  | _ => False
  end.

End Bookings.

(** ** The room routes (routes/admin.js, lines 1177-1246 and 1421-1480) *)

Module Rooms.
Import Db Bookings.
Local Open Scope string_scope.

Inductive payload :=
| Errors (fields : list (string * string))
| Error (message : string)
| RoomChanged (message : string) (id : string) (room : room_row).

Record response := { status : Z; body : payload }.

Definition failure (code : Z) (message : string) : response :=
  {| status := code; body := Error message |}.

(** The room by primary key with the inner joins on its property and
    the property's owner, the owner being the user [uid]. *)
Definition room_of_user (roomId uid : string) (s : store) : option room_row :=
  match rooms s !! key (rooms s) roomId with
  | Some r =>
      match properties s !! room_property_id r with
      | Some p =>
          match owners s !! property_owner_id p with
          | Some o => if String.eqb (owner_user_id o) uid then Some r else None
          | None => None
          end
      | None => None
      end
  | None => None
  end.

(** [.eq('room_id', id).in('status', ['pending', 'approved']).single()] *)
Definition room_active_bookings (roomId : string) (s : store)
  : list (string * booking_row) :=
  select_where (bookings s)
    (fun _ b => String.eqb (booking_room_id b) (key (rooms s) roomId)
                && is_active b).

Definition room_active_booking (roomId : string) (s : store)
  : option (string * booking_row) :=
  single (room_active_bookings roomId s).

(** [update(change).eq('id', id).select().single()] on rooms. *)
Definition update_room (id : string) (change : room_row -> room_row)
  (s : store) : store * option (string * room_row) :=
  let k := key (rooms s) id in
  match rooms s !! k with
  | Some r => (set_rooms s (<[k := change r]> (rooms s)), Some (k, change r))
  | None => (s, None)
  end.

(** *** [PUT /update-room-status/:roomId] *)

Record room_status_body := { wanted_status : option string }.

(** [body('status').isIn(['available', 'occupied', 'reserved',
    'maintenance'])]. *)
Definition requested_status (b : room_status_body) : option room_status :=
  match wanted_status b with
  | Some t =>
      if String.eqb t "available" then Some Available
      else if String.eqb t "occupied" then Some Occupied
      else if String.eqb t "reserved" then Some Reserved
      else if String.eqb t "maintenance" then Some Maintenance
      else None
  | None => None
  end.

Definition with_status (st : room_status) (t : string) (r : room_row)
  : room_row :=
  {| room_property_id := room_property_id r;
     room_number := room_number r;
     room_type := room_type r;
     rent_amount := rent_amount r;
     deposit_amount := deposit_amount r;
     room_latitude := room_latitude r;
     room_longitude := room_longitude r;
     room_state := st;
     room_last_updated := t;
     room_created_at := room_created_at r |}.

(** The handler, for the authenticated user [uid], whom
    [requireOwnerVerification] has let through. *)
Definition update_room_status (e : env) (uid roomId : string)
  (b : room_status_body) : prog response :=
  match requested_status b with
  | None =>
      Ret {| status := 400; body := Errors [("status", "Invalid value")] |}
  | Some st =>
    room <~ read (room_of_user roomId uid) ;;
    match room with
    | None => Ret (failure 404 "Room not found or access denied")
    | Some r =>
      let update : prog response :=
        updatedRoom <~ update_room roomId (with_status st (now e)) ;;
        match updatedRoom with
        | None => Ret (failure 500 "Failed to update room status")
        | Some (id, row) =>
          _ <~ write (logActivity uid "update" "rooms" roomId) ;;
          Ret {| status := 200;
                 body := RoomChanged "Room status updated successfully"
                           id row |}
        end in
      if room_status_eqb st Available then
        activeBooking <~ read (room_active_booking roomId) ;;
        match activeBooking with
        | Some _ =>
            Ret (failure 400
                   "Cannot mark room as available while it has active bookings")
        | None => update
        end
      else update
    end
  end.

(** *** [PUT /update-room-coordinates/:roomId] *)

(** [parseFloat(v)]: the argument goes through [String(v)].  The string
    of a number reads back as that number ([-0], whose string is ["0"],
    as [0]); the strings of [undefined], [null], a boolean and an object
    are no numerals. *)
Definition parse_float (v : Js.value) : float :=
  match v with
  | Js.VStr text => JsParse.parseFloat text
  | Js.VNum x => if PrimFloat.is_zero x then 0%float else x
  | _ => nan
  end.

(** The columns of the store.  [decimal p s x] is what a
    [DECIMAL(p, s)] column gives back for a finite number [x] written to
    it: the number rounded to [s] decimals, or nothing when it has more
    than [p - s] digits before the point, which the store refuses.
    [varchar n text] is whether a [VARCHAR(n)] column takes the text,
    that is whether it has at most [n] characters. *)
Record columns := {
  decimal : Z -> Z -> float -> option float;
  varchar : Z -> string -> bool
}.

(** A number on its way into a nullable [DECIMAL(p, s)] column: the
    request body is JSON, where [NaN] and the infinities are [null]. *)
Definition to_column (C : columns) (p s : Z) (x : float)
  : option (option float) :=
  if PrimFloat.is_finite x then Some <$> decimal C p s x else Some None.

(** [update(values).eq('id', id).select().single()] on rooms, where the
    store may refuse the values. *)
Definition update_room_with (id : string)
  (change : room_row -> option room_row) (s : store)
  : store * option (string * room_row) :=
  let k := key (rooms s) id in
  match rooms s !! k with
  | Some r =>
      match change r with
      | Some r' => (set_rooms s (<[k := r']> (rooms s)), Some (k, r'))
      | None => (s, None)
      end
  | None => (s, None)
  end.

(** The request as the validation chain
    [body('latitude').isFloat({ min: -90, max: 90 }),
     body('longitude').isFloat({ min: -180, max: 180 })]
    leaves it: the errors of [validationResult(req)] and the body. *)
Record coordinates_body := {
  invalid : list (string * string);
  body_latitude : Js.value;
  body_longitude : Js.value
}.

Definition with_coordinates (C : columns) (lat lon : float) (r : room_row)
  : option room_row :=
  match to_column C 10 8 lat, to_column C 11 8 lon with
  | Some la, Some lo =>
      Some {| room_property_id := room_property_id r;
              room_number := room_number r;
              room_type := room_type r;
              rent_amount := rent_amount r;
              deposit_amount := deposit_amount r;
              room_latitude := la;
              room_longitude := lo;
              room_state := room_state r;
              room_last_updated := room_last_updated r;
              room_created_at := room_created_at r |}
  | _, _ => None
  end.

(** The handler, for the authenticated user [uid], whom
    [requireOwnerVerification] has let through. *)
Definition update_room_coordinates (C : columns) (uid roomId : string)
  (b : coordinates_body) : prog response :=
  match invalid b with
  | _ :: _ => Ret {| status := 400; body := Errors (invalid b) |}
  | [] =>
    room <~ read (room_of_user roomId uid) ;;
    match room with
    | None => Ret (failure 404 "Room not found or access denied")
    | Some r =>
      updatedRoom <~ update_room_with roomId
                       (with_coordinates C (parse_float (body_latitude b))
                          (parse_float (body_longitude b))) ;;
      match updatedRoom with
      | None => Ret (failure 500 "Failed to update room coordinates")
      | Some (id, row) =>
        _ <~ write (logActivity uid "update" "rooms" roomId) ;;
        Ret {| status := 200;
               body := RoomChanged "Room coordinates updated successfully"
                         id row |}
      end
    end
  end.

End Rooms.

(** ** [POST /add-room/:propertyId] (routes/admin.js, lines 1096-1174) *)

Module NewRoom.
Import Js Db Bookings.
Local Open Scope string_scope.

(** The request as the validation chain leaves it: the errors of
    [validationResult(req)] and the fields of the body that the rows of
    the model carry ([amenities] is not among them). *)
Record room_body := {
  invalid : list (string * string);
  roomNumber : value;
  roomType : value;
  rentAmount : value;
  depositAmount : value;
  latitude : value;
  longitude : value
}.

Inductive payload :=
| ValidationFailed (errors : list (string * string))
| Error (message : string)
| RoomAdded (id : string) (room : room_row).

Record response := { status : Z; body : payload }.

Definition failure (code : Z) (message : string) : response :=
  {| status := code; body := Error message |}.

(** [typeof v === 'string' ? v : '']. *)
Definition text_or_empty (v : value) : string :=
  match v with
  | VStr text => text
  | _ => ""
  end.

(** [if (v && typeof v === 'string') v = parseFloat(v)]. *)
Definition parsed_if_text (v : value) : value :=
  match v with
  | VStr text => if truthy v then VNum (JsParse.parseFloat text) else v
  | _ => v
  end.

(** The property by primary key with the inner join on its owner, the
    owner being the user [uid]. *)
Definition property_of_user (propertyId uid : string) (s : store)
  : option property_row :=
  match properties s !! key (properties s) propertyId with
  | Some p =>
      match owners s !! property_owner_id p with
      | Some o => if String.eqb (owner_user_id o) uid then Some p else None
      | None => None
      end
  | None => None
  end.

(** The rooms of the property with key [propertyId] that have the
    number. *)
Definition rooms_numbered (propertyId number : string) (s : store)
  : list (string * room_row) :=
  select_where (rooms s)
    (fun _ r => String.eqb (room_property_id r) propertyId
                && String.eqb (room_number r) number).

(** The row the store makes of [roomData], or nothing where a column
    refuses its value: [room_number] is [VARCHAR(50)], [room_type]
    [VARCHAR(100)], [rent_amount] [DECIMAL(10,2) NOT NULL],
    [deposit_amount] [DECIMAL(10,2)], the coordinates [DECIMAL(10,8)]
    and [DECIMAL(11,8)]; a coordinate that is no number is refused.
    [created_at] and [last_updated] default to the time of the
    insertion. *)
Definition new_room (C : Rooms.columns) (t propertyId : string)
  (b : room_body) : option room_row :=
  let number := text_or_empty (roomNumber b) in
  let type := text_or_empty (roomType b) in
  let deposit :=
    if truthy (depositAmount b) then Rooms.parse_float (depositAmount b)
    else 0%float in
  let lat := parsed_if_text (latitude b) in
  let lon := parsed_if_text (longitude b) in
  let coordinates : option (option float * option float) :=
    if truthy lat && truthy lon then
      match lat, lon with
      | VNum la, VNum lo =>
          match Rooms.to_column C 10 8 la, Rooms.to_column C 11 8 lo with
          | Some x, Some y => Some (x, y)
          | _, _ => None
          end
      | _, _ => None
      end
    else Some (None, None) in
  if Rooms.varchar C 50 number && Rooms.varchar C 100 type then
    match Rooms.to_column C 10 2 (Rooms.parse_float (rentAmount b)),
          Rooms.to_column C 10 2 deposit, coordinates with
    | Some (Some rent), Some dep, Some (la, lo) =>
        Some {| room_property_id := propertyId;
                room_number := number;
                room_type := type;
                rent_amount := rent;
                deposit_amount := dep;
                room_latitude := la;
                room_longitude := lo;
                room_state := Available;
                room_last_updated := t;
                room_created_at := t |}
    | _, _, _ => None
    end
  else None.

(** The room as the store keeps it: [property_id], which the handler
    gives as the text of the request, becomes the key of the property. *)
Definition kept (s : store) (r : room_row) : room_row :=
  {| room_property_id := key (properties s) (room_property_id r);
     room_number := room_number r;
     room_type := room_type r;
     rent_amount := rent_amount r;
     deposit_amount := deposit_amount r;
     room_latitude := room_latitude r;
     room_longitude := room_longitude r;
     room_state := room_state r;
     room_last_updated := room_last_updated r;
     room_created_at := room_created_at r |}.

(** [insert(roomData).select().single()]: besides the columns, the
    store refuses a second room with the number in the property
    ([UNIQUE(property_id, room_number)]) and a key that is taken. *)
Definition insert_room (id : string) (row : option room_row) (s : store)
  : store * option (string * room_row) :=
  match row with
  | Some r =>
      match rooms s !! id,
            rooms_numbered (room_property_id (kept s r)) (room_number r) s with
      | None, [] =>
          (set_rooms s (<[id := kept s r]> (rooms s)), Some (id, kept s r))
      | _, _ => (s, None)
      end
  | None => (s, None)
  end.

(** The handler, for the authenticated user [uid], whom
    [requireOwnerVerification] has let through.  [rentAmount.toString()]
    throws on [undefined] and [null]; the handler catches it. *)
Definition add_room (C : Rooms.columns) (e : env) (uid propertyId : string)
  (b : room_body) : prog response :=
  match invalid b with
  | _ :: _ => Ret {| status := 400; body := ValidationFailed (invalid b) |}
  | [] =>
    if eq_null (rentAmount b) then Ret (failure 500 "Internal server error")
    else
      property <~ read (property_of_user propertyId uid) ;;
      match property with
      | None => Ret (failure 404 "Property not found or access denied")
      | Some _ =>
        existingRoom <~ read (fun s =>
                          single (rooms_numbered
                                    (key (properties s) propertyId)
                                    (text_or_empty (roomNumber b)) s)) ;;
        match existingRoom with
        | Some _ =>
            Ret (failure 400 "Room number already exists in this property")
        | None =>
          room <~ insert_room (fresh_id e)
                    (new_room C (now e) propertyId b) ;;
          match room with
          | None => Ret (failure 500 "Failed to create room")
          | Some (id, row) =>
            _ <~ write (logActivity uid "create" "rooms" id) ;;
            Ret {| status := 201; body := RoomAdded id row |}
          end
        end
      end
  end.

End NewRoom.

(** ** The listings of bookings (routes/bookings.js, lines 157-227) *)

Module Listing.
Import Db Bookings.
Local Open Scope string_scope.

(** *** [GET /my-bookings] *)

(** A booking as the select list shows it: every column, the room's
    [room_number, room_type, rent_amount] and the property's
    [name, address, city].  The two joins are not inner joins: a
    booking whose room or property is not there has [null] in its
    place. *)
Record booking_view := {
  view_id : string;
  view_booking : booking_row;
  view_room : option (string * string * float);
  view_property : option (string * string * string)
}.



Inductive payload :=
| Error (message : string)
| Bookings (bookings : list booking_view).

Record response := { status : Z; body : payload }.




(** *** [GET /owner-bookings] *)

(** A booking as the select list shows it to an owner: every column,
    the tenant's [name, phone] ([emergency_contact] is not a column of
    the rows here), the room's [room_number, room_type, rent_amount]
    and the property's [name, address].  None of the joins is an inner
    join, so the filter [.eq('properties.owner_id', owner.id)] bears on
    the embedded property and not on the bookings: a booking of another
    owner's property stays in the result, with [null] for its
    property. *)
Record owner_view := {
  seen_id : string;
  seen_booking : booking_row;
  seen_tenant : option (string * string);
  seen_room : option (string * string * float);
  seen_property : option (string * string)
}.

Definition seen_by (oid : string) (s : store) (kv : string * booking_row)
  : owner_view :=
  {| seen_id := fst kv;
     seen_booking := snd kv;
     seen_tenant :=
       (fun t => (tenant_name t, tenant_phone t))
         <$> tenants s !! booking_tenant_id (snd kv);
     seen_room :=
       (fun r => (room_number r, room_type r, rent_amount r))
         <$> rooms s !! booking_room_id (snd kv);
     seen_property :=
       match properties s !! booking_property_id (snd kv) with
       | Some p =>
           if String.eqb (property_owner_id p) oid
           then Some (property_name p, property_address p)
           else None
       | None => None
       end |}.

(** [.order('created_at', { ascending: false })]. *)
Definition seen_newest_first (a b : owner_view) : float :=
  match String.compare (booking_created_at (seen_booking a))
                       (booking_created_at (seen_booking b)) with
  | Lt => 1%float
  | Eq => 0%float
  | Gt => (-1)%float
  end.

Inductive owner_payload :=
| OwnerError (message : string)
| OwnerBookings (bookings : list owner_view).

Record owner_response := { owner_status : Z; owner_body : owner_payload }.

Definition bookings_seen_by (oid : string) (s : store) : list owner_view :=
  Js.sort seen_newest_first
    (List.map (seen_by oid s) (map_to_list (bookings s))).

(** The handler, for the authenticated owner user [uid]. *)
Definition owner_bookings (uid : string) : prog owner_response :=
  owner <~ read (owner_of_user uid) ;;
  match owner with
  | None =>
      Ret {| owner_status := 404;
             owner_body := OwnerError "Owner profile not found" |}
  | Some (oid, _) =>
    bookings <~ read (bookings_seen_by oid) ;;
    Ret {| owner_status := 200; owner_body := OwnerBookings bookings |}
  end.

Definition seen (r : owner_response) : list owner_view :=
  match owner_body r with
  | OwnerBookings l => l
  | OwnerError _ => []
  end.

End Listing.

(** ** Example data *)

Module Sample.
Import Db.
Local Open Scope string_scope.

Definition owner1 := "0a000000-0000-4000-8000-000000000001".
Definition owner1_user := "0b000000-0000-4000-8000-000000000001".
Definition tenant1 := "1a000000-0000-4000-8000-000000000001".
Definition tenant1_user := "1b000000-0000-4000-8000-000000000001".
Definition tenant2 := "1a000000-0000-4000-8000-000000000002".
Definition tenant2_user := "1b000000-0000-4000-8000-000000000002".
Definition property1 := "2a000000-0000-4000-8000-000000000001".
Definition room1 := "3a000000-0000-4000-8000-000000000001".
Definition room2 := "3a000000-0000-4000-8000-000000000002".
Definition room3 := "3a000000-0000-4000-8000-000000000003".
Definition booking1 := "4a000000-0000-4000-8000-000000000001".
Definition booking2 := "4a000000-0000-4000-8000-000000000002".
Definition booking3 := "4a000000-0000-4000-8000-000000000003".

Definition a_room (number : string) (st : room_status) : room_row :=
  {| room_property_id := property1; room_number := number;
     room_type := "Single"; rent_amount := 8000%float;
     deposit_amount := Some 16000%float;
     room_latitude := None; room_longitude := None;
     room_state := st;
     room_last_updated := "2024-05-01T00:00:00+00:00";
     room_created_at := "2024-05-01T00:00:00+00:00" |}.

Definition a_booking (tid rid : string) (st : booking_status) : booking_row :=
  {| booking_tenant_id := tid; booking_room_id := rid;
     booking_property_id := property1;
     booking_move_in_date := Some "2024-06-01";
     booking_move_out_date := None;
     booking_state := st;
     booking_owner_notes := None; booking_tenant_notes := None;
     booking_created_at := "2024-05-20T00:00:00+00:00";
     booking_updated_at := "2024-05-20T00:00:00+00:00" |}.

Definition asha : owner_row :=
  {| owner_user_id := owner1_user; owner_name := "Asha";
     owner_phone := "9000000001"; owner_business_name := "Asha Homes" |}.

Definition ravi : tenant_row :=
  {| tenant_user_id := tenant1_user; tenant_name := "Ravi";
     tenant_phone := "9000000002"; tenant_room_number := None |}.

Definition meena : tenant_row :=
  {| tenant_user_id := tenant2_user; tenant_name := "Meena";
     tenant_phone := "9000000003"; tenant_room_number := None |}.

Definition lake_view : property_row :=
  {| property_owner_id := owner1; property_name := "Lake View";
     property_address := "12 Ring Road"; property_city := "New Delhi";
     property_state := "Delhi"; property_pincode := "110001";
     property_latitude := Some 28.6139%float;
     property_longitude := Some 77.2090%float |}.

(** One owner with one property in Delhi, at (28.6139, 77.2090), with
    three available rooms that have no coordinates of their own; two
    tenants; no booking. *)
Definition house : store :=
  {| users := {[ owner1_user; tenant1_user; tenant2_user ]};
     owners := {[ owner1 := asha ]};
     tenants := {[ tenant1 := ravi; tenant2 := meena ]};
     properties := {[ property1 := lake_view ]};
     rooms := {[ room1 := a_room "101" Available;
                 room2 := a_room "102" Available;
                 room3 := a_room "103" Available ]};
     bookings := ∅;
     notifications := [];
     audit_logs := [] |}.

Definition with_bookings (s : store) (l : list (string * booking_row))
  : store :=
  set_bookings s (list_to_map l).

Definition with_rooms (s : store) (l : list (string * room_row)) : store :=
  set_rooms s (list_to_map l).

(** Tenant 1 holds a pending booking of room 1 and an approved booking
    of room 2; room 3 is available. *)
Definition two_active : store :=
  with_rooms
    (with_bookings house
       [(booking1, a_booking tenant1 room1 Pending);
        (booking2, a_booking tenant1 room2 Approved)])
    [(room1, a_room "101" Reserved); (room2, a_room "102" Occupied);
     (room3, a_room "103" Available)].

(** Tenant 1 holds one booking of room 1, in the given state. *)
Definition one_booking (st : booking_status) (room : room_status) : store :=
  with_rooms
    (with_bookings house [(booking1, a_booking tenant1 room1 st)])
    [(room1, a_room "101" room); (room2, a_room "102" Available);
     (room3, a_room "103" Available)].

(** A host on the morning of 1 June 2024 that gives the new booking
    the key [id], reads the two dates of the examples, and has [DATE]
    columns that keep the day of a timestamp of 24 characters, which is
    one with a year of four digits. *)
Definition host (id : string) : Bookings.env :=
  {| Bookings.now := "2024-06-01T09:00:00.000Z";
     Bookings.fresh_id := id;
     Bookings.date_iso := fun text =>
       if String.eqb text "2024-06-01" then Some "2024-06-01T00:00:00.000Z"
       else if String.eqb text "+010000-01-01"
            then Some "+010000-01-01T00:00:00.000Z"
            else None;
     Bookings.date_column := fun iso =>
       if Nat.eqb (String.length iso) 24 then Some (String.substring 0 10 iso)
       else None |}.

Definition wants (room : string) : Bookings.book_body :=
  {| Bookings.roomId := Some room; Bookings.room_id := None;
     Bookings.moveInDate := Some "2024-06-01"; Bookings.move_in_date := None;
     Bookings.moveOutDate := None; Bookings.move_out_date := None;
     Bookings.notes := None; Bookings.tenant_notes := None |}.

(** A request for a room from a day in the year 10000. *)
Definition wants_late (room : string) : Bookings.book_body :=
  {| Bookings.roomId := Some room; Bookings.room_id := None;
     Bookings.moveInDate := Some "+010000-01-01";
     Bookings.move_in_date := None;
     Bookings.moveOutDate := None; Bookings.move_out_date := None;
     Bookings.notes := None; Bookings.tenant_notes := None |}.

Definition says (text : string) : Bookings.status_body :=
  {| Bookings.status_text := Some text; Bookings.status_notes := None |}.

(** Search requests around the centre (12.9716, 77.5946). *)
Definition around (rad sort : Js.param) : Search.query :=
  {| Search.location := None; Search.maxRent := None; Search.minRent := None;
     Search.roomType := None;
     Search.latitude := Some "12.9716"; Search.longitude := Some "77.5946";
     Search.radius := rad; Search.sortBy := sort; Search.sortOrder := None |}.

Definition anonymous (q : Search.query) : Search.request :=
  {| Search.caller := None; Search.params := q |}.

Definition as_admin (q : Search.query) : Search.request :=
  {| Search.caller :=
       Some {| Search.principal_id := owner1_user;
               Search.principal_role := Search.Admin |};
     Search.params := q |}.

(** A candidate row as the store returns it. *)
Definition candidate (number : string) (lat lon : option float)
  (created : string) : Js.value :=
  Search.room_json number
    {| room_property_id := property1; room_number := number;
       room_type := "Single"; rent_amount := 8000%float;
       deposit_amount := Some 16000%float;
       room_latitude := lat; room_longitude := lon;
       room_state := Available;
       room_last_updated := created; room_created_at := created |}
    (Search.property_json property1 lake_view asha).

(** What a response says of each room. *)
Definition summary (rows : list Js.value) : list (Js.value * Js.value) :=
  List.map (fun v => (Js.get v "room_number", Js.get v "distance_km")) rows.

(** A host whose [Math] uses the small-angle approximations. *)
Definition small_angle : Math.impl :=
  {| Math.sin := fun x => x;
     Math.cos := fun _ => 1%float;
     Math.atan2 := fun y x => (y / x)%float |}.

(** A host whose sine and cosine are the correctly rounded ones at the
    arguments the distance between (2.5, 90) and (-2.5, -90) needs,
    2.5 degrees and [PI / 2] in radians, and the small-angle
    approximations elsewhere. *)
Definition at_point (a v : float) (rest : float -> float) (x : float)
  : float :=
  if PrimFloat.eqb x a then v
  else if PrimFloat.eqb x (- a)%float then (- v)%float
  else rest x.

Definition rounded : Math.impl :=
  {| Math.sin :=
       at_point 0x1.657184ae74487p-5%float 0x1.65547c4694e11p-5%float
         (at_point 0x1.921fb54442d18p+0%float 1%float (fun x => x));
     Math.cos := fun x =>
       if PrimFloat.eqb (PrimFloat.abs x) 0x1.657184ae74487p-5%float
       then 0x1.ff833f9da45f7p-1%float else 1%float;
     Math.atan2 := fun y x =>
       if PrimFloat.is_nan y || PrimFloat.is_nan x then nan
       else (y / x)%float |}.

(** *** Data for the room routes and the listings *)

Definition owner2 := "0a000000-0000-4000-8000-000000000002".
Definition owner2_user := "0b000000-0000-4000-8000-000000000002".
Definition room4 := "3a000000-0000-4000-8000-000000000004".

Definition kiran : owner_row :=
  {| owner_user_id := owner2_user; owner_name := "Kiran";
     owner_phone := "9000000004"; owner_business_name := "Kiran Stays" |}.

(** The sample house while tenant 1 holds a pending booking of room 1,
    with a second owner who has no property. *)
Definition town : store :=
  {| users := {[ owner1_user; owner2_user; tenant1_user; tenant2_user ]};
     owners := {[ owner1 := asha; owner2 := kiran ]};
     tenants := tenants house;
     properties := properties house;
     rooms := rooms (one_booking Pending Reserved);
     bookings := bookings (one_booking Pending Reserved);
     notifications := [];
     audit_logs := [] |}.

(** Room 1 was asked for by tenant 1 and refused, then asked for by
    tenant 2, whose booking is pending. *)
Definition rebooked : store :=
  with_rooms
    (with_bookings house
       [(booking1, a_booking tenant1 room1 Rejected);
        (booking2, a_booking tenant2 room1 Pending)])
    [(room1, a_room "101" Reserved); (room2, a_room "102" Available);
     (room3, a_room "103" Available)].

(** A room with coordinates of its own. *)
Definition a_room_at (number : string) (lat lon : float) : room_row :=
  {| room_property_id := property1; room_number := number;
     room_type := "Single"; rent_amount := 8000%float;
     deposit_amount := Some 16000%float;
     room_latitude := Some lat; room_longitude := Some lon;
     room_state := Available;
     room_last_updated := "2024-05-01T00:00:00+00:00";
     room_created_at := "2024-05-01T00:00:00+00:00" |}.

(** The sample house with room 1 at (12.9716, 77.5946). *)
Definition located : store :=
  with_rooms house
    [(room1, a_room_at "101" 12.9716%float 77.5946%float);
     (room2, a_room "102" Available); (room3, a_room "103" Available)].

(** Search requests without a centre and without a filter. *)
Definition anywhere (sort order : Js.param) : Search.query :=
  {| Search.location := None; Search.maxRent := None; Search.minRent := None;
     Search.roomType := None;
     Search.latitude := None; Search.longitude := None;
     Search.radius := None; Search.sortBy := sort; Search.sortOrder := order |}.

(** Columns that keep the numbers of the examples, which have at most
    four decimals, as they are written, and take the texts that are
    short enough. *)
Definition wide : Rooms.columns :=
  {| Rooms.decimal := fun _ _ x => Some x;
     Rooms.varchar := fun n text => (Z.of_nat (String.length text) <=? n)%Z |}.

(** The body that puts a room at (12.9716, 77.5946), the latitude as a
    string and the longitude as a number. *)
Definition at_centre : Rooms.coordinates_body :=
  {| Rooms.invalid := [];
     Rooms.body_latitude := Js.VStr "12.9716";
     Rooms.body_longitude := Js.VNum 77.5946%float |}.

Definition asks (text : string) : Rooms.room_status_body :=
  {| Rooms.wanted_status := Some text |}.

(** A new room with the given number, on the equator when [lat] is 0. *)
Definition a_new_room (number : string) (lat : float) : NewRoom.room_body :=
  {| NewRoom.invalid := [];
     NewRoom.roomNumber := Js.VStr number;
     NewRoom.roomType := Js.VStr "Double";
     NewRoom.rentAmount := Js.VStr "9500.50";
     NewRoom.depositAmount := Js.VUndefined;
     NewRoom.latitude := Js.VNum lat;
     NewRoom.longitude := Js.VStr "77.5946" |}.

End Sample.


(** ** Vocabulary of the further properties *)

(** The request with other sorting options. *)
Definition resorted (req : Search.request) (by_ order : Js.param)
  : Search.request :=
  {| Search.caller := Search.caller req;
     Search.params :=
       {| Search.location := Search.location (Search.params req);
          Search.maxRent := Search.maxRent (Search.params req);
          Search.minRent := Search.minRent (Search.params req);
          Search.roomType := Search.roomType (Search.params req);
          Search.latitude := Search.latitude (Search.params req);
          Search.longitude := Search.longitude (Search.params req);
          Search.radius := Search.radius (Search.params req);
          Search.sortBy := by_;
          Search.sortOrder := order |} |}.

(** A request without a centre and without a filter. *)
Definition unfiltered (req : Search.request) : Prop :=
  Js.param_truthy (Search.latitude (Search.params req))
  && Js.param_truthy (Search.longitude (Search.params req)) = false
  /\ Search.filters (Search.params req)
     = {| Search.by_location := None; Search.rent_gte := None;
          Search.rent_lte := None; Search.by_room_type := None;
          Search.order_by := None |}.

(** The rent a row of a response shows. *)
Definition rent_of (v : Js.value) : float :=
  Js.to_number (Js.get v "rent_amount").

(** The comparator does not ask for [a] after [b]. *)
Definition not_after {A} (cmp : A -> A -> float) (a b : A) : Prop :=
  PrimFloat.ltb 0 (cmp a b) = false.

(** The operations that release booking [bid]: its rejection by the
    owner [ouid] and its cancellation by the tenant [tuid]. *)
Definition releases (tuid ouid bid : string) (o : Bookings.operation) : Prop :=
  match o with
  | Bookings.DecideBooking _ uid bookingId reply =>
      uid = ouid /\ bookingId = bid
      /\ Bookings.decision reply = Some Db.Rejected
  | Bookings.CancelBooking _ uid bookingId => uid = tuid /\ bookingId = bid
  | Bookings.CreateBooking _ _ _ => False
  end.

(** What a booking is a request for: its tenant, room, property, dates,
    tenant's notes and time of creation. *)
Definition same_request (b b' : Db.booking_row) : Prop :=
  Db.booking_tenant_id b' = Db.booking_tenant_id b
  /\ Db.booking_room_id b' = Db.booking_room_id b
  /\ Db.booking_property_id b' = Db.booking_property_id b
  /\ Db.booking_move_in_date b' = Db.booking_move_in_date b
  /\ Db.booking_move_out_date b' = Db.booking_move_out_date b
  /\ Db.booking_tenant_notes b' = Db.booking_tenant_notes b
  /\ Db.booking_created_at b' = Db.booking_created_at b.

(** The moves of a booking's status: from [pending] anywhere, from
    [approved] and from [rejected] to [cancelled] only. *)
Definition moves (a b : Db.booking_status) : bool :=
  match a, b with
  | Db.Pending, _ => true
  | Db.Approved, (Db.Approved | Db.Cancelled) => true
  | Db.Rejected, (Db.Rejected | Db.Cancelled) => true
  | Db.Cancelled, Db.Cancelled => true
  | _, _ => false
  end.

(** No two rooms of a property have one number
    ([UNIQUE(property_id, room_number)]). *)
Definition numbers_unique (s : Db.store) : Prop :=
  forall propertyId number,
    (length (NewRoom.rooms_numbered propertyId number s) <= 1)%nat.

(** * Properties *)

(** ** Binary64 arithmetic

    Facts about the IEEE operations, read off their specification. *)

Section Binary64.
Local Open Scope Z_scope.

(** Rounding does not look at the sign. *)
Lemma binary_round_aux_opp s m e l :
  binary_round_aux prec emax (negb s) m e l
  = SFopp (binary_round_aux prec emax s m e l).
Proof.
  unfold binary_round_aux.
  destruct (shr_fexp prec emax m e l) as [mrs' e'].
  destruct (shr_fexp prec emax _ e' loc_Exact) as [mrs'' e''].
  destruct (shr_m mrs''); [reflexivity| |reflexivity].
  destruct (e'' <=? emax - prec); reflexivity.
Qed.

Lemma SFopp_involutive x : SFopp (SFopp x) = x.
Proof. destruct x; simpl; rewrite ?negb_involutive; reflexivity. Qed.

Lemma SFmul_comm x y : SFmul prec emax x y = SFmul prec emax y x.
Proof.
  destruct x as [sx|sx| |sx mx ex], y as [sy|sy| |sy my ey]; simpl;
    rewrite ?(xorb_comm sx sy); try reflexivity.
  rewrite (Pos.mul_comm mx my), (Z.add_comm ex ey). reflexivity.
Qed.

Lemma SFmul_opp_l x y :
  SFmul prec emax (SFopp x) y = SFopp (SFmul prec emax x y).
Proof.
  destruct x as [sx|sx| |sx mx ex], y as [sy|sy| |sy my ey]; simpl;
    rewrite <- ?negb_xorb_l; try reflexivity.
  apply binary_round_aux_opp.
Qed.

Lemma SFdiv_opp_l x y :
  SFdiv prec emax (SFopp x) y = SFopp (SFdiv prec emax x y).
Proof.
  destruct x as [sx|sx| |sx mx ex], y as [sy|sy| |sy my ey]; simpl;
    rewrite <- ?negb_xorb_l; try reflexivity.
  destruct (SFdiv_core_binary prec emax (Z.pos mx) ex (Z.pos my) ey)
    as [[mz ez] lz].
  apply binary_round_aux_opp.
Qed.

Lemma binary_normalize_opp m e :
  binary_normalize prec emax (- m) e false
  = match m with
    | Z0 => S754_zero false
    | _ => SFopp (binary_normalize prec emax m e false)
    end.
Proof.
  destruct m as [|p|p]; simpl; [reflexivity| |].
  - unfold binary_round. destruct (shl_align _ _ _) as [mz ez].
    apply (binary_round_aux_opp false).
  - unfold binary_round. destruct (shl_align _ _ _) as [mz ez].
    pose proof (binary_round_aux_opp false (Z.pos mz) ez loc_Exact) as H.
    simpl in H. rewrite H, SFopp_involutive. reflexivity.
Qed.

(** [x - y] and [y - x] are opposite, or both [+0]. *)
Lemma SFsub_swap x y :
  SFsub prec emax x y = SFopp (SFsub prec emax y x)
  \/ (SFsub prec emax x y = S754_zero false
      /\ SFsub prec emax y x = S754_zero false).
Proof.
  destruct x as [sx|sx| |sx mx ex], y as [sy|sy| |sy my ey]; simpl;
    try (left; reflexivity);
    try (destruct sx, sy; simpl; auto; fail).
  rewrite (Z.min_comm ey ex).
  set (a := cond_Zopp sx (Z.pos (shl_align mx ex (Z.min ex ey)).1)).
  set (b := cond_Zopp sy (Z.pos (shl_align my ey (Z.min ex ey)).1)).
  replace (b - a) with (- (a - b)) by lia.
  rewrite binary_normalize_opp.
  destruct (a - b) eqn:E; simpl; [right; split; reflexivity| |]; left;
    rewrite SFopp_involutive; reflexivity.
Qed.

Lemma SFsub_diag x :
  match x with S754_infinity _ | S754_nan => False | _ => True end ->
  SFsub prec emax x x = S754_zero false.
Proof.
  destruct x as [s|s| |s m e]; simpl; try tauto; intros _.
  - destruct s; reflexivity.
  - rewrite Z.sub_diag. reflexivity.
Qed.

(** *** The size of a rounded number *)

Lemma digits2_pos_size p : digits2_pos p = Pos.size p.
Proof. induction p; simpl; congruence. Qed.

Lemma Zdigits2_log2 m : 0 < m -> Zdigits2 m = Z.log2 m + 1.
Proof.
  destruct m as [|p|p]; try lia. intros _. simpl. rewrite digits2_pos_size.
  destruct p; simpl; lia.
Qed.

Lemma Zdigits2_nonneg m : 0 <= Zdigits2 m.
Proof. destruct m; simpl; lia. Qed.

Lemma Zdigits2_mono a b : 0 <= a <= b -> Zdigits2 a <= Zdigits2 b.
Proof.
  intros [Ha Hab]. destruct (Z.eq_dec a 0) as [->|Hn]; [apply Zdigits2_nonneg|].
  rewrite !Zdigits2_log2 by lia. pose proof (Z.log2_le_mono a b Hab). lia.
Qed.

Lemma Zdigits2_succ a : 0 <= a -> Zdigits2 (a + 1) <= Zdigits2 a + 1.
Proof.
  intros Ha. destruct (Z.eq_dec a 0) as [->|Hn]; [simpl; lia|].
  rewrite !Zdigits2_log2 by lia.
  pose proof (Z.log2_le_mono (a + 1) (2 * a) ltac:(lia)) as H.
  rewrite Z.log2_double in H by lia. lia.
Qed.

Lemma Zdigits2_mul a b :
  0 < a -> 0 < b -> Zdigits2 (a * b) <= Zdigits2 a + Zdigits2 b.
Proof.
  intros Ha Hb. rewrite !Zdigits2_log2 by lia.
  pose proof (Z.log2_mul_above a b ltac:(lia) ltac:(lia)). lia.
Qed.

Lemma Zdigits2_shiftl m n :
  0 < m -> 0 <= n -> Zdigits2 (Z.shiftl m n) = Zdigits2 m + n.
Proof.
  intros Hm Hn. pose proof (Z.shiftl_mul_pow2 m n Hn) as E.
  pose proof (Z.pow_pos_nonneg 2 n ltac:(lia) Hn).
  rewrite !Zdigits2_log2 by nia. rewrite Z.log2_shiftl by lia. lia.
Qed.

Lemma shr_1_bound mrs B :
  0 <= shr_m mrs <= B -> 0 <= shr_m (shr_1 mrs) <= B.
Proof.
  destruct mrs as [m r s]. simpl.
  destruct m as [|p|p]; simpl; try lia; destruct p; simpl; lia.
Qed.

Lemma iter_pos_keeps (P : shr_record -> Prop) f :
  (forall x, P x -> P (f x)) -> forall p x, P x -> P (SpecFloat.iter_pos f p x).
Proof. intros Hf. induction p; intros x Hx; simpl; auto. Qed.

Lemma shr_m_of_loc m l : shr_m (shr_record_of_loc m l) = m.
Proof. destruct l as [|[]]; reflexivity. Qed.

Lemma shr_fexp_bound m e l :
  0 <= m ->
  let r := shr_fexp prec emax m e l in
  0 <= shr_m (fst r) <= m
  /\ snd r = Z.max e (fexp prec emax (Zdigits2 m + e)).
Proof.
  intros Hm. unfold shr_fexp, shr.
  destruct (fexp prec emax (Zdigits2 m + e) - e) as [|p|p] eqn:E; simpl.
  - rewrite shr_m_of_loc. lia.
  - split; [|lia].
    apply (iter_pos_keeps (fun x => 0 <= shr_m x <= m)).
    + intros x. apply shr_1_bound.
    + rewrite shr_m_of_loc. lia.
  - rewrite shr_m_of_loc. lia.
Qed.

Lemma round_nearest_even_bound m l :
  0 <= m -> m <= round_nearest_even m l <= m + 1.
Proof.
  intros Hm. destruct l as [|[]]; simpl; try lia. destruct (Z.even m); lia.
Qed.

(** Rounding [m * 2^e], of at most [D] digits with [e <= E], does not
    overflow when [E] and [D] are small enough, and bounds the exponent. *)
Lemma binary_round_aux_bound s m e l D E :
  0 <= m -> Zdigits2 m <= D -> e <= E -> 53 <= D ->
  Z.max (Z.max E (2 * D + E - 105)) (D - 1074) <= 971 ->
  match binary_round_aux prec emax s m e l with
  | S754_zero _ => True
  | S754_finite _ _ e'' => e'' <= Z.max (Z.max E (2 * D + E - 105)) (D - 1074)
  | _ => False
  end.
Proof.
  intros Hm Hd He HD Hb. unfold binary_round_aux.
  pose proof (shr_fexp_bound m e l Hm) as H1.
  destruct (shr_fexp prec emax m e l) as [mrs' e']. simpl in H1.
  destruct H1 as [Hm' He'].
  pose proof (round_nearest_even_bound (shr_m mrs') (loc_of_shr_record mrs')
                ltac:(lia)) as Hr.
  set (m2 := round_nearest_even (shr_m mrs') (loc_of_shr_record mrs')) in *.
  pose proof (shr_fexp_bound m2 e' loc_Exact ltac:(lia)) as H2.
  destruct (shr_fexp prec emax m2 e' loc_Exact) as [mrs'' e'']. simpl in H2.
  destruct H2 as [Hm'' He''].
  assert (Zdigits2 m2 <= D + 1) as Hd2.
  { pose proof (Zdigits2_mono m2 (m + 1) ltac:(lia)).
    pose proof (Zdigits2_succ m Hm). lia. }
  pose proof (Zdigits2_nonneg m). pose proof (Zdigits2_nonneg m2).
  unfold fexp, emin, prec, emax in *.
  destruct (shr_m mrs'') as [|p|p] eqn:E2; [exact I| |lia].
  destruct (e'' <=? 1024 - 53) eqn:Hle; [|apply Z.leb_gt in Hle]; lia.
Qed.

Lemma valid_digits s m e :
  valid_binary (S754_finite s m e) = true -> Zdigits2 (Z.pos m) <= 53.
Proof.
  simpl. unfold bounded, canonical_mantissa, fexp, emin, prec, emax.
  intros H. apply andb_prop in H. destruct H as [H _].
  apply Z.eqb_eq in H. simpl. lia.
Qed.

Lemma SFleb_finite_exp m e m1 e1 :
  SFleb (S754_finite false m e) (S754_finite false m1 e1) = true -> e <= e1.
Proof.
  unfold SFleb, SFcompare. change IntDef.Z.compare with Z.compare.
  destruct (Z.compare_spec e e1); [lia|lia|discriminate].
Qed.

(** A product of two numbers with small exponents is finite. *)
Lemma SFmul_small x y Ex Ey :
  valid_binary x = true -> valid_binary y = true ->
  match x with
  | S754_finite _ _ e => e <= Ex | S754_zero _ => True | _ => False
  end ->
  match y with
  | S754_finite _ _ e => e <= Ey | S754_zero _ => True | _ => False
  end ->
  Z.max (Ex + Ey) (Ex + Ey + 107) <= 971 ->
  match SFmul prec emax x y with
  | S754_zero _ => True
  | S754_finite _ _ e => e <= Z.max (Ex + Ey + 107) (-968)
  | _ => False
  end.
Proof.
  intros Vx Vy Hx Hy Hb.
  destruct x as [sx|sx| |sx mx ex], y as [sy|sy| |sy my ey];
    simpl in Hx, Hy; try tauto; try exact I.
  apply valid_digits in Vx, Vy. cbn [SFmul].
  pose proof (Zdigits2_mul (Z.pos mx) (Z.pos my) ltac:(lia) ltac:(lia)) as Hd.
  change (Z.pos mx * Z.pos my) with (Z.pos (mx * my)) in Hd.
  assert (Zdigits2 (Z.pos (mx * my)) <= 106) as H1 by lia.
  assert (ex + ey <= Ex + Ey) as H2 by lia.
  assert (Z.max (Z.max (Ex + Ey) (2 * 106 + (Ex + Ey) - 105)) (106 - 1074)
          <= 971) as H3 by lia.
  pose proof (binary_round_aux_bound (xorb sx sy) (Z.pos (mx * my)) (ex + ey)
                loc_Exact 106 (Ex + Ey) ltac:(lia) H1 H2 ltac:(lia) H3) as H.
  destruct (binary_round_aux _ _ _ _ _ _); cbv beta iota in H |- *;
    try exact H. lia.
Qed.

Lemma SFdiv_core_bound m1 e1 m2 e2 :
  Zdigits2 (Z.pos m1) <= 53 -> Zdigits2 (Z.pos m2) <= 53 ->
  let '(q, e', _) := SFdiv_core_binary prec emax (Z.pos m1) e1 (Z.pos m2) e2 in
  0 <= q /\ Zdigits2 q <= 106 /\ e' <= e1 - e2.
Proof.
  intros H1 H2. unfold SFdiv_core_binary.
  set (d1 := Zdigits2 (Z.pos m1)) in *. set (d2 := Zdigits2 (Z.pos m2)) in *.
  assert (1 <= d1) by (subst d1; simpl; lia).
  assert (1 <= d2) by (subst d2; simpl; lia).
  set (e' := Z.min (fexp prec emax (d1 + e1 - (d2 + e2))) (e1 - e2)).
  assert (e' <= e1 - e2) as He' by (subst e'; lia).
  assert (e1 - e2 - e' <= 53 + d2 - d1 \/ e1 - e2 - e' = 0) as Hs.
  { subst e'. unfold fexp, emin, prec, emax. lia. }
  set (s := e1 - e2 - e') in *.
  set (m' := match s with
             | Z.pos _ => Z.shiftl (Z.pos m1) s
             | 0 => Z.pos m1
             | Z.neg _ => 0
             end).
  assert (0 <= m' /\ Zdigits2 m' <= 106) as [Hm' Hd'].
  { subst m'. destruct s as [|p|p] eqn:Es.
    - fold d1. lia.
    - rewrite Zdigits2_shiftl by lia. fold d1.
      pose proof (Z.shiftl_nonneg (Z.pos m1) (Z.pos p)). lia.
    - simpl. lia. }
  change IntDef.Z.div_eucl with Z.div_eucl.
  pose proof (Z.div_eucl_eq m' (Z.pos m2) ltac:(lia)) as Hq.
  pose proof (Z.mod_pos_bound m' (Z.pos m2) ltac:(lia)) as Hr.
  unfold Z.modulo in Hr.
  destruct (Z.div_eucl m' (Z.pos m2)) as [q r].
  assert (0 <= q <= m') as Hqb by nia.
  split; [lia|]. split; [|exact He'].
  pose proof (Zdigits2_mono q m' Hqb). lia.
Qed.

(** So is a quotient. *)
Lemma SFdiv_bounded x y Ex ey :
  valid_binary x = true -> valid_binary y = true ->
  match x with
  | S754_finite _ _ e => e <= Ex | S754_zero _ => True | _ => False
  end ->
  match y with S754_finite _ _ e => e = ey | _ => False end ->
  Ex - ey + 107 <= 971 ->
  match SFdiv prec emax x y with
  | S754_zero _ | S754_finite _ _ _ => True
  | _ => False
  end.
Proof.
  intros Vx Vy Hx Hy Hb.
  destruct x as [sx|sx| |sx mx ex], y as [sy|sy| |sy my ey'];
    simpl in Hx, Hy; try tauto; try exact I.
  subst ey'. apply valid_digits in Vx, Vy. cbn [SFdiv].
  pose proof (SFdiv_core_bound mx ex my ey Vx Vy) as H.
  destruct (SFdiv_core_binary prec emax (Z.pos mx) ex (Z.pos my) ey)
    as [[q e'] l].
  destruct H as (Hq & Hd & He).
  pose proof (binary_round_aux_bound (xorb sx sy) q e' l 106 (Ex - ey)
                Hq Hd ltac:(lia) ltac:(lia) ltac:(lia)) as H.
  destruct (binary_round_aux _ _ _ _ _ _); tauto.
Qed.

End Binary64.

(** *** The same facts on JavaScript numbers *)

Section Numbers.
Local Open Scope float_scope.

Lemma float_mul_comm x y : x * y = y * x.
Proof. apply Prim2SF_inj. rewrite !mul_spec. apply SFmul_comm. Qed.

Lemma float_mul_opp_l x y : (- x) * y = - (x * y).
Proof.
  apply Prim2SF_inj. rewrite mul_spec, !opp_spec, mul_spec.
  apply SFmul_opp_l.
Qed.

Lemma float_mul_opp_r x y : x * (- y) = - (x * y).
Proof.
  rewrite (float_mul_comm x (- y)), float_mul_opp_l, (float_mul_comm y x).
  reflexivity.
Qed.

Lemma float_div_opp_l x y : (- x) / y = - (x / y).
Proof.
  apply Prim2SF_inj. rewrite div_spec, !opp_spec, div_spec.
  apply SFdiv_opp_l.
Qed.

Lemma float_opp_involutive x : - - x = x.
Proof. apply Prim2SF_inj. rewrite !opp_spec. apply SFopp_involutive. Qed.

Lemma float_mul_opp_opp x : (- x) * (- x) = x * x.
Proof.
  rewrite float_mul_opp_l, float_mul_opp_r. apply float_opp_involutive.
Qed.

Lemma float_mul_mul_opp c x : c * (- x) * (- x) = c * x * x.
Proof.
  rewrite float_mul_opp_r, float_mul_opp_r, float_mul_opp_l.
  apply float_opp_involutive.
Qed.

Lemma float_sub_swap x y :
  x - y = - (y - x) \/ (x - y = 0 /\ y - x = 0).
Proof.
  destruct (SFsub_swap (Prim2SF x) (Prim2SF y)) as [H|[H1 H2]].
  - left. apply Prim2SF_inj. rewrite opp_spec, !sub_spec. exact H.
  - right. split; apply Prim2SF_inj; rewrite sub_spec; unfold SF64sub;
      [rewrite H1|rewrite H2]; reflexivity.
Qed.

Lemma is_finite_SF x :
  PrimFloat.is_finite x = true ->
  match Prim2SF x with S754_infinity _ | S754_nan => False | _ => True end.
Proof.
  unfold PrimFloat.is_finite, PrimFloat.is_nan, PrimFloat.is_infinity.
  rewrite !FloatAxioms.eqb_spec, abs_spec.
  destruct (Prim2SF x) as [s|s| |s m e]; simpl; try tauto.
  - vm_compute. destruct s; discriminate.
  - unfold SFeqb. simpl. discriminate.
Qed.

Lemma SF_finite_is_finite x :
  match Prim2SF x with S754_infinity _ | S754_nan => False | _ => True end ->
  PrimFloat.is_finite x = true.
Proof.
  unfold PrimFloat.is_finite, PrimFloat.is_nan, PrimFloat.is_infinity.
  rewrite !FloatAxioms.eqb_spec, abs_spec.
  destruct (Prim2SF x) as [s|s| |s m e]; simpl; try tauto; intros _.
  change (Prim2SF infinity) with (S754_infinity false).
  unfold SFeqb, SFcompare.
  change IntDef.Z.compare with Z.compare.
  change PosDef.Pos.compare_cont with Pos.compare_cont.
  rewrite Z.compare_refl, Pos.compare_cont_refl.
  destruct s; reflexivity.
Qed.

Lemma float_sub_diag x : PrimFloat.is_finite x = true -> x - x = 0.
Proof.
  intros H. apply Prim2SF_inj. rewrite sub_spec. unfold SF64sub.
  rewrite SFsub_diag by (apply is_finite_SF; exact H). reflexivity.
Qed.

Lemma float_mul_zero x :
  PrimFloat.is_finite x = true -> x * 0 = 0 \/ x * 0 = -0.
Proof.
  intros H. apply is_finite_SF in H.
  assert (Prim2SF (x * 0) = S754_zero false
          \/ Prim2SF (x * 0) = S754_zero true) as [E|E].
  { rewrite mul_spec. unfold SF64mul.
    change (Prim2SF 0) with (S754_zero false).
    destruct (Prim2SF x) as [s|s| |s m e]; simpl in *; try tauto;
      destruct s; auto. }
  - left. apply Prim2SF_inj. rewrite E. reflexivity.
  - right. apply Prim2SF_inj. rewrite E. reflexivity.
Qed.


Lemma float_eqb_refl x : PrimFloat.is_nan x = false -> (x =? x) = true.
Proof. unfold PrimFloat.is_nan. destruct (x =? x); [reflexivity|discriminate]. Qed.


(** [|x| <= b] bounds the exponent of [x]. *)
Lemma abs_le_SF x mb eb :
  (PrimFloat.abs x <=? SF2Prim (S754_finite false mb eb)) = true ->
  valid_binary (S754_finite false mb eb) = true ->
  match Prim2SF x with
  | S754_finite _ _ e => (e <= eb)%Z | S754_zero _ => True | _ => False
  end.
Proof.
  intros H V. rewrite leb_spec, abs_spec, Prim2SF_SF2Prim in H by exact V.
  destruct (Prim2SF x) as [s|s| |s m e]; simpl in *;
    try discriminate; try tauto.
  apply SFleb_finite_exp in H. exact H.
Qed.

Lemma abs_le_finite x mb eb :
  (PrimFloat.abs x <=? SF2Prim (S754_finite false mb eb)) = true ->
  valid_binary (S754_finite false mb eb) = true ->
  PrimFloat.is_finite x = true.
Proof.
  intros H V. apply SF_finite_is_finite.
  pose proof (abs_le_SF x mb eb H V). destruct (Prim2SF x); tauto.
Qed.

(** Two numbers of magnitude at most 1 have a finite product. *)
Lemma float_mul_small x y :
  (PrimFloat.abs x <=? 1) = true -> (PrimFloat.abs y <=? 1) = true ->
  PrimFloat.is_finite (x * y) = true.
Proof.
  intros Hx Hy.
  apply (fun H => abs_le_SF _ 4503599627370496 (-52) H eq_refl) in Hx, Hy.
  apply SF_finite_is_finite. rewrite mul_spec.
  pose proof (SFmul_small (Prim2SF x) (Prim2SF y) (-52) (-52)
                (Prim2SF_valid x) (Prim2SF_valid y)) as H.
  destruct (Prim2SF x) as [sx|sx| |sx mx ex]; try tauto;
    destruct (Prim2SF y) as [sy|sy| |sy my ey]; try tauto;
    specialize (H ltac:(assumption || exact I) ltac:(assumption || exact I)
                  ltac:(simpl; lia));
    unfold SF64mul; destruct (SFmul prec emax _ _); tauto.
Qed.

(** A latitude in degrees has a finite value in radians. *)
Lemma toRad_finite lat :
  (PrimFloat.abs lat <=? 90) = true ->
  PrimFloat.is_finite (Search.toRad lat) = true.
Proof.
  intros H. unfold Search.toRad.
  pose proof (abs_le_SF lat 6333186975989760 (-46) H eq_refl) as Hl.
  apply SF_finite_is_finite. rewrite div_spec, mul_spec.
  pose proof (SFmul_small (Prim2SF lat) (Prim2SF JsNum.PI) (-46) (-51)
                (Prim2SF_valid lat) (Prim2SF_valid JsNum.PI)) as Hm.
  change (Prim2SF JsNum.PI) with (S754_finite false 7074237752028440 (-51)) in *.
  change (Prim2SF 180) with (S754_finite false 6333186975989760 (-45)).
  assert (match SF64mul (Prim2SF lat)
                  (S754_finite false 7074237752028440 (-51)) with
          | S754_finite _ _ e => (e <= 10)%Z
          | S754_zero _ => True
          | _ => False
          end) as Hp.
  { unfold SF64mul.
    destruct (Prim2SF lat) as [s|s| |s m e]; try tauto.
    specialize (Hm Hl ltac:(simpl; lia) ltac:(lia)).
    destruct (SFmul prec emax _ _); try tauto; lia. }
  assert (valid_binary
            (SF64mul (Prim2SF lat) (S754_finite false 7074237752028440 (-51)))
          = true) as Vm.
  { change (S754_finite false 7074237752028440 (-51)) with (Prim2SF JsNum.PI).
    rewrite <- mul_spec. apply Prim2SF_valid. }
  pose proof (SFdiv_bounded _ (S754_finite false 6333186975989760 (-45))
                10 (-45) Vm eq_refl Hp eq_refl ltac:(lia)) as Hd.
  unfold SF64div. destruct (SFdiv prec emax _ _); tauto.
Qed.

End Numbers.

(** ** The Haversine distance *)

Section Haversine.
Import Js Search.
Local Open Scope float_scope.
Variable M : Math.impl.
Hypothesis ML : Math.laws M.

Lemma half_angle_swap x y :
  Math.sin M (toRad (x - y) / 2) = - Math.sin M (toRad (y - x) / 2)
  \/ Math.sin M (toRad (x - y) / 2) = Math.sin M (toRad (y - x) / 2).
Proof.
  destruct (float_sub_swap x y) as [E|[E1 E2]].
  - left. rewrite E. unfold toRad.
    rewrite float_mul_opp_l, !float_div_opp_l. apply (Math.sin_odd M ML).
  - right. rewrite E1, E2. reflexivity.
Qed.

Lemma distanceKm_sym lat1 lon1 lat2 lon2 :
  distanceKm M lat1 lon1 (VNum lat2) (VNum lon2)
  = distanceKm M lat2 lon2 (VNum lat1) (VNum lon1).
Proof.
  unfold distanceKm. simpl.
  rewrite (float_mul_comm (Math.cos M (toRad lat1)) (Math.cos M (toRad lat2))).
  destruct (half_angle_swap lat2 lat1) as [-> | ->];
    destruct (half_angle_swap lon2 lon1) as [-> | ->];
    rewrite ?float_mul_opp_opp, ?float_mul_mul_opp; reflexivity.
Qed.

Lemma distanceKm_self lat lon :
  (PrimFloat.abs lat <=? 90) = true ->
  PrimFloat.is_finite lon = true ->
  distanceKm M lat lon (VNum lat) (VNum lon) = VNum 0.
Proof.
  intros Hlat Hlon.
  pose proof (abs_le_finite lat 6333186975989760 (-46) Hlat eq_refl) as Hfin.
  unfold distanceKm. simpl.
  rewrite (float_sub_diag lat Hfin), (float_sub_diag lon Hlon).
  change (toRad 0 / 2) with 0.
  rewrite (Math.sin_pos_zero M ML).
  change (0 * 0) with 0.
  pose proof (toRad_finite lat Hlat) as Hrad.
  pose proof (Math.cos_bounded M ML _ Hrad) as Hc.
  pose proof (float_mul_small _ _ Hc Hc) as Hcc.
  destruct (float_mul_zero _ Hcc) as [E|E]; rewrite E.
  - change (0 + 0 * 0) with 0. change (Math.sqrt 0) with 0.
    change (Math.sqrt (1 - 0)) with 1.
    rewrite (Math.atan2_zero_one M ML). reflexivity.
  - change (0 + -0 * 0) with 0. change (Math.sqrt 0) with 0.
    change (Math.sqrt (1 - 0)) with 1.
    rewrite (Math.atan2_zero_one M ML). reflexivity.
Qed.

(** C8, amended: on a host whose [Math] satisfies [Math.laws], for
    every coordinate pair (a latitude within 90 degrees, a longitude
    within 180), the distance from the pair to itself is 0; and for any
    two pairs the distance one way is the distance the other way: the
    two calls return the same value, so [==] holds between them exactly
    when that value is not [NaN]. *)
Theorem haversine_zero_and_symmetric :
  (forall lat lon,
      (PrimFloat.abs lat <=? 90) = true ->
      (PrimFloat.abs lon <=? 180) = true ->
      distanceKm M lat lon (VNum lat) (VNum lon) = VNum 0)
  /\ (forall lat1 lon1 lat2 lon2,
        distanceKm M lat1 lon1 (VNum lat2) (VNum lon2)
        = distanceKm M lat2 lon2 (VNum lat1) (VNum lon1))
  /\ (forall lat1 lon1 lat2 lon2,
        let ab := to_number (distanceKm M lat1 lon1 (VNum lat2) (VNum lon2)) in
        let ba := to_number (distanceKm M lat2 lon2 (VNum lat1) (VNum lon1)) in
        (ab =? ba) = negb (PrimFloat.is_nan ab)).
Proof.
  split; [|split].
  - intros lat lon Hlat Hlon. apply distanceKm_self; [exact Hlat|].
    apply (abs_le_finite lon 6333186975989760 (-45) Hlon eq_refl).
  - apply distanceKm_sym.
  - intros lat1 lon1 lat2 lon2 ab ba. subst ab ba.
    rewrite (distanceKm_sym lat2 lon2 lat1 lon1).
    unfold PrimFloat.is_nan. rewrite negb_involutive. reflexivity.
Qed.

End Haversine.

Lemma small_angle_laws : Math.laws Sample.small_angle.
Proof. split; intros; reflexivity. Qed.

(** *** A pair of points whose distance is [NaN] *)

Lemma SFeqb_opp x y : SFeqb (SFopp x) (SFopp y) = SFeqb x y.
Proof.
  destruct x as [sx|sx| |sx mx ex], y as [sy|sy| |sy my ey]; simpl;
    try reflexivity; unfold SFeqb, SFcompare;
    try (destruct sx; reflexivity); try (destruct sy; reflexivity);
    destruct sx, sy; simpl; try reflexivity;
    destruct (IntDef.Z.compare ex ey); try reflexivity;
    destruct (PosDef.Pos.compare_cont Eq mx my); reflexivity.
Qed.

Lemma SFeqb_not_opp x a :
  SFeqb x a = true -> SFeqb a (SFopp a) = false -> SFeqb x (SFopp a) = false.
Proof.
  destruct x as [sx|sx| |sx mx ex], a as [sa|sa| |sa ma ea]; simpl;
    unfold SFeqb, SFcompare; try discriminate;
    try (destruct sx; discriminate); try (destruct sa; discriminate);
    destruct sx, sa; simpl; try discriminate; try reflexivity.
Qed.

Lemma float_eqb_opp x y : (- x =? - y)%float = (x =? y)%float.
Proof. rewrite !FloatAxioms.eqb_spec, !opp_spec. apply SFeqb_opp. Qed.

Lemma float_eqb_opp_l x y : (- x =? y)%float = (x =? - y)%float.
Proof. rewrite <- (float_opp_involutive y) at 1. apply float_eqb_opp. Qed.

Lemma float_eqb_not_opp x a :
  (x =? a)%float = true -> (a =? - a)%float = false ->
  (x =? - a)%float = false.
Proof.
  rewrite !FloatAxioms.eqb_spec, !opp_spec. apply SFeqb_not_opp.
Qed.

Lemma at_point_odd a v rest :
  (a =? - a)%float = false ->
  (forall x, rest (- x)%float = (- rest x)%float) ->
  forall x, Sample.at_point a v rest (- x)%float
            = (- Sample.at_point a v rest x)%float.
Proof.
  intros Ha Hrest x. unfold Sample.at_point.
  rewrite float_eqb_opp, float_eqb_opp_l.
  destruct (x =? a)%float eqn:E1.
  - rewrite (float_eqb_not_opp x a E1 Ha). reflexivity.
  - destruct (x =? - a)%float; [|apply Hrest].
    symmetry. apply float_opp_involutive.
Qed.

Lemma rounded_laws : Math.laws Sample.rounded.
Proof.
  split.
  - reflexivity.
  - apply at_point_odd; [reflexivity|].
    apply at_point_odd; [reflexivity|]. reflexivity.
  - intros x _. simpl.
    destruct (PrimFloat.abs x =? 0x1.657184ae74487p-5)%float; reflexivity.
  - reflexivity.
Qed.

(** C8 as stated fails: (2.5, 90) and (-2.5, -90) are nearly
    antipodal.  With the correctly rounded sine and cosine, [a] is
    [1 + 2^-52], [Math.sqrt(1 - a)] is [NaN] and so is the distance,
    either way: [==] between the two distances is false. *)
Lemma distance_of_near_antipodes_is_NaN :
  Math.laws Sample.rounded
  /\ let ab :=
       Js.to_number
         (Search.distanceKm Sample.rounded 2.5%float 90%float
            (Js.VNum (-2.5)%float) (Js.VNum (-90)%float)) in
     let ba :=
       Js.to_number
         (Search.distanceKm Sample.rounded (-2.5)%float (-90)%float
            (Js.VNum 2.5%float) (Js.VNum 90%float)) in
     PrimFloat.is_nan ab = true /\ PrimFloat.is_nan ba = true
     /\ (ab =? ba)%float = false.
Proof. split; [exact rounded_laws|]. vm_compute. repeat split. Qed.

(** The theorem at the centre (12.9716, 77.5946) and the Delhi property,
    on the small-angle host. *)
Lemma haversine_zero_and_symmetric_witness :
  Search.distanceKm Sample.small_angle 12.9716%float 77.5946%float
    (Js.VNum 12.9716%float) (Js.VNum 77.5946%float) = Js.VNum 0%float
  /\ Search.distanceKm Sample.small_angle 12.9716%float 77.5946%float
       (Js.VNum 28.6139%float) (Js.VNum 77.2090%float)
     = Search.distanceKm Sample.small_angle 28.6139%float 77.2090%float
         (Js.VNum 12.9716%float) (Js.VNum 77.5946%float).
Proof.
  split.
  - apply (proj1 (haversine_zero_and_symmetric Sample.small_angle
                    small_angle_laws)); reflexivity.
  - apply (proj1 (proj2 (haversine_zero_and_symmetric Sample.small_angle
                           small_angle_laws))).
Defined.

(** ** The search *)

Section SearchFacts.
Import Js Db Search.
Local Open Scope string_scope.

(** [sort] keeps the elements. *)
Lemma insert_by_In {A} (cmp : A -> A -> float) x l y :
  In y (insert_by cmp x l) <-> y = x \/ In y l.
Proof.
  induction l as [|z l IH]; simpl.
  - intuition.
  - destruct (PrimFloat.ltb 0 (cmp z x)); simpl; [intuition|].
    rewrite IH. intuition.
Qed.

Lemma sort_In {A} (cmp : A -> A -> float) l y :
  In y (Js.sort cmp l) <-> In y l.
Proof.
  unfold Js.sort.
  assert (forall acc,
             In y (fold_left (fun acc x => insert_by cmp x acc) l acc)
             <-> In y acc \/ In y l) as H.
  { induction l as [|x l IH]; intros acc; simpl; [intuition|].
    rewrite IH, insert_by_In. intuition. }
  rewrite H. simpl. intuition.
Qed.

(** A comparator that never answers a positive number leaves the array
    as it is. *)
Lemma sort_unordered {A} (cmp : A -> A -> float) l :
  (forall a b, PrimFloat.ltb 0 (cmp a b) = false) -> Js.sort cmp l = l.
Proof.
  intros H. unfold Js.sort.
  assert (forall x acc, insert_by cmp x acc = (acc ++ [x])%list) as Hi.
  { intros x acc. induction acc as [|y acc IH]; simpl; [reflexivity|].
    rewrite H, IH. reflexivity. }
  assert (forall acc,
             fold_left (fun acc x => insert_by cmp x acc) l acc
             = (acc ++ l)%list) as Hf.
  { induction l as [|x l IH]; intros acc; simpl.
    - rewrite app_nil_r. reflexivity.
    - rewrite IH, Hi, <- app_assoc. reflexivity. }
  apply Hf.
Qed.



(** The filter keeps a room exactly when its distance is null or at
    most the radius. *)
Lemma within_spec radKm r :
  within radKm r = true <->
  get r "distance_km" = VNull
  \/ le (get r "distance_km") (VNum radKm) = true.
Proof.
  unfold within. rewrite orb_true_iff.
  destruct (get r "distance_km"); simpl; intuition congruence.
Qed.

(** Every row the store returns is a room with its property as selected. *)
Lemma run_query_rows s q row :
  In row (run_query s q) ->
  exists id r p o,
    row = room_json id r (property_json (room_property_id r) p o).
Proof.
  unfold run_query. intros H.
  assert (In row (omap (row_of s q) (map_to_list (rooms s)))) as Hin.
  { destruct (order_by q) as [[col asc]|]; [apply sort_In in H|]; exact H. }
  apply list_elem_of_In in Hin. apply list_elem_of_omap in Hin.
  destruct Hin as ([id r] & _ & Hrow). unfold row_of in Hrow.
  destruct (properties s !! room_property_id r) as [p|]; [|discriminate].
  destruct (owners s !! property_owner_id p) as [o|]; [|discriminate].
  destruct (keeps q r p); [|discriminate].
  injection Hrow as <-. eauto.
Qed.

(** The fallback reads [undefined]: the selected property has no
    coordinates. *)
Lemma annotate_room_json M lat lon id r pid p o :
  annotate M lat lon (room_json id r (property_json pid p o))
  = spread_with (room_json id r (property_json pid p o)) "distance_km"
      (distanceKm M lat lon
         (or (of_option VNum (room_latitude r)) VUndefined)
         (or (of_option VNum (room_longitude r)) VUndefined)).
Proof. reflexivity. Qed.

Lemma distance_without_own_coordinates M lat lon id r pid p o :
  room_latitude r = None \/ room_longitude r = None ->
  get (annotate M lat lon (room_json id r (property_json pid p o)))
      "distance_km" = VNull.
Proof.
  intros H. rewrite annotate_room_json. unfold distanceKm.
  destruct H as [-> | ->]; simpl; [reflexivity|].
  rewrite orb_true_r. reflexivity.
Qed.

(** A room without a latitude or a longitude of its own gets a null
    distance, whatever its property holds. *)
Lemma fallback_never_fires M s q lat lon row :
  In row (run_query s q) ->
  get row "latitude" = VNull \/ get row "longitude" = VNull ->
  get (annotate M lat lon row) "distance_km" = VNull.
Proof.
  intros Hin Hnull. apply run_query_rows in Hin.
  destruct Hin as (id & r & p & o & ->).
  apply distance_without_own_coordinates.
  destruct Hnull as [H|H]; [left|right]; simpl in H.
  - destruct (room_latitude r); [discriminate|reflexivity].
  - destruct (room_longitude r); [discriminate|reflexivity].
Qed.

(** C6 at its failing input: around (12.9716, 77.5946) with radius 10,
    the three rooms of the Delhi property, which have no coordinates of
    their own, come back with a null distance: the property's
    coordinates, some 1700 km away, are never read, so no room is
    measured or excluded. *)
Theorem property_coordinates_are_never_read M :
  Sample.summary
    (rooms_of (available_rooms M Sample.house
                 (Sample.anonymous (Sample.around (Some "10") None))))
  = [(VStr "103", VNull); (VStr "101", VNull); (VStr "102", VNull)].
Proof. vm_compute. reflexivity. Qed.

(** The same [||] takes a coordinate of exactly 0 for a missing one: a
    room on the equator gets no distance. *)
Lemma zero_coordinate_counts_as_missing M :
  Sample.summary
    (near M (Sample.around (Some "10") None)
       12.9716%float 77.5946%float 10%float
       [Sample.candidate "E" (Some 0%float) (Some 77.5946%float)
          "2024-01-01T00:00:00+00:00"])
  = [(VStr "E", VNull)].
Proof. vm_compute. reflexivity. Qed.

(** C7 at its failing input: with no [sortBy] the column is
    [created_at] and the order descending, yet two candidates given
    oldest first come back oldest first: the comparator subtracts two
    timestamps, which is [NaN], and the array is left as it was. *)
Theorem newest_first_is_not_applied M :
  List.map (fun v => get v "created_at")
    (near M (Sample.around None None) 12.9716%float 77.5946%float 10%float
       [Sample.candidate "A" None None "2024-01-01T00:00:00+00:00";
        Sample.candidate "B" None None "2024-03-01T00:00:00+00:00"])
  = [VStr "2024-01-01T00:00:00+00:00"; VStr "2024-03-01T00:00:00+00:00"].
Proof. vm_compute. reflexivity. Qed.

(** The other failing input of C7: with [sortBy=distance] a room at
    distance 0 is keyed [0 || Infinity] like a room without distance,
    and stays behind it. *)
Lemma zero_distance_sorts_with_null M :
  Math.laws M ->
  Sample.summary
    (near M (Sample.around None (Some "distance"))
       12.9716%float 77.5946%float 10%float
       [Sample.candidate "A" None None "2024-01-01T00:00:00+00:00";
        Sample.candidate "B" (Some 12.9716%float) (Some 77.5946%float)
          "2024-03-01T00:00:00+00:00"])
  = [(VStr "A", VNull); (VStr "B", VNum 0)].
Proof.
  intros ML. unfold near. cbn [List.map]. unfold Sample.candidate.
  rewrite !annotate_room_json.
  change (or (of_option VNum (Some 12.9716%float)) VUndefined)
    with (VNum 12.9716).
  change (or (of_option VNum (Some 77.5946%float)) VUndefined)
    with (VNum 77.5946).
  rewrite (distanceKm_self M ML) by reflexivity.
  vm_compute. reflexivity.
Qed.

(** C10: the response is a function of the query parameters and the
    store: two requests with the same parameters, whoever sends them, get
    the same response. *)
Theorem available_rooms_ignores_caller M s a b :
  params a = params b -> available_rooms M s a = available_rooms M s b.
Proof. intros H. unfold available_rooms. rewrite H. reflexivity. Qed.







End SearchFacts.

(** The same search, anonymous and as an administrator. *)
Lemma available_rooms_ignores_caller_witness :
  Search.available_rooms Sample.small_angle Sample.house
    (Sample.anonymous (Sample.around (Some "10"%string) None))
  = Search.available_rooms Sample.small_angle Sample.house
      (Sample.as_admin (Sample.around (Some "10"%string) None)).
Proof. apply available_rooms_ignores_caller. reflexivity. Defined.


(** ** The booking lifecycle *)

Section BookingFacts.
Import Db Bookings.
Local Open Scope string_scope.

Lemma booking_status_eqb_eq a b : booking_status_eqb a b = true <-> a = b.
Proof. destruct a, b; simpl; split; intros; congruence. Qed.

Lemma room_status_eqb_eq a b : room_status_eqb a b = true <-> a = b.
Proof. destruct a, b; simpl; split; intros; congruence. Qed.

(** *** Keys *)

Lemma key_hit {A} (t : gmap string A) id r : t !! id = Some r -> key t id = id.
Proof. intros H. unfold key. rewrite H. reflexivity. Qed.

Lemma key_insert {A} (t : gmap string A) k x r id :
  t !! k = Some r -> key (<[k := x]> t) id = key t id.
Proof.
  intros Hk. unfold key. destruct (decide (id = k)) as [->|Hne].
  - rewrite lookup_insert_eq, Hk. reflexivity.
  - rewrite lookup_insert_ne by congruence. reflexivity.
Qed.

Lemma key_other {A} (t : gmap string A) id k :
  id <> k -> uuid_in id <> Some k -> key t id <> k.
Proof.
  intros H1 H2. unfold key. destruct (t !! id); [exact H1|].
  destruct (uuid_in id) as [u|]; simpl; congruence.
Qed.

Lemma update_by_id_hit {A} (t : gmap string A) id f r :
  t !! id = Some r -> update_by_id t id f = <[id := f r]> t.
Proof.
  intros H. unfold update_by_id. rewrite (key_hit _ _ _ H), H. reflexivity.
Qed.

Lemma key_update_by_id {A} (t : gmap string A) id f x :
  key (update_by_id t id f) x = key t x.
Proof.
  unfold update_by_id. destruct (t !! key t id) as [r|] eqn:E; [|reflexivity].
  apply (key_insert _ _ _ r). exact E.
Qed.

Lemma lookup_update_by_id {A} (t : gmap string A) id f r :
  t !! id = Some r -> update_by_id t id f !! id = Some (f r).
Proof.
  intros H. rewrite (update_by_id_hit _ _ _ _ H). apply lookup_insert_eq.
Qed.

Lemma update_booking_hit id f s b :
  bookings s !! id = Some b ->
  update_booking id f s
  = (set_bookings s (<[id := f b]> (bookings s)), Some (id, f b)).
Proof.
  intros H. unfold update_booking. rewrite (key_hit _ _ _ H), H. reflexivity.
Qed.


Lemma available_room_state roomId s r p o :
  available_room roomId s = Some (r, p, o) ->
  rooms s !! key (rooms s) roomId = Some r /\ room_state r = Available.
Proof.
  unfold available_room.
  destruct (rooms s !! key (rooms s) roomId) as [r'|]; [|discriminate].
  destruct (room_status_eqb (room_state r') Available) eqn:E; [|discriminate].
  destruct (properties s !! _) as [p'|]; [|discriminate].
  destruct (owners s !! _) as [o'|]; [|discriminate].
  intros [= <- <- <-]. split; [reflexivity|].
  apply room_status_eqb_eq. exact E.
Qed.

Lemma unavailable_room roomId s r :
  rooms s !! key (rooms s) roomId = Some r -> room_state r <> Available ->
  available_room roomId s = None.
Proof.
  intros Hr Hst. unfold available_room. rewrite Hr.
  destruct (room_status_eqb (room_state r) Available) eqn:E; [|reflexivity].
  apply room_status_eqb_eq in E. contradiction.
Qed.


(** *** What [validate] makes of a body *)


(** *** [book_room], step by step *)

Lemma select_where_In {A} (t : gmap string A) keep k x :
  In (k, x) (select_where t keep) <-> t !! k = Some x /\ keep k x = true.
Proof.
  unfold select_where. rewrite List.filter_In, <- list_elem_of_In.
  rewrite elem_of_map_to_list. reflexivity.
Qed.







(** It gives no row, the room is available and the store takes the
    row: what is answered and what is written. *)
Lemma book_room_success e uid body s v tid t r p o row :
  validate e body = inr v ->
  tenant_of_user uid s = Some (tid, t) ->
  active_booking tid s = None ->
  available_room (wanted_room v) s = Some (r, p, o) ->
  new_booking e tid v (room_property_id r) = Some row ->
  bookings s !! fresh_id e = None ->
  let out := run (book_room e uid body) s in
  snd out = {| status := 201;
               body := BookingCreated (fresh_id e) (kept s row) (room_number r)
                         (room_type r) (rent_amount r)
                         (property_name p) (property_address p) |}
  /\ bookings (fst out) = <[fresh_id e := kept s row]> (bookings s)
  /\ rooms (fst out)
     = <[key (rooms s) (wanted_room v)
         := Rooms.with_status Reserved (now e) r]> (rooms s)
  /\ tenants (fst out) = tenants s /\ owners (fst out) = owners s
  /\ properties (fst out) = properties s.
Proof.
  intros Hv Ht Ha Hr Hn Hf. unfold book_room. rewrite Hv. simpl. rewrite Ht.
  simpl. rewrite Ha. simpl. rewrite Hr. simpl.
  unfold insert_booking. rewrite Hn, Hf. simpl.
  apply available_room_state in Hr. destruct Hr as [Hr _].
  unfold update_by_id. rewrite Hr. repeat split; reflexivity.
Qed.

Lemma new_booking_row e tid v pid move_in move_out :
  to_date e (wanted_move_in v) = Some move_in ->
  to_date e (wanted_move_out v) = Some move_out ->
  new_booking e tid v pid
  = Some {| booking_tenant_id := tid;
            booking_room_id := wanted_room v;
            booking_property_id := pid;
            booking_move_in_date := move_in;
            booking_move_out_date := move_out;
            booking_state := Pending;
            booking_owner_notes := None;
            booking_tenant_notes := wanted_notes v;
            booking_created_at := now e;
            booking_updated_at := now e |}.
Proof. intros H1 H2. unfold new_booking. rewrite H1, H2. reflexivity. Qed.




(** A request from a day in the year 10000 passes the validation; the
    store does not read the date, and the request is answered 500 with
    nothing written. *)
Lemma date_beyond_the_column_is_refused :
  (exists v, validate (Sample.host Sample.booking1)
               (Sample.wants_late Sample.room1) = inr v)
  /\ run (book_room (Sample.host Sample.booking1) Sample.tenant1_user
            (Sample.wants_late Sample.room1)) Sample.house
     = (Sample.house, failure 500 "Failed to create booking request").
Proof. split; [eexists|]; vm_compute; reflexivity. Qed.

(** *** The invariant under the three operations *)

Lemma filter_length_perm {A} (f : A -> bool) l l' :
  l ≡ₚ l' -> length (List.filter f l) = length (List.filter f l').
Proof.
  induction 1 as [|x l l' _ IH|x y l|l l' l'' _ IH1 _ IH2]; simpl.
  - reflexivity.
  - destruct (f x); simpl; congruence.
  - destruct (f x), (f y); reflexivity.
  - congruence.
Qed.

Lemma count_insert_fresh {A} (f : string * A -> bool) (m : gmap string A) i x :
  m !! i = None ->
  length (List.filter f (map_to_list (<[i:=x]> m)))
  = ((if f (i, x) then 1 else 0)
     + length (List.filter f (map_to_list m)))%nat.
Proof.
  intros H. rewrite (filter_length_perm f _ _ (map_to_list_insert m i x H)).
  simpl. destruct (f (i, x)); reflexivity.
Qed.

Lemma count_insert_over {A} (f : string * A -> bool) (m : gmap string A)
  i x y :
  m !! i = Some x ->
  (length (List.filter f (map_to_list (<[i:=y]> m)))
   + (if f (i, x) then 1 else 0)
   = length (List.filter f (map_to_list m))
     + (if f (i, y) then 1 else 0))%nat.
Proof.
  intros H.
  rewrite <- (filter_length_perm f _ _ (map_to_list_delete m i x H)).
  rewrite <- (insert_delete_eq m i y).
  rewrite (count_insert_fresh f (delete i m) i y (lookup_delete_eq m i)).
  simpl. destruct (f (i, x)), (f (i, y)); simpl; lia.
Qed.

Lemma book_room_bookings e uid body s :
  bookings (fst (run (book_room e uid body) s)) = bookings s
  \/ exists v tid t pid row,
       tenant_of_user uid s = Some (tid, t)
       /\ active_booking tid s = None
       /\ bookings s !! fresh_id e = None
       /\ new_booking e tid v pid = Some row
       /\ bookings (fst (run (book_room e uid body) s))
          = <[fresh_id e := kept s row]> (bookings s).
Proof.
  unfold book_room.
  destruct (validate e body) as [errs|v]; simpl; [left; reflexivity|].
  destruct (tenant_of_user uid s) as [[tid t]|] eqn:Ht; simpl;
    [|left; reflexivity].
  destruct (active_booking tid s) as [x|] eqn:Ha; simpl; [left; reflexivity|].
  destruct (available_room (wanted_room v) s) as [[[r p] o]|]; simpl;
    [|left; reflexivity].
  unfold insert_booking.
  destruct (new_booking e tid v (room_property_id r)) as [row|] eqn:Hn;
    simpl; [|left; reflexivity].
  destruct (bookings s !! fresh_id e) eqn:Hf; simpl; [left; reflexivity|].
  right. exists v, tid, t, (room_property_id r), row. auto.
Qed.

Lemma new_booking_fields e tid v pid row :
  new_booking e tid v pid = Some row ->
  booking_tenant_id row = tid /\ booking_state row = Pending.
Proof.
  unfold new_booking.
  destruct (to_date e (wanted_move_in v)); [|discriminate].
  destruct (to_date e (wanted_move_out v)); [|discriminate].
  intros [= <-]. split; reflexivity.
Qed.

Lemma update_status_bookings e uid bid body s :
  bookings (fst (run (update_status e uid bid body) s)) = bookings s
  \/ exists b d,
       bookings s !! key (bookings s) bid = Some b
       /\ booking_state b = Pending
       /\ bookings (fst (run (update_status e uid bid body) s))
          = <[key (bookings s) bid
              := decided d (status_notes body) (now e) b]> (bookings s).
Proof.
  unfold update_status.
  destruct (decision body) as [d|]; simpl; [|left; reflexivity].
  destruct (owner_of_user uid s) as [[oid o]|]; simpl; [|left; reflexivity].
  unfold booking_of_owner.
  destruct (bookings s !! key (bookings s) bid) as [b|] eqn:Hb; simpl;
    [|left; reflexivity].
  destruct (tenants s !! booking_tenant_id b),
    (rooms s !! booking_room_id b),
    (properties s !! booking_property_id b); simpl; try (left; reflexivity).
  destruct (String.eqb _ _); simpl; [|left; reflexivity].
  destruct (booking_status_eqb (booking_state b) Pending) eqn:Hp; simpl;
    [|left; reflexivity].
  unfold update_booking. rewrite Hb. simpl.
  right. exists b, d. split; [reflexivity|].
  split; [destruct (booking_state b); simpl in Hp; congruence|].
  destruct d; reflexivity.
Qed.

Lemma cancel_bookings e uid bid s :
  bookings (fst (run (cancel e uid bid) s)) = bookings s
  \/ exists b,
       bookings s !! key (bookings s) bid = Some b
       /\ booking_state b <> Cancelled
       /\ bookings (fst (run (cancel e uid bid) s))
          = <[key (bookings s) bid := cancelled (now e) b]> (bookings s).
Proof.
  unfold cancel. simpl.
  destruct (tenant_of_user uid s) as [[tid t]|]; simpl; [|left; reflexivity].
  unfold booking_of_tenant.
  destruct (bookings s !! key (bookings s) bid) as [b|] eqn:Hb; simpl;
    [|left; reflexivity].
  destruct (String.eqb _ _); simpl; [|left; reflexivity].
  destruct (rooms s !! booking_room_id b),
    (properties s !! booking_property_id b); simpl; try (left; reflexivity).
  destruct (booking_status_eqb (booking_state b) Cancelled) eqn:Hc; simpl;
    [left; reflexivity|].
  unfold update_booking. rewrite Hb. simpl.
  right. exists b. split; [reflexivity|]. split; [|reflexivity].
  intros H. rewrite H in Hc. discriminate.
Qed.

Lemma single_none_short {A} (l : list A) :
  single l = None -> (length l <= 1)%nat -> l = [].
Proof.
  destruct l as [|x [|y l]]; simpl; intros;
    [reflexivity|discriminate|lia].
Qed.

(** Served one after the other, the three operations keep the
    invariant. *)
Lemma one_active_apply o s : one_active s -> one_active (apply o s).
Proof.
  intros Hinv tid. specialize (Hinv tid) as Htid.
  unfold active_bookings, select_where in *. unfold apply.
  destruct o as [e uid body|e uid bid body|e uid bid]; unfold handler.
  - destruct (book_room_bookings e uid body s)
      as [-> | (v & tid0 & t & pid & row & Ht & Ha & Hf & Hn & ->)];
      [exact Htid|].
    destruct (new_booking_fields _ _ _ _ _ Hn) as [Hrt Hrs].
    rewrite count_insert_fresh by exact Hf. simpl.
    rewrite Hrt.
    destruct (String.eqb tid0 tid) eqn:E; simpl; [|exact Htid].
    apply String.eqb_eq in E. rewrite E in Ha.
    unfold active_booking in Ha.
    apply single_none_short in Ha; [|exact Htid].
    unfold active_bookings, select_where in Ha. rewrite Ha. simpl.
    destruct (is_active (kept s row)); simpl; lia.
  - destruct (update_status_bookings e uid bid body s)
      as [-> | (b & d & Hb & Hst & ->)]; [exact Htid|].
    match goal with |- (length (List.filter ?f _) <= 1)%nat =>
      pose proof (count_insert_over f (bookings s) (key (bookings s) bid) b
                    (decided d (status_notes body) (now e) b) Hb) as Hc end.
    set (n1 := length (List.filter _ (map_to_list (<[_:=_]> _)))) in *.
    set (n0 := length (List.filter _ (map_to_list (bookings s)))) in *.
    clearbody n0 n1. cbn in Hc. unfold is_active in Hc. cbn in Hc.
    rewrite Hst in Hc. cbn in Hc.
    destruct (String.eqb (booking_tenant_id b) tid); cbn in Hc;
      destruct (booking_status_eqb d Pending || booking_status_eqb d Approved);
      cbn in Hc; lia.
  - destruct (cancel_bookings e uid bid s) as [-> | (b & Hb & _ & ->)];
      [exact Htid|].
    match goal with |- (length (List.filter ?f _) <= 1)%nat =>
      pose proof (count_insert_over f (bookings s) (key (bookings s) bid) b
                    (cancelled (now e) b) Hb) as Hc end.
    set (n1 := length (List.filter _ (map_to_list (<[_:=_]> _)))) in *.
    set (n0 := length (List.filter _ (map_to_list (bookings s)))) in *.
    clearbody n0 n1. cbn in Hc. unfold is_active in Hc. cbn in Hc.
    rewrite andb_false_r in Hc.
    destruct (String.eqb (booking_tenant_id b) tid && _); cbn in Hc; lia.
Qed.

Lemma one_active_apply_all os s : one_active s -> one_active (apply_all os s).
Proof.
  revert s. induction os as [|o os IH]; intros s H; simpl; [exact H|].
  apply IH, one_active_apply, H.
Qed.

(** *** Two requests for one room *)

Lemma book_room_created_reserves e uid body s v :
  validate e body = inr v ->
  status (snd (run (book_room e uid body) s)) = 201%Z ->
  room_state_of (key (rooms s) (wanted_room v))
    (fst (run (book_room e uid body) s))
  = Some Reserved
  /\ forall x, key (rooms (fst (run (book_room e uid body) s))) x
               = key (rooms s) x.
Proof.
  intros Hv. unfold book_room. rewrite Hv. simpl.
  destruct (tenant_of_user uid s) as [[tid t]|]; simpl; [|discriminate].
  destruct (active_booking tid s) as [x|]; simpl; [discriminate|].
  destruct (available_room (wanted_room v) s) as [[[r p] o]|] eqn:Hr; simpl;
    [|discriminate].
  unfold insert_booking.
  destruct (new_booking e tid v (room_property_id r)); simpl; [|discriminate].
  destruct (bookings s !! fresh_id e); simpl; [discriminate|].
  intros _. unfold room_state_of. simpl.
  apply available_room_state in Hr. destruct Hr as [Hr _]. split.
  - unfold update_by_id. rewrite Hr, lookup_insert_eq. reflexivity.
  - intros x. apply key_update_by_id.
Qed.

Lemma book_room_created_needs_available e uid body s v :
  validate e body = inr v ->
  status (snd (run (book_room e uid body) s)) = 201%Z ->
  room_state_of (key (rooms s) (wanted_room v)) s = Some Available.
Proof.
  intros Hv. unfold book_room. rewrite Hv. simpl.
  destruct (tenant_of_user uid s) as [[tid t]|]; simpl; [|discriminate].
  destruct (active_booking tid s) as [x|]; simpl; [discriminate|].
  destruct (available_room (wanted_room v) s) as [[[r p] o]|] eqn:Hr; simpl;
    [|discriminate].
  intros _. apply available_room_state in Hr. destruct Hr as [Hr Hst].
  unfold room_state_of. rewrite Hr. simpl. rewrite Hst. reflexivity.
Qed.

(** C2, amended: of two createBooking requests for one room that are
    served one after the other, at most one succeeds; once the first has
    succeeded, the second, if it gets as far as the room, is refused
    with "Room not available for booking" and writes nothing.  (The
    checks and the writes of a request are separate store operations:
    nothing holds for two requests in flight together.) *)
Theorem serial_bookings_exclusive e1 u1 b1 e2 u2 b2 v1 v2 s :
  validate e1 b1 = inr v1 -> validate e2 b2 = inr v2 ->
  wanted_room v1 = wanted_room v2 ->
  let '(s1, r1) := run (book_room e1 u1 b1) s in
  let '(s2, r2) := run (book_room e2 u2 b2) s1 in
  interleave [] (book_room e1 u1 b1) (book_room e2 u2 b2) s = (s2, r1, r2)
  /\ ~ (status r1 = 201%Z /\ status r2 = 201%Z)
  /\ (status r1 = 201%Z ->
      forall tid t,
        tenant_of_user u2 s1 = Some (tid, t) ->
        active_booking tid s1 = None ->
        (s2, r2) = (s1, failure 400 "Room not available for booking")).
Proof.
  intros Hv1 Hv2 Hsame.
  pose proof (book_room_created_reserves e1 u1 b1 s v1 Hv1) as H1.
  cbn [interleave].
  destruct (run (book_room e1 u1 b1) s) as [s1 r1]. simpl in H1.
  pose proof (book_room_created_needs_available e2 u2 b2 s1 v2 Hv2) as H2.
  destruct (run (book_room e2 u2 b2) s1) as [s2 r2] eqn:Hrun. simpl in H2.
  split; [reflexivity|]. split.
  - intros [Ha Hb]. destruct (H1 Ha) as [H1a H1b]. specialize (H2 Hb).
    rewrite H1b, <- Hsame in H2. congruence.
  - intros Ha tid t Ht Hact. destruct (H1 Ha) as [H1a H1b].
    rewrite Hsame, <- H1b in H1a. unfold room_state_of in H1a.
    destruct (rooms s1 !! key (rooms s1) (wanted_room v2)) as [r|] eqn:Hr;
      [|discriminate].
    simpl in H1a. injection H1a as H1a.
    rewrite <- Hrun. unfold book_room. rewrite Hv2. simpl. rewrite Ht. simpl.
    rewrite Hact. simpl.
    rewrite (unavailable_room _ _ _ Hr) by (rewrite H1a; discriminate).
    reflexivity.
Qed.

(** C2 as stated fails: two tenants without bookings ask for room 1,
    which is available, and the store serves the three reads of the
    first request, then the three reads of the second, before either
    insert.  Both requests are granted with 201 and both bookings of
    room 1 are stored as pending. *)
Lemma concurrent_bookings_both_succeed :
  let first := book_room (Sample.host Sample.booking1) Sample.tenant1_user
                 (Sample.wants Sample.room1) in
  let second := book_room (Sample.host Sample.booking2) Sample.tenant2_user
                  (Sample.wants Sample.room1) in
  let '(s, r1, r2) :=
    interleave [true; true; true; false; false; false] first second
      Sample.house in
  status r1 = 201%Z /\ status r2 = 201%Z
  /\ (booking_room_id <$> bookings s !! Sample.booking1) = Some Sample.room1
  /\ (booking_room_id <$> bookings s !! Sample.booking2) = Some Sample.room1
  /\ state_of Sample.booking1 s = Some Pending
  /\ state_of Sample.booking2 s = Some Pending.
Proof. vm_compute. repeat split; reflexivity. Qed.

(** *** Decisions *)


(** C4: a decision on a booking that is not pending is answered with
    an error, and the store after it is the store before it: no booking
    and no room is written. *)
Theorem update_status_not_pending e uid bid body s b :
  bookings s !! bid = Some b ->
  booking_state b <> Pending ->
  fst (run (update_status e uid bid body) s) = s
  /\ (400 <= status (snd (run (update_status e uid bid body) s)))%Z.
Proof.
  intros Hb Hst. unfold update_status.
  destruct (decision body) as [d|]; simpl; [|split; [reflexivity|lia]].
  destruct (owner_of_user uid s) as [[oid o]|]; simpl;
    [|split; [reflexivity|lia]].
  unfold booking_of_owner. rewrite (key_hit _ _ _ Hb), Hb.
  destruct (tenants s !! booking_tenant_id b),
    (rooms s !! booking_room_id b),
    (properties s !! booking_property_id b); simpl;
    try (split; [reflexivity|lia]).
  destruct (String.eqb _ _); simpl; try (split; [reflexivity|lia]).
  destruct (booking_state b); simpl; try (split; [reflexivity|lia]).
  congruence.
Qed.

(** *** Terminal states *)

Lemma book_room_keeps e uid body s bid b :
  bookings s !! bid = Some b ->
  bookings (fst (run (book_room e uid body) s)) !! bid = Some b.
Proof.
  intros Hb.
  destruct (book_room_bookings e uid body s)
    as [-> | (v & tid & t & pid & row & _ & _ & Hf & _ & ->)]; [exact Hb|].
  rewrite lookup_insert_ne; [exact Hb|].
  intros Heq. rewrite Heq in Hf. congruence.
Qed.

Lemma update_status_keeps e uid bookingId body s bid b :
  bookings s !! bid = Some b ->
  booking_state b <> Pending ->
  bookings (fst (run (update_status e uid bookingId body) s)) !! bid = Some b.
Proof.
  intros Hb Hst.
  destruct (update_status_bookings e uid bookingId body s)
    as [-> | (b' & d & Hb' & Hp & ->)]; [exact Hb|].
  rewrite lookup_insert_ne; [exact Hb|].
  intros Heq. rewrite Heq in Hb'. congruence.
Qed.

Lemma cancel_keeps e uid bookingId s bid b :
  bookings s !! bid = Some b ->
  key (bookings s) bookingId <> bid \/ booking_state b = Cancelled ->
  bookings (fst (run (cancel e uid bookingId) s)) !! bid = Some b.
Proof.
  intros Hb Hwhy.
  destruct (cancel_bookings e uid bookingId s)
    as [-> | (b' & Hb' & Hc & ->)]; [exact Hb|].
  rewrite lookup_insert_ne; [exact Hb|].
  destruct Hwhy as [H|H]; [exact H|].
  intros Heq. rewrite Heq in Hb'. congruence.
Qed.

Lemma apply_keeps o s bid b :
  bookings s !! bid = Some b ->
  booking_state b = Cancelled
  \/ (booking_state b = Rejected /\ ~ cancels bid o) ->
  bookings (apply o s) !! bid = Some b.
Proof.
  intros Hb Hwhy. unfold apply.
  destruct o as [e uid body|e uid bookingId body|e uid bookingId]; simpl.
  - apply book_room_keeps. exact Hb.
  - apply update_status_keeps; [exact Hb|].
    destruct Hwhy as [H|[H _]]; rewrite H; discriminate.
  - apply cancel_keeps; [exact Hb|].
    destruct Hwhy as [H|[_ H]]; [right; exact H|left].
    simpl in H. apply key_other; intros Heq; apply H; auto.
Qed.

(** C5, amended: as long as the requests are served one after the
    other, [cancelled] is terminal: no sequence of createBooking,
    decideBooking and cancelBooking operations changes a cancelled
    booking.  A [rejected] booking is changed by no createBooking and no
    decideBooking, and by no cancelBooking of another booking: it stays
    as it is as long as it is not itself cancelled, under whatever
    spelling of its id. *)
Theorem terminal_states os s bid b :
  bookings s !! bid = Some b ->
  booking_state b = Cancelled
  \/ (booking_state b = Rejected /\ Forall (fun o => ~ cancels bid o) os) ->
  bookings (apply_all os s) !! bid = Some b.
Proof.
  revert s. induction os as [|o os IH]; intros s Hb Hwhy; simpl; [exact Hb|].
  apply IH.
  - apply apply_keeps; [exact Hb|].
    destruct Hwhy as [H|[H HF]]; [left; exact H|right].
    split; [exact H|]. apply Forall_inv in HF. exact HF.
  - destruct Hwhy as [H|[H HF]]; [left; exact H|right].
    split; [exact H|]. apply Forall_inv_tail in HF. exact HF.
Qed.

(** C5 as stated fails, twice.  The tenant's cancelBooking on their
    rejected booking is granted, under the id as the store writes it
    and in upper case alike, and the booking becomes cancelled.  And a
    cancelled booking is changed by a decision in flight: the owner's
    approval of a pending booking has read the booking when the
    tenant's cancellation is served; the approval then writes
    [approved] over [cancelled], and the room becomes occupied. *)
Lemma rejected_and_cancelled_bookings_change :
  (state_of Sample.booking1 (Sample.one_booking Rejected Available)
   = Some Rejected
   /\ state_of Sample.booking1
        (apply (CancelBooking (Sample.host Sample.booking2)
                  Sample.tenant1_user Sample.booking1)
           (Sample.one_booking Rejected Available))
      = Some Cancelled
   /\ state_of Sample.booking1
        (apply (CancelBooking (Sample.host Sample.booking2)
                  Sample.tenant1_user "4A000000-0000-4000-8000-000000000001")
           (Sample.one_booking Rejected Available))
      = Some Cancelled)
  /\ let approval :=
       update_status (Sample.host Sample.booking2) Sample.owner1_user
         Sample.booking1 (Sample.says "approved") in
     let '(s1, rest1) := step approval (Sample.one_booking Pending Reserved) in
     let '(s2, rest2) := step rest1 s1 in
     let s3 := apply (CancelBooking (Sample.host Sample.booking2)
                        Sample.tenant1_user Sample.booking1) s2 in
     let '(s4, answer) := run rest2 s3 in
     state_of Sample.booking1 s3 = Some Cancelled
     /\ status answer = 200%Z
     /\ state_of Sample.booking1 s4 = Some Approved
     /\ room_state_of Sample.room1 s4 = Some Occupied.
Proof. vm_compute. repeat split; reflexivity. Qed.

End BookingFacts.



(** Tenant 1, then tenant 2, ask for room 1 of the sample house. *)
Lemma serial_bookings_exclusive_witness :
  let first :=
    Bookings.book_room (Sample.host Sample.booking1) Sample.tenant1_user
      (Sample.wants Sample.room1) in
  let second :=
    Bookings.book_room (Sample.host Sample.booking2) Sample.tenant2_user
      (Sample.wants Sample.room1) in
  let '(s1, r1) := Bookings.run first Sample.house in
  let '(s2, r2) := Bookings.run second s1 in
  Bookings.interleave [] first second Sample.house = (s2, r1, r2)
  /\ ~ (Bookings.status r1 = 201 /\ Bookings.status r2 = 201)
  /\ (Bookings.status r1 = 201 ->
      forall tid t,
        Bookings.tenant_of_user Sample.tenant2_user s1 = Some (tid, t) ->
        Bookings.active_booking tid s1 = None ->
        (s2, r2)
        = (s1, Bookings.failure 400 "Room not available for booking")).
Proof.
  exact (serial_bookings_exclusive
           (Sample.host Sample.booking1) Sample.tenant1_user
           (Sample.wants Sample.room1)
           (Sample.host Sample.booking2) Sample.tenant2_user
           (Sample.wants Sample.room1)
           {| Bookings.wanted_room := Sample.room1;
              Bookings.wanted_move_in := Some "2024-06-01T00:00:00.000Z"%string;
              Bookings.wanted_move_out := None;
              Bookings.wanted_notes := None |}
           {| Bookings.wanted_room := Sample.room1;
              Bookings.wanted_move_in := Some "2024-06-01T00:00:00.000Z"%string;
              Bookings.wanted_move_out := None;
              Bookings.wanted_notes := None |}
           Sample.house eq_refl eq_refl eq_refl).
Defined.

(** The owner rejects a booking that is already approved. *)
Lemma update_status_not_pending_witness :
  let s := Sample.one_booking Db.Approved Db.Occupied in
  let out :=
    Bookings.run
      (Bookings.update_status (Sample.host Sample.booking2)
         Sample.owner1_user Sample.booking1 (Sample.says "rejected")) s in
  fst out = s /\ 400 <= Bookings.status (snd out).
Proof.
  apply (update_status_not_pending (Sample.host Sample.booking2)
           Sample.owner1_user Sample.booking1 (Sample.says "rejected")
           (Sample.one_booking Db.Approved Db.Occupied)
           (Sample.a_booking Sample.tenant1 Sample.room1 Db.Approved)).
  - vm_compute. reflexivity.
  - discriminate.
Defined.

(** A cancelled booking under a cancellation, a decision and a new
    booking. *)
Lemma terminal_states_witness :
  let s := Sample.one_booking Db.Cancelled Db.Available in
  Db.bookings
    (Bookings.apply_all
       [Bookings.CancelBooking (Sample.host Sample.booking2)
          Sample.tenant1_user Sample.booking1;
        Bookings.DecideBooking (Sample.host Sample.booking2)
          Sample.owner1_user Sample.booking1 (Sample.says "approved");
        Bookings.CreateBooking (Sample.host Sample.booking2)
          Sample.tenant1_user (Sample.wants Sample.room2)] s)
    !! Sample.booking1
  = Some (Sample.a_booking Sample.tenant1 Sample.room1 Db.Cancelled).
Proof.
  apply (terminal_states _ (Sample.one_booking Db.Cancelled Db.Available)).
  - vm_compute. reflexivity.
  - left. reflexivity.
Defined.

(** ** The search route: what a response lists, and in what order *)

Section SearchListing.
Import Js Db Search.
Local Open Scope string_scope.

(** The rows of a query: the rooms of the store that pass the filters,
    each with its property and the property's owner. *)
Lemma run_query_In s q row :
  In row (run_query s q) <->
  exists id r p o,
    rooms s !! id = Some r
    /\ properties s !! room_property_id r = Some p
    /\ owners s !! property_owner_id p = Some o
    /\ keeps q r p = true
    /\ row = room_json id r (property_json (room_property_id r) p o).
Proof.
  unfold run_query.
  assert (In row (omap (row_of s q) (map_to_list (rooms s))) <->
          exists id r p o,
            rooms s !! id = Some r
            /\ properties s !! room_property_id r = Some p
            /\ owners s !! property_owner_id p = Some o
            /\ keeps q r p = true
            /\ row = room_json id r (property_json (room_property_id r) p o))
    as H.
  { rewrite <- list_elem_of_In, list_elem_of_omap. split.
    - intros ([id r] & Hin & Hrow). apply elem_of_map_to_list in Hin.
      unfold row_of in Hrow.
      destruct (properties s !! room_property_id r) as [p|] eqn:Ep;
        [|discriminate].
      destruct (owners s !! property_owner_id p) as [o|] eqn:Eo;
        [|discriminate].
      destruct (keeps q r p) eqn:Ek; [|discriminate].
      injection Hrow as <-. exists id, r, p, o. auto.
    - intros (id & r & p & o & Hr & Hp & Ho & Hk & ->).
      exists (id, r). split; [apply elem_of_map_to_list; exact Hr|].
      unfold row_of. rewrite Hp, Ho, Hk. reflexivity. }
  destruct (order_by q) as [[col asc]|]; [rewrite sort_In|]; exact H.
Qed.

Lemma keeps_available q r p : keeps q r p = true -> room_state r = Available.
Proof.
  unfold keeps. rewrite !andb_true_iff. intros [[[[H _] _] _] _].
  destruct (room_state r); simpl in H; congruence.
Qed.


Lemma near_In M q lat lon radKm candidates v :
  In v (near M q lat lon radKm candidates) <->
  exists row,
    In row candidates /\ v = annotate M lat lon row /\ within radKm v = true.
Proof.
  unfold near.
  assert (In v (List.filter (within radKm)
                  (List.map (annotate M lat lon) candidates)) <->
          exists row,
            In row candidates /\ v = annotate M lat lon row
            /\ within radKm v = true) as H.
  { rewrite List.filter_In, List.in_map_iff. split.
    - intros [(row & <- & Hin) Hw]. exists row. auto.
    - intros (row & Hin & -> & Hw). split; [exists row|]; auto. }
  destruct (param_is (sortBy q) "distance"); rewrite sort_In; exact H.
Qed.

Lemma distance_of_annotated M lat lon id r pid p o :
  get (annotate M lat lon (room_json id r (property_json pid p o)))
      "distance_km"
  = distanceKm M lat lon
      (or (of_option VNum (room_latitude r)) VUndefined)
      (or (of_option VNum (room_longitude r)) VUndefined).
Proof. reflexivity. Qed.

Lemma distanceKm_cases M lat lon a b :
  distanceKm M lat lon a b = VNull
  \/ exists km, distanceKm M lat lon a b = VNum km.
Proof.
  unfold distanceKm. destruct (eq_null a || eq_null b); [left|right]; eauto.
Qed.

(** X2: with a centre, a response lists exactly the rooms that the
    query without a centre would give and whose distance is [null] or
    at most the radius (10 without a [radius]); each row carries that
    distance, which is computed from the room's own coordinates and is
    [null] when one of them is missing or 0. *)
Theorem nearby_listing_is_exact M s req v :
  let q := params req in
  let lat := JsParse.parseFloat (param_text (latitude q)) in
  let lon := JsParse.parseFloat (param_text (longitude q)) in
  let radKm :=
    if param_truthy (radius q)
    then JsParse.parseFloat (param_text (radius q)) else 10%float in
  param_truthy (latitude q) && param_truthy (longitude q) = true ->
  In v (rooms_of (available_rooms M s req)) <->
  exists id r p o,
    rooms s !! id = Some r
    /\ room_state r = Available
    /\ properties s !! room_property_id r = Some p
    /\ owners s !! property_owner_id p = Some o
    /\ keeps (filters q) r p = true
    /\ let d := distanceKm M lat lon
                  (or (of_option VNum (room_latitude r)) VUndefined)
                  (or (of_option VNum (room_longitude r)) VUndefined) in
       v = spread_with (room_json id r
                          (property_json (room_property_id r) p o))
             "distance_km" d
       /\ (d = VNull
           \/ exists km, d = VNum km /\ PrimFloat.leb km radKm = true).
Proof.
  intros q lat lon radKm Hgeo. unfold available_rooms. fold q.
  rewrite Hgeo. simpl. fold lat lon radKm. rewrite near_In. split.
  - intros (row & Hin & -> & Hw). apply run_query_In in Hin.
    destruct Hin as (id & r & p & o & Hr & Hp & Ho & Hk & ->).
    exists id, r, p, o. repeat split; try assumption.
    { apply (keeps_available _ _ _ Hk). }
    apply within_spec in Hw. rewrite distance_of_annotated in Hw.
    destruct Hw as [Hw|Hw]; [left; exact Hw|].
    destruct (distanceKm_cases M lat lon
                (or (of_option VNum (room_latitude r)) VUndefined)
                (or (of_option VNum (room_longitude r)) VUndefined))
      as [E|[km E]]; [left; exact E|].
    right. exists km. split; [exact E|]. rewrite E in Hw. exact Hw.
  - intros (id & r & p & o & Hr & _ & Hp & Ho & Hk & -> & Hd).
    exists (room_json id r (property_json (room_property_id r) p o)).
    split; [|split; [reflexivity|]].
    { apply run_query_In. exists id, r, p, o. auto. }
    apply within_spec.
    change (get (spread_with _ _ ?d) "distance_km") with d.
    destruct Hd as [Hd|(km & Hd & Hle)]; [left; exact Hd|].
    right. rewrite Hd. exact Hle.
Qed.

(** [sort] rearranges. *)
Lemma insert_by_perm {A} (cmp : A -> A -> float) x l :
  insert_by cmp x l ≡ₚ x :: l.
Proof.
  induction l as [|y l IH]; simpl; [reflexivity|].
  destruct (PrimFloat.ltb 0 (cmp y x)); [reflexivity|].
  rewrite IH. apply Permutation_swap.
Qed.

Lemma sort_perm {A} (cmp : A -> A -> float) l : Js.sort cmp l ≡ₚ l.
Proof.
  unfold Js.sort.
  assert (forall acc,
             fold_left (fun acc x => insert_by cmp x acc) l acc ≡ₚ acc ++ l)
    as H.
  { induction l as [|x l IH]; intros acc; simpl.
    - rewrite app_nil_r. reflexivity.
    - rewrite IH, insert_by_perm. apply Permutation_middle. }
  apply (H []).
Qed.

(** X3: [sortBy] and [sortOrder] decide the order of a response and
    nothing else: with any other pair of them the same rows come back,
    each as many times, on the path with a centre and on the path
    without. *)
Theorem sorting_keeps_the_rooms M s req by_ order :
  rooms_of (available_rooms M s (resorted req by_ order))
  ≡ₚ rooms_of (available_rooms M s req).
Proof.
  unfold available_rooms, resorted. simpl.
  destruct (param_truthy (latitude (params req))
            && param_truthy (longitude (params req))); simpl.
  - unfold near. simpl.
    change (filters _) with (filters (params req)) at 1.
    destruct (param_is by_ "distance"),
      (param_is (sortBy (params req)) "distance");
      rewrite !sort_perm; reflexivity.
  - unfold run_query. simpl. rewrite !sort_perm. reflexivity.
Qed.

(** The order of two numbers, one way round only. *)
Lemma SFcompare_antisym x y :
  SFcompare y x = option_map CompOpp (SFcompare x y).
Proof.
  destruct x as [sx|sx| |sx mx ex], y as [sy|sy| |sy my ey]; simpl;
    try reflexivity;
    try (destruct sx; reflexivity); try (destruct sy; reflexivity);
    try (destruct sx, sy; reflexivity).
  change IntDef.Z.compare with Z.compare.
  change PosDef.Pos.compare_cont with Pos.compare_cont.
  rewrite (Z.compare_antisym ex ey).
  change (Pos.compare_cont Eq my mx) with (Pos.compare my mx).
  change (Pos.compare_cont Eq mx my) with (Pos.compare mx my).
  rewrite (Pos.compare_antisym mx my).
  destruct sx, sy; simpl; try reflexivity;
    destruct (Z.compare ex ey); simpl; try reflexivity;
    destruct (Pos.compare mx my); reflexivity.
Qed.

Lemma float_ltb_asym u v :
  PrimFloat.ltb u v = true -> PrimFloat.ltb v u = false.
Proof.
  rewrite !ltb_spec. unfold SFltb.
  rewrite (SFcompare_antisym (Prim2SF u) (Prim2SF v)).
  destruct (SFcompare (Prim2SF u) (Prim2SF v)) as [[]|]; simpl; congruence.
Qed.

(** [sort] with a comparator that never asks for [a] after [b] and for
    [b] after [a]: no element of the result is asked for after its
    successor. *)
Section Insertion.
Context {A : Type} (cmp : A -> A -> float).
Hypothesis cmp_asym :
  forall a b, PrimFloat.ltb 0 (cmp a b) = true ->
              PrimFloat.ltb 0 (cmp b a) = false.

Lemma insert_by_HdRel y x l :
  not_after cmp y x -> HdRel (not_after cmp) y l ->
  HdRel (not_after cmp) y (insert_by cmp x l).
Proof.
  intros Hx Hl. destruct l as [|z l]; simpl; [constructor; exact Hx|].
  destruct (PrimFloat.ltb 0 (cmp z x)); constructor; [exact Hx|].
  inversion Hl; assumption.
Qed.

Lemma insert_by_Sorted x l :
  Sorted (not_after cmp) l -> Sorted (not_after cmp) (insert_by cmp x l).
Proof.
  induction 1 as [|y l Hs IH Hh]; simpl.
  - repeat constructor.
  - destruct (PrimFloat.ltb 0 (cmp y x)) eqn:E.
    + constructor; [constructor; assumption|].
      constructor. apply cmp_asym. exact E.
    + constructor; [exact IH|]. apply insert_by_HdRel; assumption.
Qed.

Lemma sort_Sorted l : Sorted (not_after cmp) (Js.sort cmp l).
Proof.
  unfold Js.sort.
  assert (forall acc, Sorted (not_after cmp) acc ->
            Sorted (not_after cmp)
              (fold_left (fun acc x => insert_by cmp x acc) l acc)) as H.
  { induction l as [|x l IH]; intros acc Hacc; simpl; [exact Hacc|].
    apply IH, insert_by_Sorted, Hacc. }
  apply H. constructor.
Qed.

End Insertion.

Lemma Sorted_on {A} (R R' : A -> A -> Prop) (P : A -> Prop) l :
  (forall a b, P a -> P b -> R a b -> R' a b) ->
  Forall P l -> Sorted R l -> Sorted R' l.
Proof.
  intros HR HP Hs. induction Hs as [|a l Hs IH Hh]; [constructor|].
  inversion HP as [|? ? Pa Pl]; subst.
  constructor; [apply IH; exact Pl|].
  destruct Hh as [|b l Hab]; constructor.
  inversion Pl; subst. apply HR; assumption.
Qed.

Lemma order_cmp_asym col asc a b :
  PrimFloat.ltb 0 (order_cmp col asc a b) = true ->
  PrimFloat.ltb 0 (order_cmp col asc b a) = false.
Proof.
  unfold order_cmp.
  destruct (get a col) as [| |x|u|u|fs], (get b col) as [| |y|v|v|gs]; simpl;
    try (destruct asc; simpl; intros H; try discriminate H; reflexivity).
  - destruct (PrimFloat.ltb u v) eqn:E1.
    + rewrite (float_ltb_asym _ _ E1).
      destruct asc; intros H; try discriminate H; reflexivity.
    + destruct (PrimFloat.ltb v u) eqn:E2;
        destruct asc; intros H; try discriminate H; reflexivity.
  - rewrite (String.compare_antisym v u).
    destruct (String.compare u v); destruct asc; simpl; intros H;
      try discriminate H; reflexivity.
Qed.

(** X4: without a centre and with [sortBy=rent], the rows come in the
    order of their rent: with [sortOrder=asc] no row has a rent below
    that of the row before it, with any other [sortOrder] or none no
    row has a rent above that of the row before it. *)
Theorem listing_by_rent_is_ordered M s req :
  let q := params req in
  param_truthy (latitude q) && param_truthy (longitude q) = false ->
  param_is (sortBy q) "rent" = true ->
  Sorted (fun a b =>
            if param_is (sortOrder q) "asc"
            then PrimFloat.ltb (rent_of b) (rent_of a) = false
            else PrimFloat.ltb (rent_of a) (rent_of b) = false)
         (rooms_of (available_rooms M s req)).
Proof.
  intros q Hgeo Hby. unfold available_rooms. fold q. rewrite Hgeo. simpl.
  assert (orderColumn q = "rent_amount") as Hcol.
  { unfold orderColumn. destruct (sortBy q) as [t|]; [|discriminate].
    simpl in Hby. apply String.eqb_eq in Hby. subst t. reflexivity. }
  assert (ascending q = param_is (sortOrder q) "asc") as Hasc.
  { unfold ascending. destruct (sortOrder q) as [t|]; [|reflexivity]. simpl.
    destruct (String.eqb t "") eqn:E; [|reflexivity].
    apply String.eqb_eq in E. subst t. reflexivity. }
  rewrite Hcol, Hasc.
  set (asc := param_is (sortOrder q) "asc").
  unfold run_query. simpl.
  set (rows := omap _ _).
  apply (Sorted_on (not_after (order_cmp "rent_amount" asc)) _
           (fun v => exists x, get v "rent_amount" = VNum x)).
  - intros a b [x Ha] [y Hb]. unfold not_after, order_cmp, rent_of.
    rewrite Ha, Hb. simpl.
    destruct asc.
    + destruct (PrimFloat.ltb x y) eqn:E1.
      * intros _. apply float_ltb_asym. exact E1.
      * destruct (PrimFloat.ltb y x); [discriminate|reflexivity].
    + destruct (PrimFloat.ltb x y) eqn:E1; [discriminate|reflexivity].
  - apply List.Forall_forall. intros v Hv. apply sort_In in Hv.
    assert (In v (run_query s (filters q))) as Hin.
    { unfold run_query. simpl. exact Hv. }
    apply run_query_rows in Hin. destruct Hin as (id & r & p & o & ->).
    exists (rent_amount r). reflexivity.
  - apply sort_Sorted. intros a b. apply order_cmp_asym.
Qed.

(** A room that has the centre for coordinates is at distance 0. *)
Lemma centre_distance M (ML : Math.laws M) lat lon id r pid p o :
  PrimFloat.leb (PrimFloat.abs lat) 90 = true ->
  PrimFloat.leb (PrimFloat.abs lon) 180 = true ->
  PrimFloat.is_zero lat = false ->
  PrimFloat.is_zero lon = false ->
  room_latitude r = Some lat ->
  room_longitude r = Some lon ->
  annotate M lat lon (room_json id r (property_json pid p o))
  = spread_with (room_json id r (property_json pid p o))
      "distance_km" (VNum 0).
Proof.
  intros Hla Hlo Hzla Hzlo Hrla Hrlo.
  pose proof (abs_le_finite lat 6333186975989760 (-46) Hla eq_refl) as Hfla.
  pose proof (abs_le_finite lon 6333186975989760 (-45) Hlo eq_refl) as Hflo.
  assert (forall x, PrimFloat.is_finite x = true -> PrimFloat.is_nan x = false)
    as Hnan.
  { intros x. unfold PrimFloat.is_finite.
    destruct (PrimFloat.is_nan x); [discriminate|reflexivity]. }
  rewrite annotate_room_json, Hrla, Hrlo. simpl. unfold or. simpl.
  rewrite Hzla, Hzlo, (Hnan _ Hfla), (Hnan _ Hflo). simpl.
  rewrite (distanceKm_self M ML lat lon Hla Hflo). reflexivity.
Qed.

(** X5: on a host whose [Math] satisfies [Math.laws], a room that
    passes the filters and whose own coordinates are those of the
    centre, neither of them 0, is listed with the distance 0, whatever
    the radius from 0 up. *)
Theorem room_at_the_centre_is_found M (ML : Math.laws M) s req id r p o
  lat lon :
  let q := params req in
  let radKm :=
    if param_truthy (radius q)
    then JsParse.parseFloat (param_text (radius q)) else 10%float in
  param_truthy (latitude q) && param_truthy (longitude q) = true ->
  JsParse.parseFloat (param_text (latitude q)) = lat ->
  JsParse.parseFloat (param_text (longitude q)) = lon ->
  PrimFloat.leb (PrimFloat.abs lat) 90 = true ->
  PrimFloat.leb (PrimFloat.abs lon) 180 = true ->
  PrimFloat.is_zero lat = false ->
  PrimFloat.is_zero lon = false ->
  PrimFloat.leb 0 radKm = true ->
  rooms s !! id = Some r ->
  properties s !! room_property_id r = Some p ->
  owners s !! property_owner_id p = Some o ->
  keeps (filters q) r p = true ->
  room_latitude r = Some lat ->
  room_longitude r = Some lon ->
  In (spread_with (room_json id r (property_json (room_property_id r) p o))
        "distance_km" (VNum 0))
     (rooms_of (available_rooms M s req)).
Proof.
  intros q radKm Hgeo Hlat Hlon Hla Hlo Hzla Hzlo Hrad Hr Hp Ho Hk Hrla Hrlo.
  unfold available_rooms. fold q. rewrite Hgeo. simpl. rewrite Hlat, Hlon.
  fold radKm. apply near_In.
  exists (room_json id r (property_json (room_property_id r) p o)).
  split.
  { apply run_query_In. exists id, r, p, o. auto. }
  split.
  - symmetry. apply (centre_distance M ML); assumption.
  - apply within_spec. right. exact Hrad.
Qed.

End SearchListing.

(** ** The booking routes: refusals, ownership and the lifecycle as a
    whole *)

Section BookingLifecycle.
Import Db Bookings.
Local Open Scope string_scope.

Lemma insert_booking_refused id b s s' :
  insert_booking id b s = (s', None) -> s' = s.
Proof.
  unfold insert_booking.
  destruct b as [b|]; [destruct (bookings s !! id)|];
    intros H; inversion H; reflexivity.
Qed.

Lemma update_booking_refused id f s s' :
  update_booking id f s = (s', None) -> s' = s.
Proof.
  unfold update_booking.
  destruct (bookings s !! key (bookings s) id); intros H; inversion H;
    reflexivity.
Qed.

(** X6: a request of the lifecycle that is not answered 200 or 201
    leaves the store as it was: no booking, room, tenant, notification
    or audit entry is written. *)
Theorem refused_request_changes_nothing o s :
  status (snd (run (handler o) s)) <> 200 ->
  status (snd (run (handler o) s)) <> 201 ->
  fst (run (handler o) s) = s.
Proof.
  destruct o as [e uid b|e uid bid b|e uid bid]; unfold handler.
  - unfold book_room.
    destruct (validate e b) as [errs|v]; [reflexivity|]. simpl.
    destruct (tenant_of_user uid s) as [[tid t]|]; [|reflexivity]. simpl.
    destruct (active_booking tid s); [reflexivity|]. simpl.
    destruct (available_room (wanted_room v) s) as [[[r p] o]|];
      [|reflexivity].
    simpl.
    destruct (insert_booking _ _ s) as [s' [[id row]|]] eqn:E; simpl.
    + intros _ H. contradiction H. reflexivity.
    + intros _ _. apply (insert_booking_refused _ _ _ _ E).
  - unfold update_status.
    destruct (decision b) as [d|]; [|reflexivity]. simpl.
    destruct (owner_of_user uid s) as [[oid orow]|]; [|reflexivity]. simpl.
    destruct (booking_of_owner bid oid s) as [[[bk t] r]|]; [|reflexivity].
    destruct (negb _); [reflexivity|]. simpl.
    destruct (update_booking _ _ s) as [s' [[id row]|]] eqn:E; simpl.
    + destruct d; simpl; intros H; contradiction H; reflexivity.
    + intros _ _. apply (update_booking_refused _ _ _ _ E).
  - unfold cancel. simpl.
    destruct (tenant_of_user uid s) as [[tid t]|]; [|reflexivity]. simpl.
    destruct (booking_of_tenant bid tid s) as [[[bk r] p]|]; [|reflexivity].
    destruct (booking_status_eqb _ _); [reflexivity|]. simpl.
    destruct (update_booking _ _ s) as [s' [[id row]|]] eqn:E; simpl.
    + intros H; contradiction H; reflexivity.
    + intros _ _. apply (update_booking_refused _ _ _ _ E).
Qed.

Lemma string_eqb_neq (a b : string) : a <> b -> String.eqb a b = false.
Proof. intros H. apply String.eqb_neq. exact H. Qed.

(** X7: a decision by an owner on a booking of a property that is
    another owner's is answered 404 "Booking not found or access
    denied", whatever the booking's status, and nothing is written. *)
Theorem decide_needs_ownership e uid bid body s d oid o b p :
  decision body = Some d ->
  owner_of_user uid s = Some (oid, o) ->
  bookings s !! bid = Some b ->
  properties s !! booking_property_id b = Some p ->
  property_owner_id p <> oid ->
  run (update_status e uid bid body) s
  = (s, failure 404 "Booking not found or access denied").
Proof.
  intros Hd Ho Hb Hp Hne. unfold update_status. rewrite Hd. simpl.
  rewrite Ho. simpl. unfold booking_of_owner.
  rewrite (key_hit _ _ _ Hb), Hb, Hp.
  rewrite (string_eqb_neq _ _ Hne).
  destruct (tenants s !! _); [destruct (rooms s !! _)|]; reflexivity.
Qed.

(** X8: a cancellation by a tenant of a booking that is another
    tenant's is answered 404 "Booking not found or access denied",
    whatever the booking's status, and nothing is written. *)
Theorem cancel_needs_own_booking e uid bid s tid t b :
  tenant_of_user uid s = Some (tid, t) ->
  bookings s !! bid = Some b ->
  booking_tenant_id b <> tid ->
  run (cancel e uid bid) s
  = (s, failure 404 "Booking not found or access denied").
Proof.
  intros Ht Hb Hne. unfold cancel. simpl. rewrite Ht. simpl.
  unfold booking_of_tenant.
  rewrite (key_hit _ _ _ Hb), Hb, (string_eqb_neq _ _ Hne).
  reflexivity.
Qed.

(** X9: the cancellation by its tenant of a booking that is pending,
    approved or rejected is answered 200; the booking becomes
    cancelled and its room available, whatever the room's status was
    and whoever else holds a booking of the room: no other booking is
    touched, and neither is a tenant (a room number written by an
    approval stays). *)
Theorem cancel_frees_the_room e uid bid s tid t b r p :
  tenant_of_user uid s = Some (tid, t) ->
  bookings s !! bid = Some b ->
  booking_tenant_id b = tid ->
  rooms s !! booking_room_id b = Some r ->
  properties s !! booking_property_id b = Some p ->
  booking_state b <> Cancelled ->
  let out := run (cancel e uid bid) s in
  status (snd out) = 200
  /\ state_of bid (fst out) = Some Cancelled
  /\ room_state_of (booking_room_id b) (fst out) = Some Available
  /\ (forall other, other <> bid ->
        bookings (fst out) !! other = bookings s !! other)
  /\ tenants (fst out) = tenants s.
Proof.
  intros Ht Hb Htid Hr Hp Hst. unfold cancel. simpl. rewrite Ht. simpl.
  unfold booking_of_tenant.
  rewrite (key_hit _ _ _ Hb), Hb, Htid, String.eqb_refl, Hr, Hp.
  destruct (booking_status_eqb (booking_state b) Cancelled) eqn:E.
  { apply booking_status_eqb_eq in E. contradiction. }
  simpl. rewrite (update_booking_hit _ _ _ _ Hb). simpl.
  split; [reflexivity|]. split.
  { unfold state_of. simpl. rewrite lookup_insert_eq. reflexivity. }
  split.
  { unfold room_state_of. simpl.
    erewrite lookup_update_by_id by exact Hr. reflexivity. }
  split; [|reflexivity].
  intros other Hne. simpl. apply lookup_insert_ne. congruence.
Qed.

Lemma single_Some {A} (l : list A) x : single l = Some x -> l = [x].
Proof. destruct l as [|y [|z l]]; simpl; congruence. Qed.

Lemma tenant_of_user_lookup uid s tid t :
  tenant_of_user uid s = Some (tid, t) ->
  tenants s !! tid = Some t /\ tenant_user_id t = uid.
Proof.
  unfold tenant_of_user. intros H. apply single_Some in H.
  assert (In (tid, t) (select_where (tenants s)
            (fun _ t => String.eqb (tenant_user_id t) uid))) as Hin.
  { rewrite H. left. reflexivity. }
  apply select_where_In in Hin. destruct Hin as [H1 H2].
  split; [exact H1|]. apply String.eqb_eq. exact H2.
Qed.

Lemma filter_nil_length {A} (l : list A) : length l = 0%nat -> l = [].
Proof. destruct l; simpl; [reflexivity|discriminate]. Qed.

Lemma no_active_after_insert tid (m : gmap string booking_row) id b' :
  List.filter (fun kv : string * booking_row =>
            String.eqb (booking_tenant_id (snd kv)) tid && is_active (snd kv))
         (map_to_list m) = [] ->
  is_active b' = false ->
  List.filter (fun kv : string * booking_row =>
            String.eqb (booking_tenant_id (snd kv)) tid && is_active (snd kv))
         (map_to_list (<[id := b']> m)) = [].
Proof.
  intros Hnil Hb. apply filter_nil_length.
  set (f := fun kv : string * booking_row =>
            String.eqb (booking_tenant_id (snd kv)) tid
            && is_active (snd kv)) in *.
  assert (f (id, b') = false) as Hf.
  { unfold f. simpl. rewrite Hb. apply andb_false_r. }
  destruct (m !! id) as [x|] eqn:E.
  - pose proof (count_insert_over f m id x b' E) as H.
    rewrite Hnil, Hf in H. simpl in H. lia.
  - rewrite (count_insert_fresh f m id b' E), Hnil, Hf. reflexivity.
Qed.

Lemma available_room_joins roomId s r p o :
  available_room roomId s = Some (r, p, o) ->
  properties s !! room_property_id r = Some p
  /\ owners s !! property_owner_id p = Some o.
Proof.
  unfold available_room.
  destruct (rooms s !! key (rooms s) roomId) as [r'|]; [|discriminate].
  destruct (room_status_eqb (room_state r') Available); [|discriminate].
  destruct (properties s !! _) as [p'|] eqn:Ep; [|discriminate].
  destruct (owners s !! _) as [o'|] eqn:Eo; [|discriminate].
  intros [= <- <- <-]. split; assumption.
Qed.

Lemma dated_row e tid v pid :
  dated e v ->
  exists move_in move_out,
    new_booking e tid v pid
    = Some {| booking_tenant_id := tid;
              booking_room_id := wanted_room v;
              booking_property_id := pid;
              booking_move_in_date := move_in;
              booking_move_out_date := move_out;
              booking_state := Pending;
              booking_owner_notes := None;
              booking_tenant_notes := wanted_notes v;
              booking_created_at := now e;
              booking_updated_at := now e |}.
Proof.
  intros [H1 H2].
  destruct (to_date e (wanted_move_in v)) as [move_in|] eqn:E1;
    [|contradiction].
  destruct (to_date e (wanted_move_out v)) as [move_out|] eqn:E2;
    [|contradiction].
  exists move_in, move_out. apply new_booking_row; assumption.
Qed.

Lemma no_active_booking tid s :
  active_bookings tid s = [] -> active_booking tid s = None.
Proof. intros H. unfold active_booking. rewrite H. reflexivity. Qed.

(** X10: a tenant without an active booking asks for an available
    room, with dates the store reads, and is granted; the booking is
    then rejected by the owner of the property, or cancelled by the
    tenant.  After the two operations the room is available again, the
    tenant has no active booking, and a new request of the tenant for
    the room, with dates the store reads, is granted. *)
Theorem released_room_can_be_booked_again
  e1 tuid body1 s v tid t r p o ouid orow o2 e3 body3 v3 :
  validate e1 body1 = inr v ->
  tenant_of_user tuid s = Some (tid, t) ->
  active_bookings tid s = [] ->
  available_room (wanted_room v) s = Some (r, p, o) ->
  dated e1 v ->
  bookings s !! fresh_id e1 = None ->
  owner_of_user ouid s = Some (property_owner_id p, orow) ->
  releases tuid ouid (fresh_id e1) o2 ->
  validate e3 body3 = inr v3 ->
  wanted_room v3 = wanted_room v ->
  dated e3 v3 ->
  fresh_id e3 <> fresh_id e1 ->
  bookings s !! fresh_id e3 = None ->
  let s2 := apply_all [CreateBooking e1 tuid body1; o2] s in
  room_state_of (key (rooms s) (wanted_room v)) s2 = Some Available
  /\ active_bookings tid s2 = []
  /\ status (snd (run (book_room e3 tuid body3) s2)) = 201.
Proof.
  intros Hv Ht Ha Hr Hd1 Hf Ho Ho2 Hv3 Hw3 Hd3 Hne Hf3 s2. subst s2.
  change (apply_all [CreateBooking e1 tuid body1; o2] s)
    with (apply o2 (fst (run (book_room e1 tuid body1) s))).
  destruct (dated_row e1 tid v (room_property_id r) Hd1)
    as (move_in & move_out & Hn).
  destruct (book_room_success e1 tuid body1 s v tid t r p o _ Hv Ht
              (no_active_booking _ _ Ha) Hr Hn Hf)
    as (_ & Hb1 & Hr1 & Ht1 & Ho1 & Hp1).
  destruct (tenant_of_user_lookup _ _ _ _ Ht) as [Htl _].
  destruct (available_room_state _ _ _ _ _ Hr) as [Hrl Hst].
  destruct (available_room_joins _ _ _ _ _ Hr) as [Hpl Hol].
  set (rid := key (rooms s) (wanted_room v)) in *.
  set (s1 := fst (run (book_room e1 tuid body1) s)) in *.
  match type of Hb1 with
  | _ = <[_ := ?x]> _ => set (row := x) in *
  end.
  set (r1 := Rooms.with_status Reserved (now e1) r) in *.
  assert (rooms s1 !! rid = Some r1) as Hr1l
    by (rewrite Hr1; apply lookup_insert_eq).
  assert (bookings s1 !! fresh_id e1 = Some row) as Hb1l
    by (rewrite Hb1; apply lookup_insert_eq).
  assert (tenants s1 !! tid = Some t) as Htl1 by (rewrite Ht1; exact Htl).
  assert (properties s1 !! room_property_id r = Some p) as Hpl1
    by (rewrite Hp1; exact Hpl).
  assert (tenant_of_user tuid s1 = Some (tid, t)) as Ht1'.
  { unfold tenant_of_user. rewrite Ht1. exact Ht. }
  assert (owner_of_user ouid s1 = Some (property_owner_id p, orow)) as Ho1'.
  { unfold owner_of_user. rewrite Ho1. exact Ho. }
  assert (exists b2,
             is_active b2 = false
             /\ bookings (apply o2 s1) = <[fresh_id e1 := b2]> (bookings s1)
             /\ (exists t2,
                    rooms (apply o2 s1)
                    = <[rid := Rooms.with_status Available t2 r1]> (rooms s1))
             /\ tenants (apply o2 s1) = tenants s1
             /\ owners (apply o2 s1) = owners s1
             /\ properties (apply o2 s1) = properties s1) as Hs2.
  { destruct o2 as [e2 u2 b2|e2 u2 bid2 reply|e2 u2 bid2]; simpl in Ho2.
    - contradiction.
    - destruct Ho2 as (-> & -> & Hd).
      unfold apply, handler, update_status. rewrite Hd. simpl.
      rewrite Ho1'. simpl. unfold booking_of_owner.
      rewrite (key_hit _ _ _ Hb1l), Hb1l. unfold row at 1 2 3. simpl.
      fold rid. rewrite Htl1, Hr1l, Hpl1, String.eqb_refl. simpl.
      rewrite (update_booking_hit _ _ _ _ Hb1l). simpl.
      rewrite (update_by_id_hit _ _ _ _ Hr1l).
      eexists. split; [|split; [reflexivity|]].
      { reflexivity. }
      split; [exists (now e2); reflexivity|]. repeat split; reflexivity.
    - destruct Ho2 as (-> & ->).
      unfold apply, handler, cancel. simpl. rewrite Ht1'. simpl.
      unfold booking_of_tenant.
      rewrite (key_hit _ _ _ Hb1l), Hb1l. unfold row at 1 2 3. simpl.
      fold rid. rewrite String.eqb_refl, Hr1l, Hpl1. simpl.
      rewrite (update_booking_hit _ _ _ _ Hb1l). simpl.
      rewrite (update_by_id_hit _ _ _ _ Hr1l).
      eexists. split; [|split; [reflexivity|]].
      { reflexivity. }
      split; [exists (now e2); reflexivity|]. repeat split; reflexivity. }
  destruct Hs2 as (b2 & Hact & Hb2 & [t2 Hr2] & Ht2 & Ho2' & Hp2).
  set (s2 := apply o2 s1) in *.
  assert (rooms s2 !! rid = Some (Rooms.with_status Available t2 r1)) as Hr2l
    by (rewrite Hr2; apply lookup_insert_eq).
  assert (active_bookings tid s2 = []) as Ha2.
  { unfold active_bookings, select_where. rewrite Hb2, Hb1.
    rewrite insert_insert_eq. apply no_active_after_insert; [|exact Hact].
    exact Ha. }
  assert (key (rooms s2) (wanted_room v3) = rid) as Hk3.
  { rewrite Hw3, Hr2, (key_insert _ _ _ _ _ Hr1l), Hr1.
    apply (key_insert _ _ _ _ _ Hrl). }
  split; [|split].
  - unfold room_state_of. rewrite Hr2l. reflexivity.
  - exact Ha2.
  - assert (tenant_of_user tuid s2 = Some (tid, t)) as Ht2'.
    { unfold tenant_of_user. rewrite Ht2. exact Ht1'. }
    assert (bookings s2 !! fresh_id e3 = None) as Hf2.
    { rewrite Hb2, Hb1, insert_insert_eq, lookup_insert_ne by congruence.
      exact Hf3. }
    assert (available_room (wanted_room v3) s2
            = Some (Rooms.with_status Available t2 r1, p, o)) as Hav.
    { unfold available_room. rewrite Hk3, Hr2l. simpl.
      rewrite Hp2, Hp1, Hpl, Ho2', Ho1, Hol. reflexivity. }
    destruct (dated_row e3 tid v3 (room_property_id r) Hd3)
      as (move_in3 & move_out3 & Hn3).
    pose proof (book_room_success e3 tuid body3 s2 v3 tid t _ p o _
                  Hv3 Ht2' (no_active_booking _ _ Ha2) Hav Hn3 Hf2) as H.
    simpl in H. destruct H as [H _]. rewrite H. reflexivity.
Qed.

Lemma single_after_update {A} (m : gmap string A) (f : string * A -> bool)
  k x x' :
  single (List.filter f (map_to_list m)) = Some (k, x) ->
  f (k, x') = true ->
  single (List.filter f (map_to_list (<[k := x']> m))) = Some (k, x').
Proof.
  intros Hs Hf. apply single_Some in Hs.
  assert (m !! k = Some x /\ f (k, x) = true) as [Hk Hfx].
  { assert (In (k, x) (List.filter f (map_to_list m))) as Hin
      by (rewrite Hs; left; reflexivity).
    apply List.filter_In in Hin. destruct Hin as [Hin Hfx].
    apply list_elem_of_In, elem_of_map_to_list in Hin. auto. }
  pose proof (count_insert_over f m k x x' Hk) as Hc.
  rewrite Hs, Hf, Hfx in Hc. simpl in Hc.
  assert (In (k, x') (List.filter f (map_to_list (<[k := x']> m)))) as Hin.
  { apply List.filter_In. split; [|exact Hf].
    apply list_elem_of_In, elem_of_map_to_list, lookup_insert_eq. }
  destruct (List.filter f (map_to_list (<[k := x']> m))) as [|y [|z l]];
    simpl in *; try lia.
  destruct Hin as [->|[]]. reflexivity.
Qed.

(** X11: a tenant without an active booking asks for an available
    room, with dates the store reads, the owner of the property
    approves, the tenant cancels.  After the request the booking is
    pending and the room reserved; after the approval the booking is
    approved, the room occupied and the tenant's [room_number] the
    room's; after the cancellation the booking is cancelled and the
    room available, and the tenant's [room_number] is still the
    room's. *)
Theorem approved_booking_cancelled
  e1 tuid body1 s v tid t r p o ouid orow e2 reply e3 :
  validate e1 body1 = inr v ->
  tenant_of_user tuid s = Some (tid, t) ->
  active_bookings tid s = [] ->
  available_room (wanted_room v) s = Some (r, p, o) ->
  dated e1 v ->
  bookings s !! fresh_id e1 = None ->
  owner_of_user ouid s = Some (property_owner_id p, orow) ->
  decision reply = Some Approved ->
  let bid := fresh_id e1 in
  let room := key (rooms s) (wanted_room v) in
  let s1 := apply (CreateBooking e1 tuid body1) s in
  let s2 := apply (DecideBooking e2 ouid bid reply) s1 in
  let s3 := apply (CancelBooking e3 tuid bid) s2 in
  (state_of bid s1 = Some Pending /\ room_state_of room s1 = Some Reserved)
  /\ (state_of bid s2 = Some Approved
      /\ room_state_of room s2 = Some Occupied
      /\ tenant_room_number <$> tenants s2 !! tid
         = Some (Some (room_number r)))
  /\ (state_of bid s3 = Some Cancelled
      /\ room_state_of room s3 = Some Available
      /\ tenant_room_number <$> tenants s3 !! tid
         = Some (Some (room_number r))).
Proof.
  intros Hv Ht Ha Hr Hd1 Hf Ho Hd bid room s1 s2 s3. subst bid room.
  destruct (dated_row e1 tid v (room_property_id r) Hd1)
    as (move_in & move_out & Hn).
  destruct (book_room_success e1 tuid body1 s v tid t r p o _ Hv Ht
              (no_active_booking _ _ Ha) Hr Hn Hf)
    as (_ & Hb1 & Hr1 & Ht1 & Ho1 & Hp1).
  change (fst (run (book_room e1 tuid body1) s)) with s1 in *.
  destruct (tenant_of_user_lookup _ _ _ _ Ht) as [Htl Htu].
  destruct (available_room_state _ _ _ _ _ Hr) as [Hrl Hst].
  destruct (available_room_joins _ _ _ _ _ Hr) as [Hpl _].
  set (rid := key (rooms s) (wanted_room v)) in *.
  match type of Hb1 with
  | _ = <[_ := ?x]> _ => set (row := x) in *
  end.
  set (r1 := Rooms.with_status Reserved (now e1) r) in *.
  assert (bookings s1 !! fresh_id e1 = Some row) as Hb1l
    by (rewrite Hb1; apply lookup_insert_eq).
  assert (rooms s1 !! rid = Some r1) as Hr1l
    by (rewrite Hr1; apply lookup_insert_eq).
  assert (tenants s1 !! tid = Some t) as Htl1 by (rewrite Ht1; exact Htl).
  assert (properties s1 !! room_property_id r = Some p) as Hpl1
    by (rewrite Hp1; exact Hpl).
  assert (owner_of_user ouid s1 = Some (property_owner_id p, orow)) as Ho1'.
  { unfold owner_of_user. rewrite Ho1. exact Ho. }
  set (row2 := decided Approved (status_notes reply) (now e2) row).
  set (r2 := Rooms.with_status Occupied (now e2) r1).
  set (t2 := {| tenant_user_id := tenant_user_id t;
                tenant_name := tenant_name t;
                tenant_phone := tenant_phone t;
                tenant_room_number := Some (room_number r) |}).
  assert (bookings s2 = <[fresh_id e1 := row2]> (bookings s1)
          /\ rooms s2 = <[rid := r2]> (rooms s1)
          /\ tenants s2 = <[tid := t2]> (tenants s1)
          /\ properties s2 = properties s1) as (Hb2 & Hr2 & Ht2 & Hp2).
  { subst s2. unfold apply, handler, update_status. rewrite Hd. simpl.
    rewrite Ho1'. simpl. unfold booking_of_owner.
    rewrite (key_hit _ _ _ Hb1l), Hb1l. unfold row at 1 2 3. simpl.
    fold rid. rewrite Htl1, Hr1l, Hpl1, String.eqb_refl. simpl.
    rewrite (update_booking_hit _ _ _ _ Hb1l). simpl.
    rewrite (update_by_id_hit _ _ _ _ Hr1l), (update_by_id_hit _ _ _ _ Htl1).
    repeat split; reflexivity. }
  assert (tenant_of_user tuid s2 = Some (tid, t2)) as Ht2'.
  { unfold tenant_of_user, select_where. rewrite Ht2, Ht1.
    apply (single_after_update (tenants s)
             (fun kv => String.eqb (tenant_user_id (snd kv)) tuid) tid t t2).
    - exact Ht.
    - simpl. apply String.eqb_eq. exact Htu. }
  assert (bookings s2 !! fresh_id e1 = Some row2) as Hb2l
    by (rewrite Hb2; apply lookup_insert_eq).
  assert (rooms s2 !! rid = Some r2) as Hr2l
    by (rewrite Hr2; apply lookup_insert_eq).
  assert (bookings s3
          = <[fresh_id e1 := cancelled (now e3) row2]> (bookings s2)
          /\ rooms s3
             = <[rid := Rooms.with_status Available (now e3) r2]> (rooms s2)
          /\ tenants s3 = tenants s2) as (Hb3 & Hr3 & Ht3).
  { assert (properties s2 !! room_property_id r = Some p) as Hpl2
      by (rewrite Hp2; exact Hpl1).
    subst s3. unfold apply, handler, cancel. simpl. rewrite Ht2'. simpl.
    unfold booking_of_tenant. rewrite (key_hit _ _ _ Hb2l), Hb2l.
    unfold row2 at 1 2 3, row at 1 2 3. simpl.
    fold rid. rewrite String.eqb_refl, Hr2l, Hpl2. simpl.
    rewrite (update_booking_hit _ _ _ _ Hb2l). simpl.
    rewrite (update_by_id_hit _ _ _ _ Hr2l).
    repeat split; reflexivity. }
  unfold state_of, room_state_of.
  rewrite Hb1l, Hr1l, Hb3, Hr3, Ht3, Ht2, Hb2, Hr2.
  rewrite !lookup_insert_eq.
  repeat split; reflexivity.
Qed.

Lemma moves_refl a : moves a a = true.
Proof. destruct a; reflexivity. Qed.

Lemma moves_trans a b c :
  moves a b = true -> moves b c = true -> moves a c = true.
Proof. destruct a, b, c; simpl; congruence. Qed.

Lemma same_request_refl b : same_request b b.
Proof. repeat split. Qed.

Lemma same_request_trans a b c :
  same_request a b -> same_request b c -> same_request a c.
Proof.
  unfold same_request. intros (H1 & H2 & H3 & H4 & H5 & H6 & H7)
    (G1 & G2 & G3 & G4 & G5 & G6 & G7).
  repeat split; congruence.
Qed.

Lemma apply_booking o s bid b :
  bookings s !! bid = Some b ->
  exists b',
    bookings (apply o s) !! bid = Some b'
    /\ same_request b b'
    /\ moves (booking_state b) (booking_state b') = true.
Proof.
  intros Hb. unfold apply.
  assert (exists b', bookings s !! bid = Some b' /\ same_request b b'
                     /\ moves (booking_state b) (booking_state b') = true)
    as Hsame.
  { exists b. split; [exact Hb|]. split; [apply same_request_refl|].
    apply moves_refl. }
  destruct o as [e uid body|e uid bookingId body|e uid bookingId];
    unfold handler.
  - destruct (book_room_bookings e uid body s)
      as [-> | (v & tid & t & pid & row & _ & _ & Hf & _ & ->)];
      [exact Hsame|].
    rewrite lookup_insert_ne by congruence. exact Hsame.
  - destruct (update_status_bookings e uid bookingId body s)
      as [-> | (b0 & d & Hb0 & Hst & ->)]; [exact Hsame|].
    destruct (decide (key (bookings s) bookingId = bid)) as [Heq|Hne].
    + rewrite Heq in *. rewrite lookup_insert_eq.
      rewrite Hb in Hb0. injection Hb0 as <-.
      eexists. split; [reflexivity|]. split; [repeat split|].
      rewrite Hst. reflexivity.
    + rewrite lookup_insert_ne by exact Hne. exact Hsame.
  - destruct (cancel_bookings e uid bookingId s)
      as [-> | (b0 & Hb0 & _ & ->)]; [exact Hsame|].
    destruct (decide (key (bookings s) bookingId = bid)) as [Heq|Hne].
    + rewrite Heq in *. rewrite lookup_insert_eq.
      rewrite Hb in Hb0. injection Hb0 as <-.
      eexists. split; [reflexivity|]. split; [repeat split|].
      simpl. destruct (booking_state b); reflexivity.
    + rewrite lookup_insert_ne by exact Hne. exact Hsame.
Qed.

(** X12: whatever requests of the lifecycle are served one after the
    other, a booking of the store stays in the store, and stays a
    booking of the same tenant, room and property with the same dates,
    tenant's notes and time of creation; its status moves only from
    pending to any status, and from approved or rejected to
    cancelled. *)
Theorem bookings_are_kept os s bid b :
  bookings s !! bid = Some b ->
  exists b',
    bookings (apply_all os s) !! bid = Some b'
    /\ same_request b b'
    /\ moves (booking_state b) (booking_state b') = true.
Proof.
  revert s b. induction os as [|o os IH]; intros s b Hb; simpl.
  - exists b. split; [exact Hb|]. split; [apply same_request_refl|].
    apply moves_refl.
  - destruct (apply_booking o s bid b Hb) as (b1 & Hb1 & Hs1 & Hm1).
    destruct (IH _ _ Hb1) as (b2 & Hb2 & Hs2 & Hm2).
    exists b2. split; [exact Hb2|].
    split; [apply (same_request_trans _ _ _ Hs1 Hs2)|].
    apply (moves_trans _ _ _ Hm1 Hm2).
Qed.

(** X13: if no tenant has more than one active booking, then after
    any requests of the lifecycle served one after the other no tenant
    has more than one active booking. *)
Theorem tenants_keep_one_active_booking os s :
  one_active s -> one_active (apply_all os s).
Proof. apply one_active_apply_all. Qed.

End BookingLifecycle.

(** ** The room routes *)

Section RoomFacts.
Import Js Db Search Bookings Rooms.
Local Open Scope string_scope.

Lemma room_of_user_owned roomId uid s r p o :
  rooms s !! roomId = Some r ->
  properties s !! room_property_id r = Some p ->
  owners s !! property_owner_id p = Some o ->
  room_of_user roomId uid s
  = if String.eqb (owner_user_id o) uid then Some r else None.
Proof.
  intros Hr Hp Ho. unfold room_of_user.
  rewrite (key_hit _ _ _ Hr), Hr, Hp, Ho. reflexivity.
Qed.

Lemma single_exactly_one {A} (l : list A) :
  (exists x, single l = Some x) <-> length l = 1%nat.
Proof.
  destruct l as [|x [|y l]]; simpl; split;
    try (intros [? ?]; discriminate); try discriminate; eauto.
Qed.

(** X14: a change of status or of coordinates asked for a room of a
    property that is another owner's is answered 404 "Room not found or
    access denied", and nothing is written. *)
Theorem room_routes_need_ownership C e uid roomId s r p o :
  rooms s !! roomId = Some r ->
  properties s !! room_property_id r = Some p ->
  owners s !! property_owner_id p = Some o ->
  owner_user_id o <> uid ->
  (forall body st,
      requested_status body = Some st ->
      run (update_room_status e uid roomId body) s
      = (s, Rooms.failure 404 "Room not found or access denied"))
  /\ (forall body,
        invalid body = [] ->
        run (update_room_coordinates C uid roomId body) s
        = (s, Rooms.failure 404 "Room not found or access denied")).
Proof.
  intros Hr Hp Ho Hne.
  pose proof (room_of_user_owned _ uid _ _ _ _ Hr Hp Ho) as Hown.
  rewrite (string_eqb_neq _ _ Hne) in Hown. split.
  - intros body st Hst. unfold update_room_status. rewrite Hst. simpl.
    rewrite Hown. reflexivity.
  - intros body Hv. unfold update_room_coordinates. rewrite Hv. simpl.
    rewrite Hown. reflexivity.
Qed.

Lemma update_room_run e uid roomId st s r :
  rooms s !! roomId = Some r ->
  run (updatedRoom <~ update_room roomId (with_status st (now e)) ;;
       match updatedRoom with
       | None => Ret (Rooms.failure 500 "Failed to update room status")
       | Some (id, row) =>
         _ <~ write (logActivity uid "update" "rooms" roomId) ;;
         Ret {| Rooms.status := 200;
                Rooms.body :=
                  RoomChanged "Room status updated successfully" id row |}
       end) s
  = (logActivity uid "update" "rooms" roomId
       (set_rooms s (<[roomId := with_status st (now e) r]> (rooms s))),
     {| Rooms.status := 200;
        Rooms.body :=
          RoomChanged "Room status updated successfully" roomId
            (with_status st (now e) r) |}).
Proof.
  intros Hr. simpl. unfold update_room. rewrite (key_hit _ _ _ Hr), Hr.
  reflexivity.
Qed.

(** X15: for the owner of the room's property, a change of the room's
    status to [available] while exactly one booking of the room is
    pending or approved is answered 400 and writes nothing.  Any other
    change (to another status, whatever bookings the room has; to
    [available] when the room has no active booking, or has several)
    is answered 200: the room gets the status and the time of the
    request, and no other room, no booking and no tenant is touched. *)
Theorem room_status_change e uid roomId body s st r p o :
  requested_status body = Some st ->
  rooms s !! roomId = Some r ->
  properties s !! room_property_id r = Some p ->
  owners s !! property_owner_id p = Some o ->
  owner_user_id o = uid ->
  let out := run (update_room_status e uid roomId body) s in
  (st = Available -> length (room_active_bookings roomId s) = 1%nat ->
   out = (s, Rooms.failure 400
               "Cannot mark room as available while it has active bookings"))
  /\ (st <> Available \/ length (room_active_bookings roomId s) <> 1%nat ->
      Rooms.status (snd out) = 200
      /\ rooms (fst out) = <[roomId := with_status st (now e) r]> (rooms s)
      /\ bookings (fst out) = bookings s
      /\ tenants (fst out) = tenants s
      /\ notifications (fst out) = notifications s).
Proof.
  intros Hst Hr Hp Ho Hu out. subst out.
  unfold update_room_status. rewrite Hst. simpl.
  rewrite (room_of_user_owned _ _ _ _ _ _ Hr Hp Ho), Hu, String.eqb_refl.
  split.
  - intros -> Hone. simpl. apply single_exactly_one in Hone.
    destruct Hone as [x Hx]. unfold room_active_booking. rewrite Hx.
    reflexivity.
  - intros Hfree.
    pose proof (update_room_run e uid roomId st s r Hr) as Hup.
    destruct (room_status_eqb st Available) eqn:E.
    + apply room_status_eqb_eq in E.
      destruct Hfree as [Hfree|Hfree]; [contradiction|].
      destruct (room_active_booking roomId s) as [x|] eqn:Ex.
      { contradiction Hfree. apply single_exactly_one. exists x. exact Ex. }
      simpl. rewrite Ex. rewrite Hup. repeat split; reflexivity.
    + rewrite Hup. repeat split; reflexivity.
Qed.

(** X16: a request for a room that is served on the store which the
    owner's change of the room's status to one other than [available]
    leaves is not granted: whoever asks, the answer is not 201 and
    nothing is written.  (The room is open to requests again once its
    status is [available] again, which a later change of status, and a
    rejection or a cancellation of a booking of the room, make it.) *)
Theorem unavailable_room_is_not_booked e uid roomId body s st e' uid' body' v :
  requested_status body = Some st ->
  st <> Available ->
  Rooms.status (snd (run (update_room_status e uid roomId body) s)) = 200 ->
  validate e' body' = inr v ->
  wanted_room v = roomId ->
  let s' := fst (run (update_room_status e uid roomId body) s) in
  fst (run (book_room e' uid' body') s') = s'
  /\ Bookings.status (snd (run (book_room e' uid' body') s')) <> 201.
Proof.
  intros Hst Hne Hok Hv Hw s'.
  assert (room_state_of (key (rooms s') roomId) s' = Some st) as Hs'.
  { subst s'. revert Hok. unfold update_room_status. rewrite Hst. simpl.
    destruct (room_of_user roomId uid s) as [r|]; [|discriminate].
    destruct (room_status_eqb st Available) eqn:E.
    { apply room_status_eqb_eq in E. contradiction. }
    simpl. unfold update_room.
    destruct (rooms s !! key (rooms s) roomId) as [r'|] eqn:Hr';
      [|discriminate].
    simpl. intros _. unfold room_state_of. simpl.
    rewrite (key_insert _ _ _ _ _ Hr'), lookup_insert_eq. reflexivity. }
  assert (Bookings.status (snd (run (book_room e' uid' body') s')) <> 201)
    as Hno.
  { intros H. apply (book_room_created_needs_available _ _ _ _ _ Hv) in H.
    rewrite Hw, Hs' in H. congruence. }
  split; [|exact Hno].
  revert Hno. unfold book_room. rewrite Hv. simpl.
  destruct (tenant_of_user uid' s') as [[tid t]|]; [|reflexivity]. simpl.
  destruct (active_booking tid s'); [reflexivity|]. simpl.
  destruct (available_room (wanted_room v) s') as [[[r p] o]|]; [|reflexivity].
  simpl. unfold insert_booking.
  destruct (new_booking e' tid v (room_property_id r)); [|reflexivity].
  destruct (bookings s' !! fresh_id e'); [reflexivity|]. simpl.
  intros H. contradiction H. reflexivity.
Qed.

(** The store a change of coordinates leaves. *)
Lemma room_coordinates_store C uid roomId b s r p o la lo :
  invalid b = [] ->
  rooms s !! roomId = Some r ->
  properties s !! room_property_id r = Some p ->
  owners s !! property_owner_id p = Some o ->
  owner_user_id o = uid ->
  to_column C 10 8 (parse_float (body_latitude b)) = Some la ->
  to_column C 11 8 (parse_float (body_longitude b)) = Some lo ->
  let out := run (update_room_coordinates C uid roomId b) s in
  exists r',
    (snd out
     = {| Rooms.status := 200;
          Rooms.body :=
            RoomChanged "Room coordinates updated successfully" roomId r' |}
     /\ fst out
        = logActivity uid "update" "rooms" roomId
            (set_rooms s (<[roomId := r']> (rooms s))))
    /\ room_latitude r' = la /\ room_longitude r' = lo
    /\ room_state r' = room_state r
    /\ rent_amount r' = rent_amount r
    /\ room_type r' = room_type r
    /\ room_property_id r' = room_property_id r
    /\ room_last_updated r' = room_last_updated r.
Proof.
  intros Hv Hr Hp Ho Hu Hla Hlo out. subst out.
  unfold update_room_coordinates. rewrite Hv. simpl.
  rewrite (room_of_user_owned _ _ _ _ _ _ Hr Hp Ho), Hu, String.eqb_refl.
  simpl. unfold update_room_with. rewrite (key_hit _ _ _ Hr), Hr.
  unfold with_coordinates.
  rewrite Hla, Hlo. simpl. eexists. repeat split; reflexivity.
Qed.

(** X17: for the owner of the room's property and a body that passed
    validation, a change of coordinates that the two columns accept is
    answered 200: the room gets what the columns keep of the parsed
    latitude and longitude, its status and [last_updated] stay, and no
    other room, no booking and no tenant is touched. *)
Theorem room_coordinates_change C uid roomId b s r p o la lo :
  invalid b = [] ->
  rooms s !! roomId = Some r ->
  properties s !! room_property_id r = Some p ->
  owners s !! property_owner_id p = Some o ->
  owner_user_id o = uid ->
  to_column C 10 8 (parse_float (body_latitude b)) = Some la ->
  to_column C 11 8 (parse_float (body_longitude b)) = Some lo ->
  let out := run (update_room_coordinates C uid roomId b) s in
  Rooms.status (snd out) = 200
  /\ (room_latitude <$> rooms (fst out) !! roomId) = Some la
  /\ (room_longitude <$> rooms (fst out) !! roomId) = Some lo
  /\ room_state_of roomId (fst out) = room_state_of roomId s
  /\ (room_last_updated <$> rooms (fst out) !! roomId)
     = (room_last_updated <$> rooms s !! roomId)
  /\ (forall other, other <> roomId ->
        rooms (fst out) !! other = rooms s !! other)
  /\ bookings (fst out) = bookings s
  /\ tenants (fst out) = tenants s.
Proof.
  intros Hv Hr Hp Ho Hu Hla Hlo out.
  destruct (room_coordinates_store C uid roomId b s r p o la lo
              Hv Hr Hp Ho Hu Hla Hlo)
    as (r' & [Hres Hs] & Hrla & Hrlo & Hst & _ & _ & _ & Hlu).
  fold out in Hres, Hs. rewrite Hres, Hs. unfold room_state_of. simpl.
  rewrite lookup_insert_eq, Hr. simpl. rewrite Hrla, Hrlo, Hst, Hlu.
  repeat split; try reflexivity.
  intros other Hne. apply lookup_insert_ne. congruence.
Qed.

Lemma keeps_coordinates q r r' p :
  room_state r' = room_state r -> rent_amount r' = rent_amount r ->
  room_type r' = room_type r ->
  keeps q r' p = keeps q r p.
Proof. intros H1 H2 H3. unfold keeps. rewrite H1, H2, H3. reflexivity. Qed.

(** X18: on a host whose [Math] satisfies [Math.laws], once the owner
    has put an available room at a latitude and a longitude that are
    not 0 and that the columns keep as written, a search centred on
    the same latitude and longitude, with filters the room passes and
    a radius from 0 up, lists the room with these coordinates and the
    distance 0. *)
Theorem located_room_is_found M (ML : Math.laws M) C uid roomId b s r p o
  req lat lon :
  let q := params req in
  let radKm :=
    if param_truthy (radius q)
    then JsParse.parseFloat (param_text (radius q)) else 10%float in
  invalid b = [] ->
  rooms s !! roomId = Some r ->
  properties s !! room_property_id r = Some p ->
  owners s !! property_owner_id p = Some o ->
  owner_user_id o = uid ->
  parse_float (body_latitude b) = lat ->
  parse_float (body_longitude b) = lon ->
  decimal C 10 8 lat = Some lat ->
  decimal C 11 8 lon = Some lon ->
  PrimFloat.leb (PrimFloat.abs lat) 90 = true ->
  PrimFloat.leb (PrimFloat.abs lon) 180 = true ->
  PrimFloat.is_zero lat = false ->
  PrimFloat.is_zero lon = false ->
  param_truthy (latitude q) && param_truthy (longitude q) = true ->
  JsParse.parseFloat (param_text (latitude q)) = lat ->
  JsParse.parseFloat (param_text (longitude q)) = lon ->
  PrimFloat.leb 0 radKm = true ->
  keeps (filters q) r p = true ->
  let s' := fst (run (update_room_coordinates C uid roomId b) s) in
  exists row,
    In row (rooms_of (available_rooms M s' req))
    /\ get row "id" = VStr roomId
    /\ get row "latitude" = VNum lat
    /\ get row "longitude" = VNum lon
    /\ get row "distance_km" = VNum 0.
Proof.
  intros q radKm Hv Hr Hp Ho Hu Hbla Hblo Hdla Hdlo Hla Hlo Hzla Hzlo
    Hgeo Hqla Hqlo Hrad Hk s'.
  pose proof (abs_le_finite lat 6333186975989760 (-46) Hla eq_refl) as Hfla.
  pose proof (abs_le_finite lon 6333186975989760 (-45) Hlo eq_refl) as Hflo.
  destruct (room_coordinates_store C uid roomId b s r p o (Some lat) (Some lon)
              Hv Hr Hp Ho Hu) as (r' & [_ Hs] & Hrla & Hrlo & Hst & Hrent & Hty
                                  & Hpid & _).
  { unfold to_column. rewrite Hbla, Hfla, Hdla. reflexivity. }
  { unfold to_column. rewrite Hblo, Hflo, Hdlo. reflexivity. }
  fold s' in Hs.
  assert (rooms s' = <[roomId := r']> (rooms s)) as Hrs
    by (rewrite Hs; reflexivity).
  assert (properties s' = properties s) as Hps by (rewrite Hs; reflexivity).
  assert (owners s' = owners s) as Hos by (rewrite Hs; reflexivity).
  exists (spread_with (room_json roomId r'
                         (property_json (room_property_id r') p o))
            "distance_km" (VNum 0)).
  split.
  - unfold available_rooms. fold q. rewrite Hgeo. simpl.
    rewrite Hqla, Hqlo. fold radKm. apply near_In.
    exists (room_json roomId r' (property_json (room_property_id r') p o)).
    split; [|split].
    + apply run_query_In. exists roomId, r', p, o.
      rewrite Hrs, lookup_insert_eq, Hps, Hos, Hpid, Hp, Ho.
      rewrite (keeps_coordinates _ _ _ _ Hst Hrent Hty).
      repeat split; assumption.
    + symmetry. apply (centre_distance M ML); assumption.
    + apply within_spec. right. exact Hrad.
  - simpl. rewrite Hrla, Hrlo. repeat split; reflexivity.
Qed.

End RoomFacts.

(** ** The tenant's listing *)

Section ListingFacts.
Import Db Bookings Listing.
Local Open Scope string_scope.



(** X23: for a user with an owner profile the owner's listing is
    answered 200 and writes nothing; it holds every booking of the
    store, each once, whoever owns its property: of a booking of
    another owner's property only the embedded property is withheld. *)
Theorem owner_bookings_lists_every_booking uid s oid o :
  owner_of_user uid s = Some (oid, o) ->
  let out := run (owner_bookings uid) s in
  fst out = s
  /\ owner_status (snd out) = 200
  /\ (forall v,
        In v (seen (snd out)) <->
        exists b,
          bookings s !! seen_id v = Some b
          /\ v = seen_by oid s (seen_id v, b))
  /\ List.NoDup (List.map seen_id (seen (snd out)))
  /\ (forall v p,
        In v (seen (snd out)) ->
        properties s !! booking_property_id (seen_booking v) = Some p ->
        property_owner_id p <> oid ->
        seen_property v = None).
Proof.
  intros Ho out. subst out. unfold owner_bookings. simpl. rewrite Ho. simpl.
  split; [reflexivity|]. split; [reflexivity|]. unfold seen. simpl.
  unfold bookings_seen_by.
  assert (forall v,
             In v (Js.sort seen_newest_first
                     (List.map (seen_by oid s) (map_to_list (bookings s))))
             <-> exists b,
                   bookings s !! seen_id v = Some b
                   /\ v = seen_by oid s (seen_id v, b)) as Hin.
  { intros v. rewrite sort_In, List.in_map_iff. split.
    - intros ([k b] & <- & Hin).
      apply list_elem_of_In, elem_of_map_to_list in Hin.
      exists b. split; [exact Hin|reflexivity].
    - intros (b & Hb & Hv). exists (seen_id v, b).
      split; [symmetry; exact Hv|].
      apply list_elem_of_In, elem_of_map_to_list. exact Hb. }
  split; [exact Hin|]. split.
  - eapply Permutation_NoDup.
    { apply Permutation_map. symmetry. apply sort_perm. }
    rewrite List.map_map. simpl.
    apply NoDup_ListNoDup, NoDup_fst_map_to_list.
  - intros v p Hv Hp Hne. apply Hin in Hv. destruct Hv as (b & _ & Hv).
    rewrite Hv in Hp |- *. simpl in Hp |- *.
    rewrite Hp, (string_eqb_neq _ _ Hne). reflexivity.
Qed.

End ListingFacts.

(** ** The route that adds a room *)

Section NewRoomFacts.
Import Js Db Search Bookings.
Local Open Scope string_scope.

Lemma property_of_user_joins propertyId uid s p :
  NewRoom.property_of_user propertyId uid s = Some p ->
  properties s !! key (properties s) propertyId = Some p
  /\ exists o, owners s !! property_owner_id p = Some o.
Proof.
  unfold NewRoom.property_of_user.
  destruct (properties s !! key (properties s) propertyId) as [p'|];
    [|discriminate].
  destruct (owners s !! property_owner_id p') as [o|] eqn:Eo; [|discriminate].
  destruct (String.eqb _ _); [|discriminate].
  intros [= <-]. split; [reflexivity|]. exists o. exact Eo.
Qed.

Lemma new_room_row C t propertyId b r :
  NewRoom.new_room C t propertyId b = Some r ->
  room_property_id r = propertyId
  /\ room_number r = NewRoom.text_or_empty (NewRoom.roomNumber b)
  /\ room_state r = Available
  /\ (truthy (NewRoom.parsed_if_text (NewRoom.latitude b))
      && truthy (NewRoom.parsed_if_text (NewRoom.longitude b)) = false ->
      room_latitude r = None /\ room_longitude r = None).
Proof.
  unfold NewRoom.new_room.
  destruct (Rooms.varchar C 50 _ && Rooms.varchar C 100 _); [|discriminate].
  destruct (Rooms.to_column C 10 2 (Rooms.parse_float _)) as [[rent|]|];
    try discriminate.
  destruct (Rooms.to_column C 10 2 _) as [dep|]; [|discriminate].
  destruct (truthy (NewRoom.parsed_if_text (NewRoom.latitude b))
            && truthy (NewRoom.parsed_if_text (NewRoom.longitude b))).
  - destruct (NewRoom.parsed_if_text (NewRoom.latitude b)); try discriminate.
    destruct (NewRoom.parsed_if_text (NewRoom.longitude b)); try discriminate.
    destruct (Rooms.to_column C 10 8 _); [|discriminate].
    destruct (Rooms.to_column C 11 8 _); [|discriminate].
    intros [= <-]. simpl. repeat split; discriminate.
  - intros [= <-]. simpl. repeat split; reflexivity.
Qed.

(** What an answer 201 says of the request and of the store. *)
Lemma add_room_created C e uid propertyId b s :
  NewRoom.status (snd (run (NewRoom.add_room C e uid propertyId b) s)) = 201 ->
  exists p r,
    NewRoom.property_of_user propertyId uid s = Some p
    /\ NewRoom.new_room C (now e) propertyId b = Some r
    /\ rooms s !! fresh_id e = None
    /\ NewRoom.rooms_numbered (key (properties s) propertyId)
         (room_number r) s = []
    /\ run (NewRoom.add_room C e uid propertyId b) s
       = (logActivity uid "create" "rooms" (fresh_id e)
            (set_rooms s (<[fresh_id e := NewRoom.kept s r]> (rooms s))),
          {| NewRoom.status := 201;
             NewRoom.body :=
               NewRoom.RoomAdded (fresh_id e) (NewRoom.kept s r) |}).
Proof.
  unfold NewRoom.add_room.
  destruct (NewRoom.invalid b); [|discriminate].
  destruct (eq_null (NewRoom.rentAmount b)); [discriminate|]. simpl.
  destruct (NewRoom.property_of_user propertyId uid s) as [p|] eqn:Ep;
    simpl; [|discriminate].
  destruct (single (NewRoom.rooms_numbered (key (properties s) propertyId)
                      (NewRoom.text_or_empty (NewRoom.roomNumber b)) s));
    simpl; [discriminate|].
  unfold NewRoom.insert_room.
  destruct (NewRoom.new_room C (now e) propertyId b) as [r|] eqn:Er;
    simpl; [|discriminate].
  destruct (new_room_row _ _ _ _ _ Er) as (Hpid & _).
  destruct (rooms s !! fresh_id e) eqn:Ef; simpl; [discriminate|].
  rewrite Hpid.
  destruct (NewRoom.rooms_numbered (key (properties s) propertyId)
              (room_number r) s) eqn:En;
    simpl; [|discriminate].
  intros _. exists p, r. repeat split; try reflexivity; assumption.
Qed.

(** X20: when the addition of a room is answered 201, a search without
    a centre and without a filter on the store it leaves lists the new
    room, under the key the store gave it, with the property and the
    number of the request and the status [available].  The property is
    shown by its key, whatever the spelling of the id in the request. *)
Theorem added_room_is_listed M C e uid propertyId b s req :
  NewRoom.status (snd (run (NewRoom.add_room C e uid propertyId b) s)) = 201 ->
  unfiltered req ->
  let s' := fst (run (NewRoom.add_room C e uid propertyId b) s) in
  exists row,
    In row (rooms_of (available_rooms M s' req))
    /\ get row "id" = VStr (fresh_id e)
    /\ get row "property_id" = VStr (key (properties s) propertyId)
    /\ get row "room_number"
       = VStr (NewRoom.text_or_empty (NewRoom.roomNumber b))
    /\ get row "status" = VStr "available".
Proof.
  intros Hok [Hgeo Hfil] s'.
  destruct (add_room_created _ _ _ _ _ _ Hok)
    as (p & r & Hp & Hr & _ & _ & Hrun).
  destruct (property_of_user_joins _ _ _ _ Hp) as [Hpl [o Hol]].
  destruct (new_room_row _ _ _ _ _ Hr) as (Hpid & Hnum & Hst & _).
  assert (s' = logActivity uid "create" "rooms" (fresh_id e)
                 (set_rooms s (<[fresh_id e := NewRoom.kept s r]> (rooms s))))
    as Hs'.
  { unfold s'. rewrite Hrun. reflexivity. }
  exists (room_json (fresh_id e) (NewRoom.kept s r)
            (property_json (room_property_id (NewRoom.kept s r)) p o)).
  split.
  - unfold available_rooms. rewrite Hgeo. simpl. apply run_query_In.
    exists (fresh_id e), (NewRoom.kept s r), p, o. rewrite Hs'. simpl.
    rewrite lookup_insert_eq, Hpid, Hpl, Hol.
    repeat split. unfold keeps. rewrite Hfil. simpl. rewrite Hst.
    reflexivity.
  - simpl. rewrite Hpid, Hnum, Hst. repeat split; reflexivity.
Qed.

Lemma rooms_numbered_count propertyId number (m : gmap string room_row) i r :
  m !! i = None ->
  length (List.filter
            (fun kv : string * room_row =>
               String.eqb (room_property_id (snd kv)) propertyId
               && String.eqb (room_number (snd kv)) number)
            (map_to_list (<[i := r]> m)))
  = ((if String.eqb (room_property_id r) propertyId
         && String.eqb (room_number r) number then 1 else 0)
     + length (List.filter
                 (fun kv : string * room_row =>
                    String.eqb (room_property_id (snd kv)) propertyId
                    && String.eqb (room_number (snd kv)) number)
                 (map_to_list m)))%nat.
Proof.
  intros H.
  exact (count_insert_fresh
           (fun kv : string * room_row =>
              String.eqb (room_property_id (snd kv)) propertyId
              && String.eqb (room_number (snd kv)) number) m i r H).
Qed.

(** X21: the addition of a room keeps the numbers of the rooms of a
    property distinct; and, where they are distinct, a request with a
    number that a room of the property has is answered 400 "Room number
    already exists in this property" and writes nothing, whatever the
    spelling of the property's id in the request. *)
Theorem room_numbers_stay_unique C e uid propertyId b s :
  numbers_unique s ->
  numbers_unique (fst (run (NewRoom.add_room C e uid propertyId b) s))
  /\ (forall p id r,
        NewRoom.invalid b = [] ->
        eq_null (NewRoom.rentAmount b) = false ->
        NewRoom.property_of_user propertyId uid s = Some p ->
        rooms s !! id = Some r ->
        room_property_id r = key (properties s) propertyId ->
        room_number r = NewRoom.text_or_empty (NewRoom.roomNumber b) ->
        run (NewRoom.add_room C e uid propertyId b) s
        = (s, NewRoom.failure 400
                "Room number already exists in this property")).
Proof.
  intros Huniq. split.
  - destruct (Z.eq_dec
                (NewRoom.status
                   (snd (run (NewRoom.add_room C e uid propertyId b) s)))
                201) as [Hok|Hno].
    + destruct (add_room_created _ _ _ _ _ _ Hok)
        as (p & r & _ & Hr & Hf & Hn & ->).
      destruct (new_room_row _ _ _ _ _ Hr) as (Hpid & _).
      intros pid number. unfold NewRoom.rooms_numbered, select_where. simpl.
      rewrite (rooms_numbered_count pid number (rooms s) (fresh_id e)
                 (NewRoom.kept s r) Hf).
      destruct (String.eqb (room_property_id (NewRoom.kept s r)) pid
                && String.eqb (room_number (NewRoom.kept s r)) number) eqn:E.
      * apply andb_true_iff in E. destruct E as [E1 E2].
        apply String.eqb_eq in E1, E2. subst pid number. simpl.
        rewrite Hpid. unfold NewRoom.rooms_numbered, select_where in Hn.
        rewrite Hn. simpl. lia.
      * apply (Huniq pid number).
    + assert (fst (run (NewRoom.add_room C e uid propertyId b) s) = s) as ->;
        [|exact Huniq].
      revert Hno. unfold NewRoom.add_room.
      destruct (NewRoom.invalid b); [|reflexivity].
      destruct (eq_null (NewRoom.rentAmount b)); [reflexivity|]. simpl.
      destruct (NewRoom.property_of_user propertyId uid s); simpl;
        [|reflexivity].
      destruct (single (NewRoom.rooms_numbered (key (properties s) propertyId)
                          (NewRoom.text_or_empty (NewRoom.roomNumber b)) s));
        simpl; [reflexivity|].
      unfold NewRoom.insert_room.
      destruct (NewRoom.new_room C (now e) propertyId b) as [r|]; simpl;
        [|reflexivity].
      destruct (rooms s !! fresh_id e); simpl; [reflexivity|].
      destruct (NewRoom.rooms_numbered _ _ s); simpl; [|reflexivity].
      intros H. contradiction H. reflexivity.
  - intros p id r Hv Hrent Hp Hr Hpid Hnum.
    unfold NewRoom.add_room. rewrite Hv, Hrent. simpl. rewrite Hp.
    assert (In (id, r)
              (NewRoom.rooms_numbered (key (properties s) propertyId)
                 (NewRoom.text_or_empty (NewRoom.roomNumber b)) s)) as Hin.
    { apply select_where_In. split; [exact Hr|].
      rewrite Hpid, Hnum, !String.eqb_refl. reflexivity. }
    specialize (Huniq (key (properties s) propertyId)
                  (NewRoom.text_or_empty (NewRoom.roomNumber b))).
    assert (exists x,
               single (NewRoom.rooms_numbered (key (properties s) propertyId)
                         (NewRoom.text_or_empty (NewRoom.roomNumber b)) s)
               = Some x) as [x Hx].
    { destruct (NewRoom.rooms_numbered (key (properties s) propertyId)
                  (NewRoom.text_or_empty (NewRoom.roomNumber b)) s)
        as [|x [|y l]]; simpl in *; [contradiction|eauto|lia]. }
    simpl. rewrite Hx. reflexivity.
Qed.

Lemma nan_is_not_zero : nan <> 0%float.
Proof.
  intros H. apply (f_equal PrimFloat.is_nan) in H. vm_compute in H.
  discriminate.
Qed.

Lemma zero_is_not_truthy v :
  Rooms.parse_float v = 0%float -> truthy (NewRoom.parsed_if_text v) = false.
Proof.
  destruct v as [| |x|x|text|fs]; simpl;
    try (intros H; contradiction (nan_is_not_zero H)).
  - destruct (PrimFloat.is_zero x) eqn:E; [reflexivity|].
    intros ->. discriminate E.
  - destruct (String.eqb text "") eqn:E; simpl.
    + rewrite E. reflexivity.
    + intros ->. reflexivity.
Qed.

(** X22: a room added with a latitude or a longitude that reads as 0
    is stored without coordinates, whatever the other one is: the
    answer 201 carries a row whose latitude and longitude are both
    [null]. *)
Theorem room_at_zero_gets_no_coordinates C e uid propertyId b s :
  Rooms.parse_float (NewRoom.latitude b) = 0%float
  \/ Rooms.parse_float (NewRoom.longitude b) = 0%float ->
  NewRoom.status (snd (run (NewRoom.add_room C e uid propertyId b) s)) = 201 ->
  exists r,
    NewRoom.body (snd (run (NewRoom.add_room C e uid propertyId b) s))
    = NewRoom.RoomAdded (fresh_id e) r
    /\ rooms (fst (run (NewRoom.add_room C e uid propertyId b) s))
       !! fresh_id e = Some r
    /\ room_latitude r = None /\ room_longitude r = None.
Proof.
  intros Hzero Hok.
  destruct (add_room_created _ _ _ _ _ _ Hok)
    as (p & r & _ & Hr & _ & _ & ->).
  destruct (new_room_row _ _ _ _ _ Hr) as (_ & _ & _ & Hnone).
  exists (NewRoom.kept s r). simpl. rewrite lookup_insert_eq.
  split; [reflexivity|]. split; [reflexivity|]. apply Hnone.
  destruct Hzero as [H|H]; rewrite (zero_is_not_truthy _ H);
    [reflexivity|apply andb_false_r].
Qed.

End NewRoomFacts.

(** ** The further properties on the example data *)


(** Room 1 of the sample house, which has no coordinates, in a search
    around (12.9716, 77.5946). *)
Lemma nearby_listing_is_exact_witness :
  In (Js.spread_with
        (Search.room_json Sample.room1 (Sample.a_room "101" Db.Available)
           (Search.property_json Sample.property1 Sample.lake_view
              Sample.asha))
        "distance_km" Js.VNull)
     (Search.rooms_of
        (Search.available_rooms Sample.small_angle Sample.house
           (Sample.anonymous (Sample.around (Some "10"%string) None)))).
Proof.
  apply (proj2 (nearby_listing_is_exact Sample.small_angle Sample.house
                  (Sample.anonymous (Sample.around (Some "10"%string) None))
                  _ eq_refl)).
  exists Sample.room1, (Sample.a_room "101" Db.Available),
    Sample.lake_view, Sample.asha.
  repeat split; try (vm_compute; reflexivity).
  left. reflexivity.
Defined.

(** The sample house by rent, cheapest first. *)
Lemma listing_by_rent_is_ordered_witness :
  Sorted (fun a b => PrimFloat.ltb (rent_of b) (rent_of a) = false)
    (Search.rooms_of
       (Search.available_rooms Sample.small_angle Sample.house
          (Sample.anonymous
             (Sample.anywhere (Some "rent"%string) (Some "asc"%string))))).
Proof.
  exact (listing_by_rent_is_ordered Sample.small_angle Sample.house
           (Sample.anonymous
              (Sample.anywhere (Some "rent"%string) (Some "asc"%string)))
           eq_refl eq_refl).
Defined.

(** Room 1 at (12.9716, 77.5946) in a search of 5 km around that
    point. *)
Lemma room_at_the_centre_is_found_witness :
  In (Js.spread_with
        (Search.room_json Sample.room1
           (Sample.a_room_at "101" 12.9716%float 77.5946%float)
           (Search.property_json Sample.property1 Sample.lake_view
              Sample.asha))
        "distance_km" (Js.VNum 0))
     (Search.rooms_of
        (Search.available_rooms Sample.small_angle Sample.located
           (Sample.anonymous
              (Sample.around (Some "5"%string) (Some "distance"%string))))).
Proof.
  apply (room_at_the_centre_is_found Sample.small_angle small_angle_laws
           Sample.located
           (Sample.anonymous
              (Sample.around (Some "5"%string) (Some "distance"%string)))
           Sample.room1 (Sample.a_room_at "101" 12.9716%float 77.5946%float)
           Sample.lake_view Sample.asha 12.9716%float 77.5946%float);
    vm_compute; reflexivity.
Defined.

(** Tenant 2 tries to cancel tenant 1's booking. *)
Lemma refused_request_changes_nothing_witness :
  fst (Bookings.run
         (Bookings.handler
            (Bookings.CancelBooking (Sample.host Sample.booking2)
               Sample.tenant2_user Sample.booking1))
         (Sample.one_booking Db.Pending Db.Reserved))
  = Sample.one_booking Db.Pending Db.Reserved.
Proof.
  apply refused_request_changes_nothing; vm_compute; discriminate.
Defined.

(** The second owner decides on a booking of the first owner's
    property. *)
Lemma decide_needs_ownership_witness :
  Bookings.run
    (Bookings.update_status (Sample.host Sample.booking2)
       Sample.owner2_user Sample.booking1 (Sample.says "approved"))
    Sample.town
  = (Sample.town,
     Bookings.failure 404 "Booking not found or access denied").
Proof.
  apply (decide_needs_ownership (Sample.host Sample.booking2)
           Sample.owner2_user Sample.booking1 (Sample.says "approved")
           Sample.town Db.Approved Sample.owner2 Sample.kiran
           (Sample.a_booking Sample.tenant1 Sample.room1 Db.Pending)
           Sample.lake_view);
    vm_compute; try reflexivity; discriminate.
Defined.

(** Tenant 2 cancels tenant 1's booking. *)
Lemma cancel_needs_own_booking_witness :
  Bookings.run
    (Bookings.cancel (Sample.host Sample.booking2) Sample.tenant2_user
       Sample.booking1)
    (Sample.one_booking Db.Pending Db.Reserved)
  = (Sample.one_booking Db.Pending Db.Reserved,
     Bookings.failure 404 "Booking not found or access denied").
Proof.
  apply (cancel_needs_own_booking (Sample.host Sample.booking2)
           Sample.tenant2_user Sample.booking1
           (Sample.one_booking Db.Pending Db.Reserved)
           Sample.tenant2 Sample.meena
           (Sample.a_booking Sample.tenant1 Sample.room1 Db.Pending));
    vm_compute; try reflexivity; discriminate.
Defined.

(** Tenant 1 cancels the rejected booking of room 1 while tenant 2's
    booking of the room is pending: the room is available, and tenant
    2's booking still pending. *)
Lemma cancel_frees_the_room_witness :
  let out :=
    Bookings.run
      (Bookings.cancel (Sample.host Sample.booking3) Sample.tenant1_user
         Sample.booking1)
      Sample.rebooked in
  Bookings.status (snd out) = 200
  /\ Bookings.state_of Sample.booking1 (fst out) = Some Db.Cancelled
  /\ Bookings.room_state_of Sample.room1 (fst out) = Some Db.Available
  /\ Bookings.state_of Sample.booking2 (fst out) = Some Db.Pending.
Proof.
  destruct (cancel_frees_the_room (Sample.host Sample.booking3)
              Sample.tenant1_user Sample.booking1 Sample.rebooked
              Sample.tenant1 Sample.ravi
              (Sample.a_booking Sample.tenant1 Sample.room1 Db.Rejected)
              (Sample.a_room "101" Db.Reserved) Sample.lake_view
              ltac:(vm_compute; reflexivity) ltac:(vm_compute; reflexivity)
              eq_refl ltac:(vm_compute; reflexivity)
              ltac:(vm_compute; reflexivity) ltac:(discriminate))
    as (H1 & H2 & H3 & H4 & _).
  split; [exact H1|]. split; [exact H2|]. split; [exact H3|].
  unfold Bookings.state_of. rewrite (H4 Sample.booking2 ltac:(discriminate)).
  vm_compute. reflexivity.
Defined.

(** Tenant 1 asks for room 1 and is refused by the owner, then asks
    again. *)
Lemma released_room_can_be_booked_again_witness :
  let s2 :=
    Bookings.apply_all
      [Bookings.CreateBooking (Sample.host Sample.booking1)
         Sample.tenant1_user (Sample.wants Sample.room1);
       Bookings.DecideBooking (Sample.host Sample.booking2)
         Sample.owner1_user Sample.booking1 (Sample.says "rejected")]
      Sample.house in
  Bookings.room_state_of Sample.room1 s2 = Some Db.Available
  /\ Bookings.active_bookings Sample.tenant1 s2 = []
  /\ Bookings.status
       (snd (Bookings.run
               (Bookings.book_room (Sample.host Sample.booking2)
                  Sample.tenant1_user (Sample.wants Sample.room1)) s2))
     = 201.
Proof.
  apply (released_room_can_be_booked_again
           (Sample.host Sample.booking1) Sample.tenant1_user
           (Sample.wants Sample.room1) Sample.house
           {| Bookings.wanted_room := Sample.room1;
              Bookings.wanted_move_in := Some "2024-06-01T00:00:00.000Z"%string;
              Bookings.wanted_move_out := None;
              Bookings.wanted_notes := None |}
           Sample.tenant1 Sample.ravi
           (Sample.a_room "101" Db.Available) Sample.lake_view Sample.asha
           Sample.owner1_user Sample.asha
           (Bookings.DecideBooking (Sample.host Sample.booking2)
              Sample.owner1_user Sample.booking1 (Sample.says "rejected"))
           (Sample.host Sample.booking2) (Sample.wants Sample.room1)
           {| Bookings.wanted_room := Sample.room1;
              Bookings.wanted_move_in := Some "2024-06-01T00:00:00.000Z"%string;
              Bookings.wanted_move_out := None;
              Bookings.wanted_notes := None |});
    first [ vm_compute; reflexivity
          | vm_compute; split; discriminate
          | repeat split; reflexivity
          | vm_compute; discriminate ].
Defined.

(** Tenant 1 asks for room 1, the owner approves, tenant 1 cancels. *)
Lemma approved_booking_cancelled_witness :
  let s1 :=
    Bookings.apply
      (Bookings.CreateBooking (Sample.host Sample.booking1)
         Sample.tenant1_user (Sample.wants Sample.room1)) Sample.house in
  let s2 :=
    Bookings.apply
      (Bookings.DecideBooking (Sample.host Sample.booking2)
         Sample.owner1_user Sample.booking1 (Sample.says "approved")) s1 in
  let s3 :=
    Bookings.apply
      (Bookings.CancelBooking (Sample.host Sample.booking3)
         Sample.tenant1_user Sample.booking1) s2 in
  (Bookings.state_of Sample.booking1 s1 = Some Db.Pending
   /\ Bookings.room_state_of Sample.room1 s1 = Some Db.Reserved)
  /\ (Bookings.state_of Sample.booking1 s2 = Some Db.Approved
      /\ Bookings.room_state_of Sample.room1 s2 = Some Db.Occupied
      /\ Db.tenant_room_number <$> Db.tenants s2 !! Sample.tenant1
         = Some (Some "101"%string))
  /\ (Bookings.state_of Sample.booking1 s3 = Some Db.Cancelled
      /\ Bookings.room_state_of Sample.room1 s3 = Some Db.Available
      /\ Db.tenant_room_number <$> Db.tenants s3 !! Sample.tenant1
         = Some (Some "101"%string)).
Proof.
  apply (approved_booking_cancelled
           (Sample.host Sample.booking1) Sample.tenant1_user
           (Sample.wants Sample.room1) Sample.house
           {| Bookings.wanted_room := Sample.room1;
              Bookings.wanted_move_in := Some "2024-06-01T00:00:00.000Z"%string;
              Bookings.wanted_move_out := None;
              Bookings.wanted_notes := None |}
           Sample.tenant1 Sample.ravi
           (Sample.a_room "101" Db.Available) Sample.lake_view Sample.asha
           Sample.owner1_user Sample.asha
           (Sample.host Sample.booking2) (Sample.says "approved")
           (Sample.host Sample.booking3));
    first [ vm_compute; reflexivity | vm_compute; split; discriminate ].
Defined.

(** Tenant 1's pending booking under an approval and a cancellation. *)
Lemma bookings_are_kept_witness :
  exists b',
    Db.bookings
      (Bookings.apply_all
         [Bookings.DecideBooking (Sample.host Sample.booking2)
            Sample.owner1_user Sample.booking1 (Sample.says "approved");
          Bookings.CancelBooking (Sample.host Sample.booking3)
            Sample.tenant1_user Sample.booking1]
         (Sample.one_booking Db.Pending Db.Reserved))
      !! Sample.booking1 = Some b'
    /\ same_request
         (Sample.a_booking Sample.tenant1 Sample.room1 Db.Pending) b'
    /\ moves Db.Pending (Db.booking_state b') = true.
Proof.
  apply (bookings_are_kept _ (Sample.one_booking Db.Pending Db.Reserved)
           Sample.booking1
           (Sample.a_booking Sample.tenant1 Sample.room1 Db.Pending)).
  vm_compute. reflexivity.
Defined.

(** The sample house, where nobody has a booking, under two requests of
    tenant 1. *)
Lemma tenants_keep_one_active_booking_witness :
  Bookings.one_active
    (Bookings.apply_all
       [Bookings.CreateBooking (Sample.host Sample.booking1)
          Sample.tenant1_user (Sample.wants Sample.room1);
        Bookings.CreateBooking (Sample.host Sample.booking2)
          Sample.tenant1_user (Sample.wants Sample.room2)]
       Sample.house).
Proof.
  apply tenants_keep_one_active_booking.
  intros tid. unfold Bookings.active_bookings, Db.select_where. simpl.
  rewrite map_to_list_empty. simpl. lia.
Defined.

(** The second owner asks for changes of room 1, which is the first
    owner's. *)
Lemma room_routes_need_ownership_witness :
  Bookings.run
    (Rooms.update_room_status (Sample.host Sample.booking2)
       Sample.owner2_user Sample.room1 (Sample.asks "maintenance"))
    Sample.town
  = (Sample.town, Rooms.failure 404 "Room not found or access denied")
  /\ Bookings.run
       (Rooms.update_room_coordinates Sample.wide Sample.owner2_user
          Sample.room1 Sample.at_centre)
       Sample.town
     = (Sample.town, Rooms.failure 404 "Room not found or access denied").
Proof.
  destruct (room_routes_need_ownership Sample.wide
              (Sample.host Sample.booking2) Sample.owner2_user Sample.room1
              Sample.town (Sample.a_room "101" Db.Reserved)
              Sample.lake_view Sample.asha
              ltac:(vm_compute; reflexivity) ltac:(vm_compute; reflexivity)
              ltac:(vm_compute; reflexivity) ltac:(discriminate))
    as [A B].
  split; [apply (A _ Db.Maintenance); reflexivity|apply B; reflexivity].
Defined.

(** The owner marks room 1 available while tenant 1's booking of it is
    pending. *)
Lemma room_status_change_witness :
  Bookings.run
    (Rooms.update_room_status (Sample.host Sample.booking2)
       Sample.owner1_user Sample.room1 (Sample.asks "available"))
    Sample.town
  = (Sample.town,
     Rooms.failure 400
       "Cannot mark room as available while it has active bookings").
Proof.
  apply (proj1 (room_status_change (Sample.host Sample.booking2)
                  Sample.owner1_user Sample.room1 (Sample.asks "available")
                  Sample.town Db.Available (Sample.a_room "101" Db.Reserved)
                  Sample.lake_view Sample.asha
                  eq_refl ltac:(vm_compute; reflexivity)
                  ltac:(vm_compute; reflexivity)
                  ltac:(vm_compute; reflexivity) eq_refl)).
  - reflexivity.
  - vm_compute. reflexivity.
Defined.

(** The owner puts room 1 under maintenance; tenant 1 asks for it. *)
Lemma unavailable_room_is_not_booked_witness :
  let s' :=
    fst (Bookings.run
           (Rooms.update_room_status (Sample.host Sample.booking2)
              Sample.owner1_user Sample.room1 (Sample.asks "maintenance"))
           Sample.house) in
  fst (Bookings.run
         (Bookings.book_room (Sample.host Sample.booking1)
            Sample.tenant1_user (Sample.wants Sample.room1)) s') = s'
  /\ Bookings.status
       (snd (Bookings.run
               (Bookings.book_room (Sample.host Sample.booking1)
                  Sample.tenant1_user (Sample.wants Sample.room1)) s'))
     <> 201.
Proof.
  apply (unavailable_room_is_not_booked (Sample.host Sample.booking2)
           Sample.owner1_user Sample.room1 (Sample.asks "maintenance")
           Sample.house Db.Maintenance
           (Sample.host Sample.booking1) Sample.tenant1_user
           (Sample.wants Sample.room1)
           {| Bookings.wanted_room := Sample.room1;
              Bookings.wanted_move_in := Some "2024-06-01T00:00:00.000Z"%string;
              Bookings.wanted_move_out := None;
              Bookings.wanted_notes := None |});
    try (vm_compute; reflexivity).
  discriminate.
Defined.

(** The owner puts room 1 at (12.9716, 77.5946). *)
Lemma room_coordinates_change_witness :
  let out :=
    Bookings.run
      (Rooms.update_room_coordinates Sample.wide Sample.owner1_user
         Sample.room1 Sample.at_centre)
      Sample.house in
  Rooms.status (snd out) = 200
  /\ (Db.room_latitude <$> Db.rooms (fst out) !! Sample.room1)
     = Some (Some 12.9716%float)
  /\ (Db.room_longitude <$> Db.rooms (fst out) !! Sample.room1)
     = Some (Some 77.5946%float)
  /\ Bookings.room_state_of Sample.room1 (fst out) = Some Db.Available.
Proof.
  destruct (room_coordinates_change Sample.wide Sample.owner1_user
              Sample.room1 Sample.at_centre Sample.house
              (Sample.a_room "101" Db.Available) Sample.lake_view Sample.asha
              (Some 12.9716%float) (Some 77.5946%float)
              eq_refl ltac:(vm_compute; reflexivity)
              ltac:(vm_compute; reflexivity) ltac:(vm_compute; reflexivity)
              eq_refl ltac:(vm_compute; reflexivity)
              ltac:(vm_compute; reflexivity))
    as (H1 & H2 & H3 & H4 & _).
  split; [exact H1|]. split; [exact H2|]. split; [exact H3|].
  rewrite H4. vm_compute. reflexivity.
Defined.

(** The owner puts room 1 at (12.9716, 77.5946); a search of 5 km
    around that point. *)
Lemma located_room_is_found_witness :
  let s' :=
    fst (Bookings.run
           (Rooms.update_room_coordinates Sample.wide Sample.owner1_user
              Sample.room1 Sample.at_centre)
           Sample.house) in
  exists row,
    In row
      (Search.rooms_of
         (Search.available_rooms Sample.small_angle s'
            (Sample.anonymous (Sample.around (Some "5"%string) None))))
    /\ Js.get row "id" = Js.VStr Sample.room1
    /\ Js.get row "latitude" = Js.VNum 12.9716%float
    /\ Js.get row "longitude" = Js.VNum 77.5946%float
    /\ Js.get row "distance_km" = Js.VNum 0.
Proof.
  apply (located_room_is_found Sample.small_angle small_angle_laws
           Sample.wide Sample.owner1_user Sample.room1 Sample.at_centre
           Sample.house (Sample.a_room "101" Db.Available)
           Sample.lake_view Sample.asha
           (Sample.anonymous (Sample.around (Some "5"%string) None))
           12.9716%float 77.5946%float);
    vm_compute; reflexivity.
Defined.


(** The owner adds room 104 to the sample house. *)
Lemma added_room_is_listed_witness :
  let s' :=
    fst (Bookings.run
           (NewRoom.add_room Sample.wide (Sample.host Sample.room4)
              Sample.owner1_user Sample.property1
              (Sample.a_new_room "104" 12.9716%float))
           Sample.house) in
  exists row,
    In row
      (Search.rooms_of
         (Search.available_rooms Sample.small_angle s'
            (Sample.anonymous (Sample.anywhere None None))))
    /\ Js.get row "id" = Js.VStr Sample.room4
    /\ Js.get row "property_id" = Js.VStr Sample.property1
    /\ Js.get row "room_number" = Js.VStr "104"
    /\ Js.get row "status" = Js.VStr "available".
Proof.
  apply (added_room_is_listed Sample.small_angle Sample.wide
           (Sample.host Sample.room4) Sample.owner1_user Sample.property1
           (Sample.a_new_room "104" 12.9716%float) Sample.house
           (Sample.anonymous (Sample.anywhere None None))).
  - vm_compute. reflexivity.
  - split; reflexivity.
Defined.

Lemma house_numbers_unique : numbers_unique Sample.house.
Proof.
  intros pid number. unfold NewRoom.rooms_numbered, Db.select_where.
  assert (map_to_list (Db.rooms Sample.house)
          = [(Sample.room3, Sample.a_room "103" Db.Available);
             (Sample.room1, Sample.a_room "101" Db.Available);
             (Sample.room2, Sample.a_room "102" Db.Available)]) as ->
    by (vm_compute; reflexivity).
  cbn [List.filter fst snd Db.room_property_id Db.room_number Sample.a_room].
  destruct (String.eqb Sample.property1 pid);
    destruct (String.eqb_spec "103" number) as [E3|H3];
    destruct (String.eqb_spec "101" number) as [E1|H1];
    destruct (String.eqb_spec "102" number) as [E2|H2];
    try congruence; simpl; lia.
Defined.

(** The owner adds a second room 101 to the sample house. *)
Lemma room_numbers_stay_unique_witness :
  Bookings.run
    (NewRoom.add_room Sample.wide (Sample.host Sample.room4)
       Sample.owner1_user Sample.property1
       (Sample.a_new_room "101" 12.9716%float))
    Sample.house
  = (Sample.house,
     NewRoom.failure 400 "Room number already exists in this property").
Proof.
  apply (proj2 (room_numbers_stay_unique Sample.wide
                  (Sample.host Sample.room4) Sample.owner1_user
                  Sample.property1 (Sample.a_new_room "101" 12.9716%float)
                  Sample.house house_numbers_unique)
           Sample.lake_view Sample.room1 (Sample.a_room "101" Db.Available));
    vm_compute; reflexivity.
Defined.

(** The owner adds room 104 on the equator. *)
Lemma room_at_zero_gets_no_coordinates_witness :
  let out :=
    Bookings.run
      (NewRoom.add_room Sample.wide (Sample.host Sample.room4)
         Sample.owner1_user Sample.property1 (Sample.a_new_room "104" 0))
      Sample.house in
  exists r,
    NewRoom.body (snd out) = NewRoom.RoomAdded Sample.room4 r
    /\ Db.rooms (fst out) !! Sample.room4 = Some r
    /\ Db.room_latitude r = None /\ Db.room_longitude r = None.
Proof.
  apply (room_at_zero_gets_no_coordinates Sample.wide
           (Sample.host Sample.room4) Sample.owner1_user Sample.property1
           (Sample.a_new_room "104" 0) Sample.house).
  - left. reflexivity.
  - vm_compute. reflexivity.
Defined.

(** The second owner, who has no property, asks for the listing while
    tenant 1 holds a booking of the first owner's room 1. *)
Lemma owner_bookings_lists_every_booking_witness :
  let out :=
    Bookings.run (Listing.owner_bookings Sample.owner2_user) Sample.town in
  fst out = Sample.town
  /\ Listing.owner_status (snd out) = 200
  /\ In (Listing.seen_by Sample.owner2 Sample.town
           (Sample.booking1,
            Sample.a_booking Sample.tenant1 Sample.room1 Db.Pending))
        (Listing.seen (snd out))
  /\ Listing.seen_property
       (Listing.seen_by Sample.owner2 Sample.town
          (Sample.booking1,
           Sample.a_booking Sample.tenant1 Sample.room1 Db.Pending))
     = None.
Proof.
  destruct (owner_bookings_lists_every_booking Sample.owner2_user Sample.town
              Sample.owner2 Sample.kiran ltac:(vm_compute; reflexivity))
    as (H1 & H2 & H3 & _ & H5).
  assert (In (Listing.seen_by Sample.owner2 Sample.town
                (Sample.booking1,
                 Sample.a_booking Sample.tenant1 Sample.room1 Db.Pending))
             (Listing.seen
                (snd (Bookings.run (Listing.owner_bookings Sample.owner2_user)
                        Sample.town)))) as Hin.
  { apply H3.
    exists (Sample.a_booking Sample.tenant1 Sample.room1 Db.Pending).
    split; vm_compute; reflexivity. }
  split; [exact H1|]. split; [exact H2|]. split; [exact Hin|].
  apply (H5 _ Sample.lake_view Hin).
  - vm_compute. reflexivity.
  - discriminate.
Defined.
